(** * Windows MDM datastore (server/datastore/mysql/microsoft_mdm.go)

    A shallow embedding of the MySQL-backed Windows MDM datastore: the
    tables are finite maps and lists, every SQL statement of the Go source
    is a function on them, and the Go functions thread the database
    explicitly and return a [Result]. *)

From stdpp Require Import gmap strings list fin_maps.
From Stdlib Require Import ZArith Lia.
From Stdlib.Strings Require Import Byte.

Set Warnings "-clear-no-such-hyp".

Open Scope string_scope.
Open Scope list_scope.

(** ** Errors and results *)

Inductive error :=
  | notFound (kind : string)
  | alreadyExists (kind ident : string)
  | existsError (ResourceType Identifier : string) (TeamID : option N)
  | errorMsg (msg : string).

(** A Go call returns a value, returns an error, or panics. *)
Inductive Result (A : Type) :=
  | Ok (a : A)
  | Err (e : error)
  | Panic.
Arguments Ok {A} a.
Arguments Err {A} e.
Arguments Panic {A}.

#[global] Instance Result_ret : MRet Result := fun A a => Ok a.
#[global] Instance Result_bind : MBind Result := fun A B f m =>
  match m with
  | Ok a => f a
  | Err e => Err e
  | Panic => Panic
  end.

(** ** SQL three-valued logic

    A nullable column is an [option]; a condition evaluates to TRUE, FALSE
    or NULL, and WHERE, CASE WHEN and IF take a branch only on TRUE. *)

Definition sql_bool := option bool.

Definition sql_and (a b : sql_bool) : sql_bool :=
  match a, b with
  | Some false, _ => Some false
  | _, Some false => Some false
  | Some true, Some true => Some true
  | _, _ => None
  end.

Definition sql_or (a b : sql_bool) : sql_bool :=
  match a, b with
  | Some true, _ => Some true
  | _, Some true => Some true
  | Some false, Some false => Some false
  | _, _ => None
  end.

Definition sql_not (a : sql_bool) : sql_bool := negb <$> a.

Definition is_not_null {A} (x : option A) : sql_bool :=
  Some (match x with Some _ => true | None => false end).

Definition is_null {A} (x : option A) : sql_bool :=
  Some (match x with Some _ => false | None => true end).

Definition sql_cmp {A} (f : A → A → bool) (x : option A) (y : A) : sql_bool :=
  (λ a, f a y) <$> x.

Definition sql_true (c : sql_bool) : bool :=
  match c with Some true => true | _ => false end.

Infix "&&&" := sql_and (at level 40, left associativity).
Infix "|||" := sql_or (at level 50, left associativity).

Definition COALESCE {A} (x y : option A) : option A :=
  match x with Some _ => x | None => y end.

(** ** Disk encryption tables *)

Inductive DiskEncryptionStatus :=
  | DiskEncryptionVerified
  | DiskEncryptionVerifying
  | DiskEncryptionActionRequired
  | DiskEncryptionEnforcing
  | DiskEncryptionFailed
  | DiskEncryptionRemovingEnforcement.

#[global] Instance DiskEncryptionStatus_eq_dec : EqDecision DiskEncryptionStatus.
Proof. solve_decision. Defined.

Record host_mdm_row := {
  hmdm_is_server : option bool;
  hmdm_enrolled : option bool;
  hmdm_mdm_id : option N }.

Record host_disk_encryption_keys_row := {
  hdek_base64_encrypted : option string;
  hdek_decryptable : option bool;
  hdek_client_error : option string;
  hdek_updated_at : option Z }.

Record host_disks_row := {
  hd_encrypted : option bool;
  hd_updated_at : option Z }.

(** One row of [host_mdm hmdm LEFT JOIN host_disk_encryption_keys hdek
    LEFT JOIN host_disks hd]: a side without a match is all NULL. *)
Record BitLockerJoin := {
  hmdm : option host_mdm_row;
  hdek : option host_disk_encryption_keys_row;
  hd : option host_disks_row }.

Definition is_server (j : BitLockerJoin) : option bool := hmdm j ≫= hmdm_is_server.
Definition base64_encrypted (j : BitLockerJoin) : option string := hdek j ≫= hdek_base64_encrypted.
Definition decryptable (j : BitLockerJoin) : option bool := hdek j ≫= hdek_decryptable.
Definition client_error (j : BitLockerJoin) : option string := hdek j ≫= hdek_client_error.
Definition key_updated_at (j : BitLockerJoin) : option Z := hdek j ≫= hdek_updated_at.
Definition encrypted (j : BitLockerJoin) : option bool := hd j ≫= hd_encrypted.
Definition disk_updated_at (j : BitLockerJoin) : option Z := hd j ≫= hd_updated_at.

Definition str_ne (a b : string) : bool := negb (String.eqb a b).

(** The six WHERE fragments of [whereBitLockerStatus]. *)

Definition whereNotServer (j : BitLockerJoin) : sql_bool :=
  is_not_null (is_server j) &&& sql_cmp Bool.eqb (is_server j) false.

Definition whereKeyAvailable (j : BitLockerJoin) : sql_bool :=
  is_not_null (base64_encrypted j) &&& sql_cmp str_ne (base64_encrypted j) ""
  &&& is_not_null (decryptable j) &&& sql_cmp Bool.eqb (decryptable j) true.

Definition whereEncrypted (j : BitLockerJoin) : sql_bool :=
  is_not_null (encrypted j) &&& sql_cmp Bool.eqb (encrypted j) true.

Definition whereHostDisksUpdated (j : BitLockerJoin) : sql_bool :=
  is_not_null (disk_updated_at j) &&& is_not_null (key_updated_at j)
  &&& match disk_updated_at j, key_updated_at j with
      | Some d, Some k => Some (k <=? d)%Z
      | _, _ => None
      end.

Definition whereClientError (j : BitLockerJoin) : sql_bool :=
  is_not_null (client_error j) &&& sql_cmp str_ne (client_error j) "".

(** [DATE_SUB(NOW(), INTERVAL 1 HOUR)], with time in seconds. *)
Definition one_hour_ago (now : Z) : Z := (now - 3600)%Z.

Definition withinGracePeriod (now : Z) (j : BitLockerJoin) : sql_bool :=
  is_not_null (key_updated_at j)
  &&& sql_cmp (λ k t, (t <=? k)%Z) (key_updated_at j) (one_hour_ago now).

(** [whereBitLockerStatus status]: the condition the returned SQL text
    denotes, on a joined row, when the statement runs at time [now]. *)
Definition whereBitLockerStatus (status : DiskEncryptionStatus)
    (now : Z) (j : BitLockerJoin) : sql_bool :=
  match status with
  | DiskEncryptionVerified =>
      whereNotServer j
      &&& sql_not (whereClientError j)
      &&& whereKeyAvailable j
      &&& whereEncrypted j
      &&& whereHostDisksUpdated j
  | DiskEncryptionVerifying =>
      whereNotServer j
      &&& sql_not (whereClientError j)
      &&& whereKeyAvailable j
      &&& ((whereEncrypted j &&& sql_not (whereHostDisksUpdated j))
           ||| (sql_not (whereEncrypted j) &&& whereHostDisksUpdated j
                &&& withinGracePeriod now j))
  | DiskEncryptionEnforcing =>
      whereNotServer j
      &&& sql_not (whereClientError j)
      &&& (sql_not (whereKeyAvailable j)
           ||| (whereKeyAvailable j
                &&& (sql_not (whereEncrypted j)
                     &&& (sql_not (whereHostDisksUpdated j)
                          ||| sql_not (withinGracePeriod now j)))))
  | DiskEncryptionFailed =>
      whereNotServer j &&& whereClientError j
  | _ => Some false
  end.

(** ** Host profile tables *)

Inductive MDMDeliveryStatus :=
  | MDMDeliveryFailed
  | MDMDeliveryPending
  | MDMDeliveryVerifying
  | MDMDeliveryVerified.

Inductive MDMOperationType :=
  | MDMOperationTypeInstall
  | MDMOperationTypeRemove.

#[global] Instance MDMDeliveryStatus_eq_dec : EqDecision MDMDeliveryStatus.
Proof. solve_decision. Defined.
#[global] Instance MDMOperationType_eq_dec : EqDecision MDMOperationType.
Proof. solve_decision. Defined.

Definition eqb_of `{EqDecision A} (x y : A) : bool := bool_decide (x = y).

(** A row of [host_mdm_windows_profiles] without its primary key
    [(host_uuid, profile_uuid)]. Three columns are nullable: the
    statements test [status] and [operation_type] for NULL and read
    [detail] through [COALESCE(detail, '')]. *)
Record host_mdm_windows_profiles_row := {
  hmwp_status : option MDMDeliveryStatus;
  hmwp_operation_type : option MDMOperationType;
  hmwp_detail : option string;
  hmwp_command_uuid : string;
  hmwp_profile_name : string }.

Record hosts_row := {
  h_id : N;
  h_uuid : string;
  h_platform : string;
  h_team_id : option N }.

Record MDMWindowsEnrolledDevice := {
  ID : N;
  MDMDeviceID : string;
  MDMHardwareID : string;
  HostUUID : string }.

Record MDMWindowsCommand := {
  CommandUUID : string;
  RawCommand : list byte;
  TargetLocURI : string }.

Record MDMWindowsConfigProfile := {
  ProfileUUID : string;
  TeamID : option N;
  Name : string;
  cp_SyncML : list byte }.

(** A row of [mdm_windows_configuration_profiles]; [team_id] is 0 for
    no team. *)
Record mdm_windows_configuration_profiles_row := {
  mwcp_profile_uuid : string;
  mwcp_team_id : N;
  mwcp_name : string;
  mwcp_syncml : list byte }.

Record mdm_apple_configuration_profiles_row := {
  macp_team_id : N;
  macp_name : string }.

(** A row of [windows_mdm_commands] without its key [command_uuid]. *)
Record windows_mdm_commands_row := {
  wmc_raw_command : list byte;
  wmc_target_loc_uri : string }.

Record windows_mdm_responses_row := {
  wmr_enrollment_id : N;
  wmr_raw_response : list byte }.

Record windows_mdm_command_results_row := {
  wmcr_raw_result : option (list byte);
  wmcr_response_id : N;
  wmcr_status_code : option string }.

(** ** The database *)

Record DB := {
  hosts : list hosts_row;
  host_mdm : gmap N host_mdm_row;
  mobile_device_management_solutions : gmap N string;
  host_disk_encryption_keys : gmap N host_disk_encryption_keys_row;
  host_disks : gmap N host_disks_row;
  mdm_windows_enrollments : list MDMWindowsEnrolledDevice;
  windows_mdm_commands : gmap string windows_mdm_commands_row;
  windows_mdm_command_queue : gset (N * string);
  windows_mdm_responses : list windows_mdm_responses_row;
  windows_mdm_command_results : gmap (N * string) windows_mdm_command_results_row;
  mdm_windows_configuration_profiles : list mdm_windows_configuration_profiles_row;
  mdm_apple_configuration_profiles : list mdm_apple_configuration_profiles_row;
  host_mdm_windows_profiles : gmap (string * string) host_mdm_windows_profiles_row }.

Definition set_windows_mdm_command_queue (q : gset (N * string)) (db : DB) : DB :=
  {| hosts := hosts db; host_mdm := host_mdm db;
     mobile_device_management_solutions := mobile_device_management_solutions db;
     host_disk_encryption_keys := host_disk_encryption_keys db;
     host_disks := host_disks db;
     mdm_windows_enrollments := mdm_windows_enrollments db;
     windows_mdm_commands := windows_mdm_commands db;
     windows_mdm_command_queue := q;
     windows_mdm_responses := windows_mdm_responses db;
     windows_mdm_command_results := windows_mdm_command_results db;
     mdm_windows_configuration_profiles := mdm_windows_configuration_profiles db;
     mdm_apple_configuration_profiles := mdm_apple_configuration_profiles db;
     host_mdm_windows_profiles := host_mdm_windows_profiles db |}.

Definition set_windows_mdm_responses (r : list windows_mdm_responses_row) (db : DB) : DB :=
  {| hosts := hosts db; host_mdm := host_mdm db;
     mobile_device_management_solutions := mobile_device_management_solutions db;
     host_disk_encryption_keys := host_disk_encryption_keys db;
     host_disks := host_disks db;
     mdm_windows_enrollments := mdm_windows_enrollments db;
     windows_mdm_commands := windows_mdm_commands db;
     windows_mdm_command_queue := windows_mdm_command_queue db;
     windows_mdm_responses := r;
     windows_mdm_command_results := windows_mdm_command_results db;
     mdm_windows_configuration_profiles := mdm_windows_configuration_profiles db;
     mdm_apple_configuration_profiles := mdm_apple_configuration_profiles db;
     host_mdm_windows_profiles := host_mdm_windows_profiles db |}.

Definition set_windows_mdm_command_results
    (r : gmap (N * string) windows_mdm_command_results_row) (db : DB) : DB :=
  {| hosts := hosts db; host_mdm := host_mdm db;
     mobile_device_management_solutions := mobile_device_management_solutions db;
     host_disk_encryption_keys := host_disk_encryption_keys db;
     host_disks := host_disks db;
     mdm_windows_enrollments := mdm_windows_enrollments db;
     windows_mdm_commands := windows_mdm_commands db;
     windows_mdm_command_queue := windows_mdm_command_queue db;
     windows_mdm_responses := windows_mdm_responses db;
     windows_mdm_command_results := r;
     mdm_windows_configuration_profiles := mdm_windows_configuration_profiles db;
     mdm_apple_configuration_profiles := mdm_apple_configuration_profiles db;
     host_mdm_windows_profiles := host_mdm_windows_profiles db |}.

Definition set_mdm_windows_configuration_profiles
    (p : list mdm_windows_configuration_profiles_row) (db : DB) : DB :=
  {| hosts := hosts db; host_mdm := host_mdm db;
     mobile_device_management_solutions := mobile_device_management_solutions db;
     host_disk_encryption_keys := host_disk_encryption_keys db;
     host_disks := host_disks db;
     mdm_windows_enrollments := mdm_windows_enrollments db;
     windows_mdm_commands := windows_mdm_commands db;
     windows_mdm_command_queue := windows_mdm_command_queue db;
     windows_mdm_responses := windows_mdm_responses db;
     windows_mdm_command_results := windows_mdm_command_results db;
     mdm_windows_configuration_profiles := p;
     mdm_apple_configuration_profiles := mdm_apple_configuration_profiles db;
     host_mdm_windows_profiles := host_mdm_windows_profiles db |}.

Definition set_host_mdm_windows_profiles
    (t : gmap (string * string) host_mdm_windows_profiles_row) (db : DB) : DB :=
  {| hosts := hosts db; host_mdm := host_mdm db;
     mobile_device_management_solutions := mobile_device_management_solutions db;
     host_disk_encryption_keys := host_disk_encryption_keys db;
     host_disks := host_disks db;
     mdm_windows_enrollments := mdm_windows_enrollments db;
     windows_mdm_commands := windows_mdm_commands db;
     windows_mdm_command_queue := windows_mdm_command_queue db;
     windows_mdm_responses := windows_mdm_responses db;
     windows_mdm_command_results := windows_mdm_command_results db;
     mdm_windows_configuration_profiles := mdm_windows_configuration_profiles db;
     mdm_apple_configuration_profiles := mdm_apple_configuration_profiles db;
     host_mdm_windows_profiles := t |}.

(** [LEFT JOIN host_disk_encryption_keys hdek ... LEFT JOIN host_disks hd]
    for one host id, next to the host's [host_mdm] row. *)
Definition bitlocker_join (db : DB) (host_id : N) : BitLockerJoin :=
  {| hmdm := host_mdm db !! host_id;
     hdek := host_disk_encryption_keys db !! host_id;
     hd := host_disks db !! host_id |}.

(** ** Disk encryption status and summary *)

Record HostMDM := { IsServer : bool }.

Record Host := {
  host_ID : N;
  host_UUID : string;
  Platform : string;
  host_TeamID : option N;
  MDMInfo : option HostMDM }.

Record HostMDMDiskEncryption := {
  Status : option DiskEncryptionStatus;
  Detail : string }.

Record MDMWindowsBitLockerSummary := {
  Verified : nat;
  Verifying : nat;
  ActionRequired : nat;
  Enforcing : nat;
  Failed : nat;
  RemovingEnforcement : nat }.

(** [h.team_id IS NULL], or [h.team_id = ?] for a team id above 0. *)
Definition teamFilter (teamID : option N) (h : hosts_row) : sql_bool :=
  match teamID with
  | Some t => if (0 <? t)%N then sql_cmp N.eqb (h_team_id h) t
              else is_null (h_team_id h)
  | None => is_null (h_team_id h)
  end.

(** [COUNT(if((cond), 1, NULL))] over the selected rows. *)
Definition COUNT_if {A} (cond : A → sql_bool) (rows : list A) : nat :=
  length (filter (λ r, sql_true (cond r) = true) rows).

(** The [CASE WHEN ... END AS status] of [GetMDMWindowsBitLockerStatus];
    no matching WHEN gives NULL. *)
Definition bitlocker_status_case (now : Z) (j : BitLockerJoin)
    : option DiskEncryptionStatus :=
  if sql_true (whereBitLockerStatus DiskEncryptionVerified now j)
  then Some DiskEncryptionVerified
  else if sql_true (whereBitLockerStatus DiskEncryptionVerifying now j)
  then Some DiskEncryptionVerifying
  else if sql_true (whereBitLockerStatus DiskEncryptionEnforcing now j)
  then Some DiskEncryptionEnforcing
  else if sql_true (whereBitLockerStatus DiskEncryptionFailed now j)
  then Some DiskEncryptionFailed
  else None.

Section DiskEncryption.

(** [ds.getConfigEnableDiskEncryption] is defined in another file of the
    package; it reads the configuration of the team. *)
Variable getConfigEnableDiskEncryption : DB → option N → Result bool.

(** The rows [GetMDMWindowsBitLockerSummary] counts:
    [hosts h LEFT JOIN ... WHERE h.platform = 'windows' AND
    hmdm.is_server = 0 AND <team filter>]. *)
Definition bitlocker_summary_where (db : DB) (teamID : option N) (h : hosts_row) : bool :=
  sql_true (Some (String.eqb (h_platform h) "windows")
            &&& sql_cmp Bool.eqb (is_server (bitlocker_join db (h_id h))) false
            &&& teamFilter teamID h).

Definition bitlocker_rows_of (db : DB) (teamID : option N) (hs : list hosts_row)
    : list BitLockerJoin :=
  bitlocker_join db ∘ h_id <$> filter (λ h, bitlocker_summary_where db teamID h = true) hs.

Definition bitlocker_summary_rows (db : DB) (teamID : option N) : list BitLockerJoin :=
  bitlocker_rows_of db teamID (hosts db).

Definition GetMDMWindowsBitLockerSummary (db : DB) (now : Z) (teamID : option N)
    : Result MDMWindowsBitLockerSummary :=
  enabled ← getConfigEnableDiskEncryption db teamID;
  if negb enabled then
    Ok {| Verified := 0; Verifying := 0; ActionRequired := 0;
          Enforcing := 0; Failed := 0; RemovingEnforcement := 0 |}
  else
    let rows := bitlocker_summary_rows db teamID in
    Ok {| Verified := COUNT_if (whereBitLockerStatus DiskEncryptionVerified now) rows;
          Verifying := COUNT_if (whereBitLockerStatus DiskEncryptionVerifying now) rows;
          ActionRequired := 0;
          Enforcing := COUNT_if (whereBitLockerStatus DiskEncryptionEnforcing now) rows;
          Failed := COUNT_if (whereBitLockerStatus DiskEncryptionFailed now) rows;
          RemovingEnforcement := 0 |}.

(** [host = None] is the nil pointer. The query selects from [host_mdm]
    by host id, so there is no row without a [host_mdm] row; a NULL
    status cannot be scanned into the destination and is an error. *)
Definition GetMDMWindowsBitLockerStatus (db : DB) (now : Z) (host : option Host)
    : Result (option HostMDMDiskEncryption) :=
  match host with
  | None => Err (errorMsg "host cannot be nil")
  | Some host =>
    if str_ne (Platform host) "windows" then Ok None
    else if match MDMInfo host with Some i => IsServer i | None => false end
    then Ok None
    else
      enabled ← getConfigEnableDiskEncryption db (host_TeamID host);
      if negb enabled then Ok None
      else
        match host_mdm db !! host_ID host with
        | None =>
            Ok (Some {| Status := Some DiskEncryptionEnforcing; Detail := "" |})
        | Some _ =>
            let j := bitlocker_join db (host_ID host) in
            match bitlocker_status_case now j with
            | Some s =>
                Ok (Some {| Status := Some s;
                            Detail := default "" (COALESCE (client_error j) (Some "")) |})
            | None => Err (errorMsg "sql: Scan error on column status")
            end
        end
  end.

End DiskEncryption.

(** A joined row of a host that is not a server and reports a client
    error: the premises of the precedence rule. *)
Definition has_client_error (j : BitLockerJoin) : Prop :=
  is_server j = Some false ∧ ∃ e, client_error j = Some e ∧ e ≠ "".

(** ** Profile delivery status and the combined summary *)

(** The rows of [host_mdm_windows_profiles] with [host_uuid = h.uuid]. *)
Definition host_profile_rows (db : DB) (host_uuid : string)
    : list host_mdm_windows_profiles_row :=
  snd <$> filter (λ kr, kr.1.1 = host_uuid) (map_to_list (host_mdm_windows_profiles db)).

Definition status_is (s : MDMDeliveryStatus) (r : host_mdm_windows_profiles_row) : sql_bool :=
  sql_cmp eqb_of (hmwp_status r) s.

Definition operation_is (o : MDMOperationType) (r : host_mdm_windows_profiles_row) : sql_bool :=
  sql_cmp eqb_of (hmwp_operation_type r) o.

(** [EXISTS (SELECT 1 FROM host_mdm_windows_profiles hmwp WHERE
    h.uuid = hmwp.host_uuid AND cond)]. *)
Definition EXISTS_profile (db : DB) (host_uuid : string)
    (cond : host_mdm_windows_profiles_row → sql_bool) : bool :=
  existsb (λ r, sql_true (cond r)) (host_profile_rows db host_uuid).

Definition subqueryHostsMDMWindowsOSSettingsStatusFailed (db : DB) (host_uuid : string) : bool :=
  EXISTS_profile db host_uuid (status_is MDMDeliveryFailed).

Definition subqueryHostsMDMWindowsOSSettingsStatusPending (db : DB) (host_uuid : string) : bool :=
  EXISTS_profile db host_uuid (λ hmwp,
    (is_null (hmwp_status hmwp) ||| status_is MDMDeliveryPending hmwp)
    &&& Some (negb (EXISTS_profile db host_uuid (status_is MDMDeliveryFailed)))).

Definition subqueryHostsMDMWindowsOSSettingsStatusVerifying (db : DB) (host_uuid : string) : bool :=
  EXISTS_profile db host_uuid (λ hmwp,
    operation_is MDMOperationTypeInstall hmwp
    &&& status_is MDMDeliveryVerifying hmwp
    &&& Some (negb (EXISTS_profile db host_uuid (λ hmwp2,
          operation_is MDMOperationTypeInstall hmwp2
          &&& (is_null (hmwp_status hmwp2)
               ||| sql_not (status_is MDMDeliveryVerifying hmwp2
                            ||| status_is MDMDeliveryVerified hmwp2)))))).

Definition subqueryHostsMDMWindowsOSSettingsStatusVerified (db : DB) (host_uuid : string) : bool :=
  EXISTS_profile db host_uuid (λ hmwp,
    operation_is MDMOperationTypeInstall hmwp
    &&& status_is MDMDeliveryVerified hmwp
    &&& Some (negb (EXISTS_profile db host_uuid (λ hmwp2,
          operation_is MDMOperationTypeInstall hmwp2
          &&& (is_null (hmwp_status hmwp2)
               ||| sql_not (status_is MDMDeliveryVerified hmwp2)))))).

(** [profilesStatus]: the first CASE of
    [getMDMWindowsStatusCountsProfilesAndBitLockerDB]. *)
Definition profilesStatus (db : DB) (host_uuid : string) : string :=
  if subqueryHostsMDMWindowsOSSettingsStatusFailed db host_uuid then "profiles_failed"
  else if subqueryHostsMDMWindowsOSSettingsStatusPending db host_uuid then "profiles_pending"
  else if subqueryHostsMDMWindowsOSSettingsStatusVerifying db host_uuid then "profiles_verifying"
  else if subqueryHostsMDMWindowsOSSettingsStatusVerified db host_uuid then "profiles_verified"
  else "".

(** [bitlockerStatus]: the second CASE. *)
Definition bitlockerStatus (now : Z) (j : BitLockerJoin) : string :=
  if sql_true (whereBitLockerStatus DiskEncryptionVerified now j) then "bitlocker_verified"
  else if sql_true (whereBitLockerStatus DiskEncryptionVerifying now j) then "bitlocker_verifying"
  else if sql_true (whereBitLockerStatus DiskEncryptionEnforcing now j) then "bitlocker_pending"
  else if sql_true (whereBitLockerStatus DiskEncryptionFailed now j) then "bitlocker_failed"
  else "".

(** [strip from s] is [Some rest] when [s = from ++ rest]. *)
Fixpoint strip (from s : string) : option string :=
  match from, s with
  | EmptyString, _ => Some s
  | String a from', String b s' => if Ascii.eqb a b then strip from' s' else None
  | String _ _, EmptyString => None
  end.

(** SQL [REPLACE(s, from, to)]: every occurrence of [from], found left to
    right, becomes [to]; [skip] characters of a found occurrence are still
    to be dropped. *)
Fixpoint REPLACE_from (skip : nat) (s from to : string) : string :=
  match s with
  | EmptyString => EmptyString
  | String c s' =>
      match skip with
      | S k => REPLACE_from k s' from to
      | O =>
          match from, strip from s with
          | String _ _, Some _ => to +:+ REPLACE_from (String.length from - 1) s' from to
          | _, _ => String c (REPLACE_from 0 s' from to)
          end
      end
  end.

Definition REPLACE (s from to : string) : string := REPLACE_from 0 s from to.

(** The status column of the SELECT of
    [getMDMWindowsStatusCountsProfilesAndBitLockerDB] for one host. *)
Definition profilesAndBitLockerStatus (db : DB) (now : Z) (h : hosts_row) : string :=
  let bitlocker := bitlockerStatus now (bitlocker_join db (h_id h)) in
  let profiles := profilesStatus db (h_uuid h) in
  if String.eqb profiles "profiles_failed" then "failed"
  else if String.eqb profiles "profiles_pending" then
    if String.eqb bitlocker "bitlocker_failed" then "failed"
    else "pending"
  else if String.eqb profiles "profiles_verifying" then
    if String.eqb bitlocker "bitlocker_failed" then "failed"
    else if String.eqb bitlocker "bitlocker_pending" then "pending"
    else "verifying"
  else if String.eqb profiles "profiles_verified" then
    if String.eqb bitlocker "bitlocker_failed" then "failed"
    else if String.eqb bitlocker "bitlocker_pending" then "pending"
    else if String.eqb bitlocker "bitlocker_verifying" then "verifying"
    else "verified"
  else REPLACE bitlocker "bitlocker_" "".

Record statusCounts := { sc_Status : string; sc_Count : nat }.

(** [GROUP BY status] with [SUM(1) AS count]. *)
Definition GROUP_BY_status (statuses : list string) : list statusCounts :=
  (λ s, {| sc_Status := s; sc_Count := length (filter (λ t, t = s) statuses) |})
    <$> remove_dups statuses.

(** [fleet.WellKnownMDMFleet], the name of Fleet's own MDM solution. *)
Definition WellKnownMDMFleet : string := "Fleet".

(** The hosts the combined summary selects: [hosts h JOIN host_mdm hmdm
    JOIN mobile_device_management_solutions mdms WHERE mdms.name = 'Fleet'
    AND hmdm.is_server = 0 AND hmdm.enrolled = 1 AND h.platform = 'windows'
    AND <team filter>]. *)
Definition counted_host (db : DB) (teamID : option N) (h : hosts_row) : bool :=
  match host_mdm db !! h_id h with
  | None => false
  | Some m =>
      match hmdm_mdm_id m ≫= (mobile_device_management_solutions db !!.) with
      | None => false
      | Some mdms_name =>
          sql_true (Some (String.eqb mdms_name WellKnownMDMFleet)
                    &&& sql_cmp Bool.eqb (hmdm_is_server m) false
                    &&& sql_cmp Bool.eqb (hmdm_enrolled m) true
                    &&& Some (String.eqb (h_platform h) "windows")
                    &&& teamFilter teamID h)
      end
  end.

Definition getMDMWindowsStatusCountsProfilesAndBitLockerDB
    (db : DB) (now : Z) (teamID : option N) : list statusCounts :=
  GROUP_BY_status
    (profilesAndBitLockerStatus db now <$> filter (λ h, counted_host db teamID h = true) (hosts db)).

(** *** The merge rule as the specification words it

    The four buckets, and the rule of section 4.6: the bucket of a host
    from its profile delivery status and its disk encryption class.  These
    definitions follow the specification, not the code; the code is the
    CASE expression [profilesAndBitLockerStatus] above. *)

Inductive spec_bucket := BucketFailed | BucketPending | BucketVerifying | BucketVerified.

Definition spec_merge_rule (delivery disk_encryption : spec_bucket) : spec_bucket :=
  match delivery with
  | BucketFailed => BucketFailed
  | BucketPending =>
      match disk_encryption with BucketFailed => BucketFailed | _ => BucketPending end
  | BucketVerifying =>
      match disk_encryption with
      | BucketFailed => BucketFailed
      | BucketPending => BucketPending
      | _ => BucketVerifying
      end
  | BucketVerified => disk_encryption
  end.

Definition spec_bucket_name (b : spec_bucket) : string :=
  match b with
  | BucketFailed => "failed"
  | BucketPending => "pending"
  | BucketVerifying => "verifying"
  | BucketVerified => "verified"
  end.

(** Enforcing is the class reported as pending. *)
Definition spec_disk_encryption_bucket (s : DiskEncryptionStatus) : option spec_bucket :=
  match s with
  | DiskEncryptionVerified => Some BucketVerified
  | DiskEncryptionVerifying => Some BucketVerifying
  | DiskEncryptionEnforcing => Some BucketPending
  | DiskEncryptionFailed => Some BucketFailed
  | _ => None
  end.

(** The value of [profilesStatus] that stands for a delivery status. *)
Definition spec_delivery_name (b : spec_bucket) : string :=
  match b with
  | BucketFailed => "profiles_failed"
  | BucketPending => "profiles_pending"
  | BucketVerifying => "profiles_verifying"
  | BucketVerified => "profiles_verified"
  end.

(** ** Profile reconciler *)

Record MDMWindowsProfilePayload := {
  pp_ProfileUUID : string;
  pp_ProfileName : string;
  pp_HostUUID : string;
  pp_Status : option MDMDeliveryStatus;
  pp_OperationType : option MDMOperationType;
  pp_Detail : string;
  pp_CommandUUID : string }.

(** The primary key [(host_uuid, profile_uuid)] a payload addresses. *)
Definition pp_key (p : MDMWindowsProfilePayload) : string * string :=
  (pp_HostUUID p, pp_ProfileUUID p).

(** The two batch sizes a test can override on the datastore. *)
Record Datastore := {
  testUpsertMDMDesiredProfilesBatchSize : Z;
  testDeleteMDMProfilesBatchSize : Z }.

(** [h.uuid IN (?)] when host uuids are given, [TRUE] otherwise. *)
Definition hostFilter (hostUUIDs : list string) (host_uuid : string) : bool :=
  match hostUUIDs with
  | [] => true
  | _ => bool_decide (host_uuid ∈ hostUUIDs)
  end.

(** [h.team_id = mwcp.team_id OR (h.team_id IS NULL AND mwcp.team_id = 0)] *)
Definition team_join (mwcp : mdm_windows_configuration_profiles_row) (h : hosts_row) : sql_bool :=
  sql_cmp N.eqb (h_team_id h) (mwcp_team_id mwcp)
  ||| (is_null (h_team_id h) &&& Some (N.eqb (mwcp_team_id mwcp) 0)).

(** The desired state [ds]: [mdm_windows_configuration_profiles mwcp JOIN
    hosts h JOIN mdm_windows_enrollments mwe WHERE h.platform = 'windows'
    AND (filter)], one element per joined row. *)
Definition desired_state (db : DB) (filter_host : string → bool)
    : list (mdm_windows_configuration_profiles_row * hosts_row) :=
  mwcp ← mdm_windows_configuration_profiles db;
  h ← hosts db;
  mwe ← mdm_windows_enrollments db;
  if sql_true (team_join mwcp h)
     && bool_decide (HostUUID mwe = h_uuid h)
     && String.eqb (h_platform h) "windows"
     && filter_host (h_uuid h)
  then [(mwcp, h)] else [].

Definition ds_key (d : mdm_windows_configuration_profiles_row * hosts_row) : string * string :=
  (h_uuid d.2, mwcp_profile_uuid d.1).

(** The WHERE of the install query on [ds LEFT JOIN hmwp]: no matching
    row, or a matching row with operation type install and NULL status. *)
Definition to_install (db : DB)
    (d : mdm_windows_configuration_profiles_row * hosts_row) : bool :=
  match host_mdm_windows_profiles db !! ds_key d with
  | None => true
  | Some hmwp =>
      sql_true (operation_is MDMOperationTypeInstall hmwp &&& is_null (hmwp_status hmwp))
  end.

Definition listMDMWindowsProfilesToInstallDB (db : DB) (hostUUIDs : list string)
    : list MDMWindowsProfilePayload :=
  (λ d, {| pp_ProfileUUID := mwcp_profile_uuid d.1;
           pp_ProfileName := mwcp_name d.1;
           pp_HostUUID := h_uuid d.2;
           pp_Status := None; pp_OperationType := None;
           pp_Detail := ""; pp_CommandUUID := "" |})
    <$> filter (λ d, to_install db d = true) (desired_state db (hostFilter hostUUIDs)).

(** The WHERE of the remove query on [ds RIGHT JOIN hmwp]: no desired row
    joins the [hmwp] row, and the row's host passes the filter. The desired
    state on the left is not filtered. The detail is selected as
    [COALESCE(hmwp.detail, '')]. *)
Definition to_remove (db : DB) (hostUUIDs : list string)
    (kr : string * string * host_mdm_windows_profiles_row) : bool :=
  forallb (λ d, negb (bool_decide (ds_key d = kr.1))) (desired_state db (λ _, true))
  && hostFilter hostUUIDs kr.1.1.

Definition listMDMWindowsProfilesToRemoveDB (db : DB) (hostUUIDs : list string)
    : list MDMWindowsProfilePayload :=
  (λ kr : string * string * host_mdm_windows_profiles_row,
     {| pp_ProfileUUID := kr.1.2;
        pp_ProfileName := "";
        pp_HostUUID := kr.1.1;
        pp_Status := hmwp_status kr.2;
        pp_OperationType := hmwp_operation_type kr.2;
        pp_Detail := default "" (hmwp_detail kr.2);
        pp_CommandUUID := hmwp_command_uuid kr.2 |})
    <$> filter (λ kr, to_remove db hostUUIDs kr = true)
               (map_to_list (host_mdm_windows_profiles db)).

(** The loop shared by the bulk functions: append each item to the
    pending batch and execute the batch once it holds [batchSize] items;
    what is left after the last item is executed too. Statements only fail
    on storage errors, which are outside this model. *)
Fixpoint batch_loop {A S} (executeBatch : list A → S → S) (batchSize : Z)
    (items args : list A) (batchCount : Z) (s : S) : S :=
  match items with
  | [] => if (0 <? batchCount)%Z then executeBatch args s else s
  | p :: items =>
      let args := args ++ [p] in
      let batchCount := (batchCount + 1)%Z in
      if (batchSize <=? batchCount)%Z
      then batch_loop executeBatch batchSize items [] 0%Z (executeBatch args s)
      else batch_loop executeBatch batchSize items args batchCount s
  end.

Definition defaultBatchSize : Z := 1000.

Definition batchSize_or_default (test : Z) : Z :=
  if (0 <? test)%Z then test else defaultBatchSize.

(** [DELETE FROM host_mdm_windows_profiles WHERE (profile_uuid, host_uuid)
    IN (...)] *)
Definition executeDeleteBatch (args : list MDMWindowsProfilePayload)
    (t : gmap (string * string) host_mdm_windows_profiles_row)
    : gmap (string * string) host_mdm_windows_profiles_row :=
  fold_left (λ t p, delete (pp_key p) t) args t.

Definition bulkDeleteMDMWindowsHostsConfigProfilesDB (ds : Datastore)
    (profs : list MDMWindowsProfilePayload) (tx : DB) : DB :=
  match profs with
  | [] => tx
  | _ =>
      set_host_mdm_windows_profiles
        (batch_loop executeDeleteBatch
           (batchSize_or_default (testDeleteMDMProfilesBatchSize ds))
           profs [] 0%Z (host_mdm_windows_profiles tx))
        tx
  end.

(** One row of the INSERT ... ON DUPLICATE KEY UPDATE of
    [bulkSetPendingMDMWindowsHostProfilesDB]. A new row takes the profile
    name of the payload; the INSERT does not name the nullable [detail]
    column, so the new row holds NULL there. An existing row keeps its
    name and has operation type, status and command uuid reset and
    [detail = ''] set. *)
Definition upsert_pending
    (t : gmap (string * string) host_mdm_windows_profiles_row)
    (p : MDMWindowsProfilePayload)
    : gmap (string * string) host_mdm_windows_profiles_row :=
  match t !! pp_key p with
  | None =>
      <[pp_key p := {| hmwp_status := None;
                       hmwp_operation_type := Some MDMOperationTypeInstall;
                       hmwp_detail := None;
                       hmwp_command_uuid := "";
                       hmwp_profile_name := pp_ProfileName p |}]> t
  | Some hmwp =>
      <[pp_key p := {| hmwp_status := None;
                       hmwp_operation_type := Some MDMOperationTypeInstall;
                       hmwp_detail := Some "";
                       hmwp_command_uuid := "";
                       hmwp_profile_name := hmwp_profile_name hmwp |}]> t
  end.

Definition executeUpsertBatch (args : list MDMWindowsProfilePayload)
    (t : gmap (string * string) host_mdm_windows_profiles_row)
    : gmap (string * string) host_mdm_windows_profiles_row :=
  fold_left upsert_pending args t.

Definition bulkSetPendingMDMWindowsHostProfilesDB (ds : Datastore)
    (uuids : list string) (tx : DB) : DB :=
  match uuids with
  | [] => tx
  | _ =>
      let profilesToInstall := listMDMWindowsProfilesToInstallDB tx uuids in
      let profilesToRemove := listMDMWindowsProfilesToRemoveDB tx uuids in
      match profilesToInstall, profilesToRemove with
      | [], [] => tx
      | _, _ =>
          let tx := bulkDeleteMDMWindowsHostsConfigProfilesDB ds profilesToRemove tx in
          set_host_mdm_windows_profiles
            (batch_loop executeUpsertBatch
               (batchSize_or_default (testUpsertMDMDesiredProfilesBatchSize ds))
               profilesToInstall [] 0%Z (host_mdm_windows_profiles tx))
            tx
      end
  end.

(** A row as the pending upsert leaves an existing row. *)
Definition is_reset (r : host_mdm_windows_profiles_row) : Prop :=
  hmwp_status r = None ∧ hmwp_operation_type r = Some MDMOperationTypeInstall
  ∧ hmwp_detail r = Some "" ∧ hmwp_command_uuid r = "".

(** A row as the pending upsert leaves it, inserted or updated: the
    detail is NULL or empty. *)
Definition is_waiting (r : host_mdm_windows_profiles_row) : Prop :=
  hmwp_status r = None ∧ hmwp_operation_type r = Some MDMOperationTypeInstall
  ∧ (hmwp_detail r = None ∨ hmwp_detail r = Some "") ∧ hmwp_command_uuid r = "".

(** The detail as the queries of the file read it:
    [COALESCE(detail, '')]. *)
Definition detail_read (r : host_mdm_windows_profiles_row) : string :=
  default "" (hmwp_detail r).

(** Two rows that no query of the file tells apart: the same status,
    operation type, command uuid and profile name, and the same detail
    once read through COALESCE. *)
Definition same_row_read (r r' : host_mdm_windows_profiles_row) : Prop :=
  hmwp_status r' = hmwp_status r
  ∧ hmwp_operation_type r' = hmwp_operation_type r
  ∧ hmwp_command_uuid r' = hmwp_command_uuid r
  ∧ hmwp_profile_name r' = hmwp_profile_name r
  ∧ detail_read r' = detail_read r.

(** ** Configuration profiles *)

(** Modelled from the spec: the schema of
    [mdm_windows_configuration_profiles] is not under src/; by the data
    model the profile identifier is unique and the name is unique within a
    team. This is [isDuplicate(err)] for an INSERT into the table: the new
    row collides with a stored one on the profile identifier or on
    (team, name). *)
Definition isDuplicate_profile (db : DB) (new : mdm_windows_configuration_profiles_row) : bool :=
  existsb (λ r, String.eqb (mwcp_profile_uuid r) (mwcp_profile_uuid new)
                || (N.eqb (mwcp_team_id r) (mwcp_team_id new)
                    && String.eqb (mwcp_name r) (mwcp_name new)))
          (mdm_windows_configuration_profiles db).

(** [SELECT 1 FROM mdm_apple_configuration_profiles WHERE name = ? AND
    team_id = ?] has a row. *)
Definition EXISTS_apple_profile (db : DB) (name : string) (teamID : N) : bool :=
  existsb (λ a, String.eqb (macp_name a) name && N.eqb (macp_team_id a) teamID)
          (mdm_apple_configuration_profiles db).

(** [profileUUID] is the fresh [uuid.New().String()]. The result comes
    with the database after the call. *)
Definition NewMDMWindowsConfigProfile (profileUUID : string)
    (cp : MDMWindowsConfigProfile) (db : DB)
    : Result MDMWindowsConfigProfile * DB :=
  let teamID := match TeamID cp with Some t => t | None => 0%N end in
  let new := {| mwcp_profile_uuid := profileUUID; mwcp_team_id := teamID;
                mwcp_name := Name cp; mwcp_syncml := cp_SyncML cp |} in
  (* INSERT ... (SELECT ?, ?, ?, ? FROM DUAL WHERE NOT EXISTS (...)) *)
  let selected := if EXISTS_apple_profile db (Name cp) teamID then [] else [new] in
  match selected with
  | [] =>
      (* no error, aff == 0 *)
      (Err (existsError "MDMWindowsConfigProfile.Name" (Name cp) (TeamID cp)), db)
  | _ =>
      if isDuplicate_profile db new then
        (Err (existsError "MDMWindowsConfigProfile.Name" (Name cp) (TeamID cp)), db)
      else
        (Ok {| ProfileUUID := profileUUID; Name := Name cp;
               cp_SyncML := cp_SyncML cp; TeamID := TeamID cp |},
         set_mdm_windows_configuration_profiles
           (mdm_windows_configuration_profiles db ++ [new]) db)
  end.

(** ** Response correlator *)

Record SyncMLCmd := {
  CmdRef : option string;
  Cmd : option string;
  Data : option string }.

Record ProtoCmdOperation := {
  Verb : string;
  pco_Cmd : SyncMLCmd }.

(** A parsed response: the raw bytes and the operations
    [GetOrderedCmds] returns, in protocol order. *)
Record SyncML := {
  Raw : list byte;
  GetOrderedCmds : list ProtoCmdOperation }.

(** Modelled from the spec: the protocol constants of package fleet are not
    under src/; the verbs are Status and Results, and Atomic is the command
    class of an atomic configuration change. *)
Definition CmdStatus : string := "Status".
Definition CmdResults : string := "Results".
Definition CmdAtomic : string := "Atomic".

Definition MDMWindowsGetEnrolledDeviceWithDeviceID (db : DB) (mdmDeviceID : string)
    : Result MDMWindowsEnrolledDevice :=
  match filter (λ e, MDMDeviceID e = mdmDeviceID) (mdm_windows_enrollments db) with
  | winMDMDevice :: _ => Ok winMDMDevice
  | [] => Err (notFound "MDMWindowsEnrolledDevice")
  end.

(** One attempt of a retried transaction: the database the attempt starts
    from, and whether the attempt ends in a transient conflict. *)
Record attempt := {
  at_start : DB;
  at_conflict : bool }.

(** Modelled from the spec: [withRetryTxx] is defined in another file of
    the package. It runs the closure in a transaction and runs it again on
    a transient conflict (serialization failure, deadlock); any other
    error aborts the call. Writers run concurrently, so every attempt
    starts from the database as it is at that moment. *)
Fixpoint withRetryTxx (attempts : list attempt) (fn : DB → Result DB) : Result DB :=
  match attempts with
  | [] => Err (errorMsg "transaction retries exhausted")
  | a :: attempts =>
      if at_conflict a then withRetryTxx attempts fn
      else fn (at_start a)
  end.

(** What the first loop of the transaction collects. *)
Record tracked := {
  cmdUUIDs : list string;
  uuidsToStatus : gmap string SyncMLCmd;
  uuidsToResults : gmap string SyncMLCmd }.

(** The arguments of one VALUES row of [insertResultsStmt]:
    [(enrollment_id, command_uuid, raw_result, response_id, status_code)].
    A Go string and a non-nil byte slice are sent as values, never as NULL;
    only a nil slice is NULL. *)
Record result_args := {
  ra_enrollment_id : N;
  ra_command_uuid : string;
  ra_raw_result : option (list byte);
  ra_response_id : N;
  ra_status_code : option string }.

(** [ON DUPLICATE KEY UPDATE raw_result = COALESCE(VALUES(raw_result),
    raw_result), status_code = COALESCE(VALUES(status_code), status_code)];
    the response id of an existing row is not updated. *)
Definition upsert_result
    (t : gmap (N * string) windows_mdm_command_results_row) (a : result_args)
    : gmap (N * string) windows_mdm_command_results_row :=
  let key := (ra_enrollment_id a, ra_command_uuid a) in
  match t !! key with
  | None =>
      <[key := {| wmcr_raw_result := ra_raw_result a;
                  wmcr_response_id := ra_response_id a;
                  wmcr_status_code := ra_status_code a |}]> t
  | Some old =>
      <[key := {| wmcr_raw_result := COALESCE (ra_raw_result a) (wmcr_raw_result old);
                  wmcr_response_id := wmcr_response_id old;
                  wmcr_status_code := COALESCE (ra_status_code a) (wmcr_status_code old) |}]> t
  end.

(** One VALUES row [(?, ?, ?, ?, command_uuid)] of [updateHostProfilesStmt]
    with [ON DUPLICATE KEY UPDATE detail = VALUES(detail), status =
    VALUES(status)]: an existing row keeps its command uuid, operation
    type and profile name. Without a row of that key the INSERT would
    create one, with no operation type and an empty command uuid and
    profile name. *)
Definition upsert_status
    (t : gmap (string * string) host_mdm_windows_profiles_row)
    (a : string * string * string * option MDMDeliveryStatus)
    : gmap (string * string) host_mdm_windows_profiles_row :=
  let '(key, detail, status) := a in
  match t !! key with
  | None =>
      <[key := {| hmwp_status := status; hmwp_operation_type := None;
                  hmwp_detail := Some detail; hmwp_command_uuid := "";
                  hmwp_profile_name := "" |}]> t
  | Some hmwp =>
      <[key := {| hmwp_status := status;
                  hmwp_operation_type := hmwp_operation_type hmwp;
                  hmwp_detail := Some detail;
                  hmwp_command_uuid := hmwp_command_uuid hmwp;
                  hmwp_profile_name := hmwp_profile_name hmwp |}]> t
  end.

(** The argument row for one matching host profile: the payload of its
    command uuid gives detail and status; without such a payload the map
    lookup is nil and reading its field panics. *)
Fixpoint status_args (uuidsToPayloads : gmap string MDMWindowsProfilePayload)
    (matchingHostProfiles : list (string * string * host_mdm_windows_profiles_row))
    : Result (list (string * string * string * option MDMDeliveryStatus)) :=
  match matchingHostProfiles with
  | [] => Ok []
  | hp :: rest =>
      match uuidsToPayloads !! hmwp_command_uuid hp.2 with
      | None => Panic
      | Some payload =>
          args ← status_args uuidsToPayloads rest;
          Ok ((hp.1, pp_Detail payload, pp_Status payload) :: args)
      end
  end.

Definition updateMDMWindowsHostProfileStatusFromResponseDB (tx : DB)
    (payloads : list MDMWindowsProfilePayload) : Result DB :=
  match payloads with
  | [] => Ok tx
  | first :: _ =>
      let hostUUID := pp_HostUUID first in
      if negb (forallb (λ payload, String.eqb (pp_HostUUID payload) hostUUID) payloads)
      then Err (errorMsg "all payloads must be for the same host uuid")
      else
        (* make([]string, len(payloads)) followed by append *)
        let commandUUIDs :=
          replicate (length payloads) "" ++ (pp_CommandUUID <$> payloads) in
        let uuidsToPayloads :=
          fold_left (λ m payload, <[pp_CommandUUID payload := payload]> m) payloads ∅ in
        let matchingHostProfiles :=
          filter (λ kr : string * string * host_mdm_windows_profiles_row,
                    kr.1.1 = hostUUID ∧ hmwp_command_uuid kr.2 ∈ commandUUIDs)
                 (map_to_list (host_mdm_windows_profiles tx)) in
        args ← status_args uuidsToPayloads matchingHostProfiles;
        match args with
        | [] =>
            (* the statement has no VALUES row *)
            Err (errorMsg "updating host profiles: SQL syntax error")
        | _ =>
            Ok (set_host_mdm_windows_profiles
                  (fold_left upsert_status args (host_mdm_windows_profiles tx)) tx)
        end
  end.

(** Two rows that differ at most in detail and status. *)
Definition same_assignment (r r' : host_mdm_windows_profiles_row) : Prop :=
  hmwp_operation_type r' = hmwp_operation_type r
  ∧ hmwp_command_uuid r' = hmwp_command_uuid r
  ∧ hmwp_profile_name r' = hmwp_profile_name r.

(** [t'] has the keys of [t], and its rows differ from the rows of [t]
    at most in detail and status. *)
Definition only_status_updated
    (t t' : gmap (string * string) host_mdm_windows_profiles_row) : Prop :=
  dom t' = dom t
  ∧ ∀ k r', t' !! k = Some r' → ∃ r, t !! k = Some r ∧ same_assignment r r'.

Section Correlator.

(** Three functions of other packages the transaction calls. *)
Variable ShouldBeTracked : SyncMLCmd → string → bool.
Variable BuildMDMWindowsProfilePayloadFromMDMResponse :
  MDMWindowsCommand → gmap string SyncMLCmd → string → Result MDMWindowsProfilePayload.
(** [xml.Marshal]; [None] is an error, which leaves the result nil. *)
Variable xml_Marshal : SyncMLCmd → option (list byte).

Definition track (acc : tracked) (protoOp : ProtoCmdOperation) : tracked :=
  match CmdRef (pco_Cmd protoOp) with
  | Some cmdRef =>
      if negb (ShouldBeTracked (pco_Cmd protoOp) (Verb protoOp)) then acc
      else if String.eqb (Verb protoOp) CmdStatus then
        {| cmdUUIDs := cmdUUIDs acc ++ [cmdRef];
           uuidsToStatus := <[cmdRef := pco_Cmd protoOp]> (uuidsToStatus acc);
           uuidsToResults := uuidsToResults acc |}
      else if String.eqb (Verb protoOp) CmdResults then
        {| cmdUUIDs := cmdUUIDs acc ++ [cmdRef];
           uuidsToStatus := uuidsToStatus acc;
           uuidsToResults := <[cmdRef := pco_Cmd protoOp]> (uuidsToResults acc) |}
      else acc
  | None => acc
  end.

(** [SELECT command_uuid, raw_command FROM windows_mdm_commands WHERE
    command_uuid IN (?)] *)
Definition findCommands (tx : DB) (uuids : list string) : list MDMWindowsCommand :=
  (λ kr : string * windows_mdm_commands_row,
     {| CommandUUID := kr.1; RawCommand := wmc_raw_command kr.2; TargetLocURI := "" |})
    <$> filter (λ kr, kr.1 ∈ uuids) (map_to_list (windows_mdm_commands tx)).

(** The loop over the matching commands: the VALUES rows of the results
    and the potential profile payloads. *)
Fixpoint collect_results (enrollment : MDMWindowsEnrolledDevice) (responseID : N)
    (tr : tracked) (matchingCmds : list MDMWindowsCommand)
    : Result (list result_args * list MDMWindowsProfilePayload) :=
  match matchingCmds with
  | [] => Ok ([], [])
  | cmd :: rest =>
      '(statusCode, pps) ←
        match uuidsToStatus tr !! CommandUUID cmd with
        | Some status =>
            match Data status with
            | Some data =>
                if bool_decide (Cmd status = Some CmdAtomic) then
                  pp ← BuildMDMWindowsProfilePayloadFromMDMResponse
                         cmd (uuidsToStatus tr) (HostUUID enrollment);
                  Ok (data, [pp])
                else Ok (data, [])
            | None => Ok ("", [])
            end
        | None => Ok ("", [])
        end;
      let rawResult :=
        match uuidsToResults tr !! CommandUUID cmd with
        | Some result =>
            match Data result with
            | Some _ => xml_Marshal result
            | None => Some []
            end
        | None => Some []
        end in
      '(args, potentialProfilePayloads) ← collect_results enrollment responseID tr rest;
      Ok ({| ra_enrollment_id := ID enrollment;
             ra_command_uuid := CommandUUID cmd;
             ra_raw_result := rawResult;
             ra_response_id := responseID;
             ra_status_code := Some statusCode |} :: args,
          pps ++ potentialProfilePayloads)
  end.

(** The closure given to [withRetryTxx]. *)
Definition saveResponseTx (enrollment : MDMWindowsEnrolledDevice)
    (fullResponse : SyncML) (tx : DB) : Result DB :=
  let tr := fold_left track (GetOrderedCmds fullResponse)
              {| cmdUUIDs := []; uuidsToStatus := ∅; uuidsToResults := ∅ |} in
  match cmdUUIDs tr with
  | [] => Ok tx
  | _ =>
      (* store the full response *)
      let responseID := (N.of_nat (length (windows_mdm_responses tx)) + 1)%N in
      let tx := set_windows_mdm_responses
                  (windows_mdm_responses tx
                   ++ [{| wmr_enrollment_id := ID enrollment;
                          wmr_raw_response := Raw fullResponse |}]) tx in
      match findCommands tx (cmdUUIDs tr) with
      | [] => Ok tx
      | matchingCmds =>
          '(args, potentialProfilePayloads) ←
            collect_results enrollment responseID tr matchingCmds;
          tx ← updateMDMWindowsHostProfileStatusFromResponseDB tx potentialProfilePayloads;
          (* store the command results *)
          let tx := set_windows_mdm_command_results
                      (fold_left upsert_result args (windows_mdm_command_results tx)) tx in
          (* dequeue the commands *)
          let matchingUUIDs := CommandUUID <$> matchingCmds in
          Ok (set_windows_mdm_command_queue
                (filter (λ ec : N * string, ec.2 ∉ matchingUUIDs)
                        (windows_mdm_command_queue tx)) tx)
      end
  end.

(** [db] is the database when the function is called; the enrollment is
    read from it before the transaction is started. *)
Definition MDMWindowsSaveResponse (db : DB) (attempts : list attempt)
    (deviceID : string) (fullResponse : SyncML) : Result DB :=
  match Raw fullResponse with
  | [] => Err (errorMsg "empty raw response")
  | _ =>
      enrollment ← MDMWindowsGetEnrolledDeviceWithDeviceID db deviceID;
      withRetryTxx attempts (saveResponseTx enrollment fullResponse)
  end.

(** The call when no other writer interferes: one attempt, on the
    database the call was made on. *)
Definition MDMWindowsSaveResponse_alone (db : DB)
    (deviceID : string) (fullResponse : SyncML) : Result DB :=
  MDMWindowsSaveResponse db [{| at_start := db; at_conflict := false |}]
    deviceID fullResponse.

End Correlator.

(** ** Example data

    Concrete databases and responses on which the properties below are
    evaluated. *)

Definition empty_db : DB :=
  {| hosts := []; host_mdm := ∅; mobile_device_management_solutions := ∅;
     host_disk_encryption_keys := ∅; host_disks := ∅;
     mdm_windows_enrollments := []; windows_mdm_commands := ∅;
     windows_mdm_command_queue := ∅; windows_mdm_responses := [];
     windows_mdm_command_results := ∅;
     mdm_windows_configuration_profiles := [];
     mdm_apple_configuration_profiles := [];
     host_mdm_windows_profiles := ∅ |}.

Definition set_mdm_windows_enrollments (e : list MDMWindowsEnrolledDevice) (db : DB) : DB :=
  {| hosts := hosts db; host_mdm := host_mdm db;
     mobile_device_management_solutions := mobile_device_management_solutions db;
     host_disk_encryption_keys := host_disk_encryption_keys db;
     host_disks := host_disks db;
     mdm_windows_enrollments := e;
     windows_mdm_commands := windows_mdm_commands db;
     windows_mdm_command_queue := windows_mdm_command_queue db;
     windows_mdm_responses := windows_mdm_responses db;
     windows_mdm_command_results := windows_mdm_command_results db;
     mdm_windows_configuration_profiles := mdm_windows_configuration_profiles db;
     mdm_apple_configuration_profiles := mdm_apple_configuration_profiles db;
     host_mdm_windows_profiles := host_mdm_windows_profiles db |}.

Definition track_all : SyncMLCmd → string → bool := λ _ _, true.

(** A payload builder that reports the status code as detail. *)
Definition build_verifying (cmd : MDMWindowsCommand) (statuses : gmap string SyncMLCmd)
    (hostUUID : string) : Result MDMWindowsProfilePayload :=
  Ok {| pp_ProfileUUID := ""; pp_ProfileName := ""; pp_HostUUID := hostUUID;
        pp_Status := Some MDMDeliveryVerifying; pp_OperationType := None;
        pp_Detail := ""; pp_CommandUUID := CommandUUID cmd |}.

(** A marshaller that writes a fixed element. *)
Definition marshal_fixed (c : SyncMLCmd) : option (list byte) :=
  Some [x3c; x52; x2f; x3e].

(** Two devices enrolled, one command sent to both. *)
Definition db_two_devices : DB :=
  {| hosts := []; host_mdm := ∅; mobile_device_management_solutions := ∅;
     host_disk_encryption_keys := ∅; host_disks := ∅;
     mdm_windows_enrollments :=
       [ {| ID := 1; MDMDeviceID := "D1"; MDMHardwareID := "HW1"; HostUUID := "H1" |};
         {| ID := 2; MDMDeviceID := "D2"; MDMHardwareID := "HW2"; HostUUID := "H2" |} ];
     windows_mdm_commands :=
       {[ "C1" := {| wmc_raw_command := [x3c]; wmc_target_loc_uri := "./Device/Vendor" |} ]};
     windows_mdm_command_queue := {[ (1%N, "C1"); (2%N, "C1") ]};
     windows_mdm_responses := [];
     windows_mdm_command_results := ∅;
     mdm_windows_configuration_profiles := [];
     mdm_apple_configuration_profiles := [];
     host_mdm_windows_profiles := ∅ |}.

(** A response with a Status operation for C1, code 200. *)
Definition response_status_200 : SyncML :=
  {| Raw := [x3c; x53; x3e];
     GetOrderedCmds :=
       [ {| Verb := "Status";
            pco_Cmd := {| CmdRef := Some "C1"; Cmd := Some "Exec"; Data := Some "200" |} |} ] |}.

(** A later response with a Results operation for C1 and no Status. *)
Definition response_results : SyncML :=
  {| Raw := [x3c; x52; x3e];
     GetOrderedCmds :=
       [ {| Verb := "Results";
            pco_Cmd := {| CmdRef := Some "C1"; Cmd := None; Data := Some "payload" |} |} ] |}.

(** A host that reports a client error although its key and disk would
    make it Verified, next to a host that is Verified; a third host has
    its key recorded at time 0 and a disk that reported not-encrypted
    thirty minutes later. All profiles of the first host are verified. *)
Definition db_disk_encryption : DB :=
  {| hosts :=
       [ {| h_id := 1; h_uuid := "H1"; h_platform := "windows"; h_team_id := None |};
         {| h_id := 2; h_uuid := "H2"; h_platform := "windows"; h_team_id := None |};
         {| h_id := 3; h_uuid := "H3"; h_platform := "windows"; h_team_id := None |} ];
     host_mdm :=
       {[ 1%N := {| hmdm_is_server := Some false; hmdm_enrolled := Some true;
                    hmdm_mdm_id := Some 1%N |};
          2%N := {| hmdm_is_server := Some false; hmdm_enrolled := Some true;
                    hmdm_mdm_id := Some 1%N |};
          3%N := {| hmdm_is_server := Some false; hmdm_enrolled := Some true;
                    hmdm_mdm_id := Some 1%N |} ]};
     mobile_device_management_solutions := {[ 1%N := "Fleet" ]};
     host_disk_encryption_keys :=
       {[ 1%N := {| hdek_base64_encrypted := Some "a2V5"; hdek_decryptable := Some true;
                    hdek_client_error := Some "tpm is missing";
                    hdek_updated_at := Some 0%Z |};
          2%N := {| hdek_base64_encrypted := Some "a2V5"; hdek_decryptable := Some true;
                    hdek_client_error := Some ""; hdek_updated_at := Some 0%Z |};
          3%N := {| hdek_base64_encrypted := Some "a2V5"; hdek_decryptable := Some true;
                    hdek_client_error := None; hdek_updated_at := Some 0%Z |} ]};
     host_disks :=
       {[ 1%N := {| hd_encrypted := Some true; hd_updated_at := Some 10%Z |};
          2%N := {| hd_encrypted := Some true; hd_updated_at := Some 10%Z |};
          3%N := {| hd_encrypted := Some false; hd_updated_at := Some 1800%Z |} ]};
     mdm_windows_enrollments := []; windows_mdm_commands := ∅;
     windows_mdm_command_queue := ∅; windows_mdm_responses := [];
     windows_mdm_command_results := ∅;
     mdm_windows_configuration_profiles := [];
     mdm_apple_configuration_profiles := [];
     host_mdm_windows_profiles :=
       {[ ("H1", "P1") := {| hmwp_status := Some MDMDeliveryVerified;
                             hmwp_operation_type := Some MDMOperationTypeInstall;
                             hmwp_detail := Some ""; hmwp_command_uuid := "C1";
                             hmwp_profile_name := "N1" |};
          ("H3", "P1") := {| hmwp_status := Some MDMDeliveryVerifying;
                             hmwp_operation_type := Some MDMOperationTypeInstall;
                             hmwp_detail := Some ""; hmwp_command_uuid := "C2";
                             hmwp_profile_name := "N1" |} ]} |}.

Definition disk_encryption_enabled : DB → option N → Result bool := λ _ _, Ok true.

Definition host_H1 : Host :=
  {| host_ID := 1; host_UUID := "H1"; Platform := "windows"; host_TeamID := None;
     MDMInfo := Some {| IsServer := false |} |}.

(** Profiles of no team, one enrolled Windows host without a team, and
    three rows: a verified profile that is still desired, a profile that
    is no longer desired, and nothing yet for the second desired profile. *)
Definition db_reconcile : DB :=
  {| hosts := [ {| h_id := 1; h_uuid := "H1"; h_platform := "windows"; h_team_id := None |} ];
     host_mdm := ∅; mobile_device_management_solutions := ∅;
     host_disk_encryption_keys := ∅; host_disks := ∅;
     mdm_windows_enrollments :=
       [ {| ID := 1; MDMDeviceID := "D1"; MDMHardwareID := "HW1"; HostUUID := "H1" |} ];
     windows_mdm_commands := ∅; windows_mdm_command_queue := ∅;
     windows_mdm_responses := []; windows_mdm_command_results := ∅;
     mdm_windows_configuration_profiles :=
       [ {| mwcp_profile_uuid := "P1"; mwcp_team_id := 0; mwcp_name := "N1";
            mwcp_syncml := [] |};
         {| mwcp_profile_uuid := "P2"; mwcp_team_id := 0; mwcp_name := "N2";
            mwcp_syncml := [] |} ];
     mdm_apple_configuration_profiles := [ {| macp_team_id := 0; macp_name := "N3" |} ];
     host_mdm_windows_profiles :=
       {[ ("H1", "P1") := {| hmwp_status := Some MDMDeliveryVerified;
                             hmwp_operation_type := Some MDMOperationTypeInstall;
                             hmwp_detail := Some ""; hmwp_command_uuid := "C1";
                             hmwp_profile_name := "N1" |};
          ("H1", "P9") := {| hmwp_status := Some MDMDeliveryVerified;
                             hmwp_operation_type := Some MDMOperationTypeInstall;
                             hmwp_detail := Some ""; hmwp_command_uuid := "C9";
                             hmwp_profile_name := "N9" |} ]} |}.

(** The first device with a pending profile whose command is C1. *)
Definition db_pending_profile : DB :=
  set_host_mdm_windows_profiles
    {[ ("H1", "P1") := {| hmwp_status := Some MDMDeliveryPending;
                          hmwp_operation_type := Some MDMOperationTypeInstall;
                          hmwp_detail := Some ""; hmwp_command_uuid := "C1";
                          hmwp_profile_name := "N1" |} ]}
    db_two_devices.

(** A response whose Status operation for C1 is of the atomic class. *)
Definition response_atomic_200 : SyncML :=
  {| Raw := [x3c; x53; x3e];
     GetOrderedCmds :=
       [ {| Verb := "Status";
            pco_Cmd := {| CmdRef := Some "C1"; Cmd := Some "Atomic"; Data := Some "200" |} |} ] |}.

(** Between the lookup and the attempt that commits, the hardware of
    enrollment 1 re-enrolled under another device id and a new enrollment
    took the device id D1. *)
Definition db_device_id_reassigned : DB :=
  set_mdm_windows_enrollments
    [ {| ID := 1; MDMDeviceID := "D9"; MDMHardwareID := "HW1"; HostUUID := "H1" |};
      {| ID := 2; MDMDeviceID := "D2"; MDMHardwareID := "HW2"; HostUUID := "H2" |};
      {| ID := 3; MDMDeviceID := "D1"; MDMHardwareID := "HW3"; HostUUID := "H3" |} ]
    db_two_devices.

Definition attempts_with_retry : list attempt :=
  [ {| at_start := db_two_devices; at_conflict := true |};
    {| at_start := db_device_id_reassigned; at_conflict := false |} ].

(** The database after the response of D1 is saved by the second attempt:
    the response and the result are stored for enrollment 1. *)
Definition db_after_retry : DB :=
  set_windows_mdm_command_queue ∅
    (set_windows_mdm_command_results
       {[ (1%N, "C1") := {| wmcr_raw_result := Some []; wmcr_response_id := 1;
                            wmcr_status_code := Some "200" |} ]}
       (set_windows_mdm_responses
          [ {| wmr_enrollment_id := 1; wmr_raw_response := Raw response_status_200 |} ]
          db_device_id_reassigned)).

(** The database after the atomic response of D1 is saved: the pending
    profile of command C1 is verifying. *)
Definition db_after_atomic : DB :=
  set_windows_mdm_command_queue ∅
    (set_windows_mdm_command_results
       {[ (1%N, "C1") := {| wmcr_raw_result := Some []; wmcr_response_id := 1;
                            wmcr_status_code := Some "200" |} ]}
       (set_host_mdm_windows_profiles
          {[ ("H1", "P1") := {| hmwp_status := Some MDMDeliveryVerifying;
                                hmwp_operation_type := Some MDMOperationTypeInstall;
                                hmwp_detail := Some ""; hmwp_command_uuid := "C1";
                                hmwp_profile_name := "N1" |} ]}
          (set_windows_mdm_responses
             [ {| wmr_enrollment_id := 1; wmr_raw_response := Raw response_atomic_200 |} ]
             db_pending_profile))).

(** ** Enrollment registry: delete and host link *)

(** [DELETE FROM mdm_windows_enrollments WHERE mdm_hardware_id = ?]; the
    call is an error unless exactly one row was deleted. The result comes
    with the database after the statement. *)
Definition MDMWindowsDeleteEnrolledDevice (mdmDeviceHWID : string) (db : DB)
    : Result () * DB :=
  let deleted := length (filter (λ e, MDMHardwareID e = mdmDeviceHWID)
                                (mdm_windows_enrollments db)) in
  let db := set_mdm_windows_enrollments
              (filter (λ e, MDMHardwareID e ≠ mdmDeviceHWID) (mdm_windows_enrollments db))
              db in
  if decide (deleted = 1) then (Ok (), db)
  else (Err (notFound "MDMWindowsEnrolledDevice"), db).

(** [DELETE FROM mdm_windows_enrollments WHERE mdm_device_id = ?] *)
Definition MDMWindowsDeleteEnrolledDeviceWithDeviceID (mdmDeviceID : string) (db : DB)
    : Result () * DB :=
  let deleted := length (filter (λ e, MDMDeviceID e = mdmDeviceID)
                                (mdm_windows_enrollments db)) in
  let db := set_mdm_windows_enrollments
              (filter (λ e, MDMDeviceID e ≠ mdmDeviceID) (mdm_windows_enrollments db))
              db in
  if decide (deleted = 1) then (Ok (), db)
  else (Err (notFound "MDMWindowsDeleteEnrolledDeviceWithDeviceID"), db).

(** [UPDATE mdm_windows_enrollments SET host_uuid = ? WHERE mdm_device_id = ?] *)
Definition UpdateMDMWindowsEnrollmentsHostUUID (hostUUID mdmDeviceID : string) (db : DB)
    : DB :=
  set_mdm_windows_enrollments
    ((λ e, if decide (MDMDeviceID e = mdmDeviceID)
           then {| ID := ID e; MDMDeviceID := MDMDeviceID e;
                   MDMHardwareID := MDMHardwareID e; HostUUID := hostUUID |}
           else e)
       <$> mdm_windows_enrollments db)
    db.

(** ** Command dispatch queue *)

Definition set_windows_mdm_commands (c : gmap string windows_mdm_commands_row) (db : DB) : DB :=
  {| hosts := hosts db; host_mdm := host_mdm db;
     mobile_device_management_solutions := mobile_device_management_solutions db;
     host_disk_encryption_keys := host_disk_encryption_keys db;
     host_disks := host_disks db;
     mdm_windows_enrollments := mdm_windows_enrollments db;
     windows_mdm_commands := c;
     windows_mdm_command_queue := windows_mdm_command_queue db;
     windows_mdm_responses := windows_mdm_responses db;
     windows_mdm_command_results := windows_mdm_command_results db;
     mdm_windows_configuration_profiles := mdm_windows_configuration_profiles db;
     mdm_apple_configuration_profiles := mdm_apple_configuration_profiles db;
     host_mdm_windows_profiles := host_mdm_windows_profiles db |}.

(** [INSERT INTO windows_mdm_command_queue (enrollment_id, command_uuid)
    VALUES ((SELECT id FROM mdm_windows_enrollments WHERE host_uuid = ? OR
    mdm_device_id = ?), ?)]. The scalar subquery is an error on more than
    one row; a pair already queued is a duplicate.

    Modelled from the spec: the schema of the queue is not under src/; the
    pair (enrollment, command) is its key, so the NULL the subquery gives
    without a matching enrollment cannot be stored and the statement
    fails. *)
Definition mdmWindowsInsertHostCommandDB (tx : DB) (hostUUIDOrDeviceID commandUUID : string)
    : Result DB :=
  match filter (λ e, HostUUID e = hostUUIDOrDeviceID ∨ MDMDeviceID e = hostUUIDOrDeviceID)
               (mdm_windows_enrollments tx) with
  | [e] =>
      if decide ((ID e, commandUUID) ∈ windows_mdm_command_queue tx)
      then Err (alreadyExists "MDMWindowsCommandQueue" commandUUID)
      else Ok (set_windows_mdm_command_queue
                 ({[ (ID e, commandUUID) ]} ∪ windows_mdm_command_queue tx) tx)
  | _ => Err (errorMsg "inserting MDMWindowsCommandQueue")
  end.

(** The loop over the hosts: the first error ends the transaction. *)
Fixpoint insertHostCommands (tx : DB) (hostUUIDsOrDeviceIDs : list string)
    (commandUUID : string) : Result DB :=
  match hostUUIDsOrDeviceIDs with
  | [] => Ok tx
  | hostUUIDOrDeviceID :: rest =>
      tx ← mdmWindowsInsertHostCommandDB tx hostUUIDOrDeviceID commandUUID;
      insertHostCommands tx rest commandUUID
  end.

(** The closure of [MDMWindowsInsertCommandForHosts]: the command entry,
    then one queue entry per host. *)
Definition insertCommandTx (hostUUIDsOrDeviceIDs : list string) (cmd : MDMWindowsCommand)
    (tx : DB) : Result DB :=
  match windows_mdm_commands tx !! CommandUUID cmd with
  | Some _ => Err (alreadyExists "MDMWindowsCommand" (CommandUUID cmd))
  | None =>
      let tx := set_windows_mdm_commands
                  (<[CommandUUID cmd := {| wmc_raw_command := RawCommand cmd;
                                           wmc_target_loc_uri := TargetLocURI cmd |}]>
                     (windows_mdm_commands tx)) tx in
      insertHostCommands tx hostUUIDsOrDeviceIDs (CommandUUID cmd)
  end.

(** Without hosts the call does nothing, on the database [db] it was made
    on. *)
Definition MDMWindowsInsertCommandForHosts (db : DB) (attempts : list attempt)
    (hostUUIDsOrDeviceIDs : list string) (cmd : MDMWindowsCommand) : Result DB :=
  match hostUUIDsOrDeviceIDs with
  | [] => Ok db
  | _ => withRetryTxx attempts (insertCommandTx hostUUIDsOrDeviceIDs cmd)
  end.

(** The pending commands of a device: the queue joined with the
    enrollments and the commands, without the entries that have a
    result. *)
Definition MDMWindowsGetPendingCommands (db : DB) (deviceID : string)
    : list MDMWindowsCommand :=
  wmcq ← elements (windows_mdm_command_queue db);
  mwe ← filter (λ mwe, ID mwe = wmcq.1) (mdm_windows_enrollments db);
  match windows_mdm_commands db !! wmcq.2 with
  | Some wmc =>
      if bool_decide (MDMDeviceID mwe = deviceID)
         && bool_decide (windows_mdm_command_results db !! wmcq = None)
      then [ {| CommandUUID := wmcq.2; RawCommand := wmc_raw_command wmc;
                TargetLocURI := wmc_target_loc_uri wmc |} ]
      else []
  | None => []
  end.

Record MDMCommandResult := {
  mcr_HostUUID : string;
  mcr_CommandUUID : string;
  mcr_Status : option string;
  mcr_RequestType : string;
  mcr_Result : list byte }.

(** The response of an auto-increment id: the rows are numbered from 1 in
    insertion order. *)
Definition response_by_id (db : DB) (id : N) : option windows_mdm_responses_row :=
  if (id =? 0)%N then None
  else windows_mdm_responses db !! N.to_nat (N.pred id).

(** The results of a command: [windows_mdm_command_results] joined with
    the command, the enrollment and the response of each row; the result
    reported is the raw response as a whole. *)
Definition GetMDMWindowsCommandResults (db : DB) (commandUUID : string)
    : list MDMCommandResult :=
  wmcr ← filter (λ kr, kr.1.2 = commandUUID)
                (map_to_list (windows_mdm_command_results db));
  match windows_mdm_commands db !! wmcr.1.2, response_by_id db (wmcr_response_id wmcr.2) with
  | Some wmc, Some wmr =>
      (λ mwe, {| mcr_HostUUID := HostUUID mwe;
                 mcr_CommandUUID := wmcr.1.2;
                 mcr_Status := wmcr_status_code wmcr.2;
                 mcr_RequestType := wmc_target_loc_uri wmc;
                 mcr_Result := wmr_raw_response wmr |})
        <$> filter (λ mwe, ID mwe = wmcr.1.1) (mdm_windows_enrollments db)
  | _, _ => []
  end.

(** An operation the first loop of the response transaction keeps: it
    references a command, is to be tracked, and is a Status or a
    Results. *)
Definition is_tracked (ShouldBeTracked : SyncMLCmd → string → bool)
    (protoOp : ProtoCmdOperation) (cmdRef : string) : Prop :=
  CmdRef (pco_Cmd protoOp) = Some cmdRef
  ∧ ShouldBeTracked (pco_Cmd protoOp) (Verb protoOp) = true
  ∧ (Verb protoOp = CmdStatus ∨ Verb protoOp = CmdResults).

(** ** Further example data *)

Definition cmd_C2 : MDMWindowsCommand :=
  {| CommandUUID := "C2"; RawCommand := [x3c; x45; x3e]; TargetLocURI := "./Device/Reboot" |}.

(** The two example devices after the command C2 is sent to device D1 and
    to host H2. *)
Definition db_after_dispatch : DB :=
  set_windows_mdm_command_queue
    {[ (1%N, "C1"); (2%N, "C1"); (1%N, "C2"); (2%N, "C2") ]}
    (set_windows_mdm_commands
       {[ "C1" := {| wmc_raw_command := [x3c]; wmc_target_loc_uri := "./Device/Vendor" |};
          "C2" := {| wmc_raw_command := [x3c; x45; x3e];
                     wmc_target_loc_uri := "./Device/Reboot" |} ]}
       db_two_devices).

(** The two example devices after the Status response of D1 for C1. *)
Definition db_after_status : DB :=
  set_windows_mdm_command_queue ∅
    (set_windows_mdm_command_results
       {[ (1%N, "C1") := {| wmcr_raw_result := Some []; wmcr_response_id := 1;
                            wmcr_status_code := Some "200" |} ]}
       (set_windows_mdm_responses
          [ {| wmr_enrollment_id := 1; wmr_raw_response := Raw response_status_200 |} ]
          db_two_devices)).

(** ... and after the later Results response of D1 for C1. *)
Definition db_after_results : DB :=
  set_windows_mdm_command_results
    {[ (1%N, "C1") := {| wmcr_raw_result := Some [x3c; x52; x2f; x3e];
                         wmcr_response_id := 1;
                         wmcr_status_code := Some "" |} ]}
    (set_windows_mdm_responses
       [ {| wmr_enrollment_id := 1; wmr_raw_response := Raw response_status_200 |};
         {| wmr_enrollment_id := 1; wmr_raw_response := Raw response_results |} ]
       db_after_status).

(** The database [db_after_dispatch] after the Status response of D1 for
    C1: C2 is still queued for both devices. *)
Definition db_after_answer : DB :=
  set_windows_mdm_command_queue {[ (1%N, "C2"); (2%N, "C2") ]}
    (set_windows_mdm_command_results
       {[ (1%N, "C1") := {| wmcr_raw_result := Some []; wmcr_response_id := 1;
                            wmcr_status_code := Some "200" |} ]}
       (set_windows_mdm_responses
          [ {| wmr_enrollment_id := 1; wmr_raw_response := Raw response_status_200 |} ]
          db_after_dispatch)).

(** A response whose only operation references no command. *)
Definition response_without_reference : SyncML :=
  {| Raw := [x3c; x53; x3e];
     GetOrderedCmds :=
       [ {| Verb := "Status";
            pco_Cmd := {| CmdRef := None; Cmd := Some "SyncHdr"; Data := Some "200" |} |} ] |}.

(** A response with a Status operation for a command that was never
    stored. *)
Definition response_unknown_command : SyncML :=
  {| Raw := [x3c; x53; x3e];
     GetOrderedCmds :=
       [ {| Verb := "Status";
            pco_Cmd := {| CmdRef := Some "C7"; Cmd := Some "Exec"; Data := Some "200" |} |} ] |}.

(** The first device with a pending profile of command C1 and a profile
    that was not dispatched yet. *)
Definition db_not_dispatched : DB :=
  set_host_mdm_windows_profiles
    {[ ("H1", "P1") := {| hmwp_status := Some MDMDeliveryPending;
                          hmwp_operation_type := Some MDMOperationTypeInstall;
                          hmwp_detail := Some ""; hmwp_command_uuid := "C1";
                          hmwp_profile_name := "N1" |};
       ("H1", "P2") := {| hmwp_status := None;
                          hmwp_operation_type := Some MDMOperationTypeInstall;
                          hmwp_detail := None; hmwp_command_uuid := "";
                          hmwp_profile_name := "N2" |} ]}
    db_two_devices.

Definition payload_verifying_C1 : MDMWindowsProfilePayload :=
  {| pp_ProfileUUID := ""; pp_ProfileName := ""; pp_HostUUID := "H1";
     pp_Status := Some MDMDeliveryVerifying; pp_OperationType := None;
     pp_Detail := ""; pp_CommandUUID := "C1" |}.

(** ** Profiles summary *)

Record MDMProfilesSummary := {
  ps_Verified : nat;
  ps_Verifying : nat;
  ps_Failed : nat;
  ps_Pending : nat }.

(** The CASE of [getMDMWindowsStatusCountsProfilesOnlyDB] for one host. *)
Definition profilesOnlyStatus (db : DB) (host_uuid : string) : string :=
  if subqueryHostsMDMWindowsOSSettingsStatusFailed db host_uuid then "failed"
  else if subqueryHostsMDMWindowsOSSettingsStatusPending db host_uuid then "pending"
  else if subqueryHostsMDMWindowsOSSettingsStatusVerifying db host_uuid then "verifying"
  else if subqueryHostsMDMWindowsOSSettingsStatusVerified db host_uuid then "verified"
  else "".

(** The FROM and WHERE are those of the combined query, without the two
    LEFT JOINs. *)
Definition getMDMWindowsStatusCountsProfilesOnlyDB (db : DB) (teamID : option N)
    : list statusCounts :=
  GROUP_BY_status
    (profilesOnlyStatus db ∘ h_uuid <$> filter (λ h, counted_host db teamID h = true) (hosts db)).

(** One round of the loop over the counts: the switch on the status. *)
Definition count_status (res : MDMProfilesSummary) (c : statusCounts)
    : Result MDMProfilesSummary :=
  if String.eqb (sc_Status c) "failed" then
    Ok {| ps_Verified := ps_Verified res; ps_Verifying := ps_Verifying res;
          ps_Failed := sc_Count c; ps_Pending := ps_Pending res |}
  else if String.eqb (sc_Status c) "pending" then
    Ok {| ps_Verified := ps_Verified res; ps_Verifying := ps_Verifying res;
          ps_Failed := ps_Failed res; ps_Pending := sc_Count c |}
  else if String.eqb (sc_Status c) "verifying" then
    Ok {| ps_Verified := ps_Verified res; ps_Verifying := sc_Count c;
          ps_Failed := ps_Failed res; ps_Pending := ps_Pending res |}
  else if String.eqb (sc_Status c) "verified" then
    Ok {| ps_Verified := sc_Count c; ps_Verifying := ps_Verifying res;
          ps_Failed := ps_Failed res; ps_Pending := ps_Pending res |}
  else if String.eqb (sc_Status c) "" then
    (* hosts with MDM turned on but no status are only logged *)
    Ok res
  else Err (errorMsg "unexpected mdm windows status count").

Fixpoint count_statuses (res : MDMProfilesSummary) (counts : list statusCounts)
    : Result MDMProfilesSummary :=
  match counts with
  | [] => Ok res
  | c :: counts => res ← count_status res c; count_statuses res counts
  end.

Section ProfilesSummary.

Variable getConfigEnableDiskEncryption : DB → option N → Result bool.

Definition GetMDMWindowsProfilesSummary (db : DB) (now : Z) (teamID : option N)
    : Result MDMProfilesSummary :=
  includeBitLocker ← getConfigEnableDiskEncryption db teamID;
  let counts :=
    if negb includeBitLocker then getMDMWindowsStatusCountsProfilesOnlyDB db teamID
    else getMDMWindowsStatusCountsProfilesAndBitLockerDB db now teamID in
  count_statuses {| ps_Verified := 0; ps_Verifying := 0; ps_Failed := 0; ps_Pending := 0 |}
    counts.

End ProfilesSummary.

(** ** Bulk upsert and delete of host profiles *)

Record MDMWindowsBulkUpsertHostProfilePayload := {
  bu_ProfileUUID : string;
  bu_ProfileName : string;
  bu_HostUUID : string;
  bu_CommandUUID : string;
  bu_OperationType : MDMOperationType;
  bu_Status : option MDMDeliveryStatus;
  bu_Detail : string }.

Definition bu_key (p : MDMWindowsBulkUpsertHostProfilePayload) : string * string :=
  (bu_HostUUID p, bu_ProfileUUID p).

(** The columns of one VALUES row of [BulkUpsertMDMWindowsHostProfiles]. *)
Definition bu_row (p : MDMWindowsBulkUpsertHostProfilePayload)
    : host_mdm_windows_profiles_row :=
  {| hmwp_status := bu_Status p;
     hmwp_operation_type := Some (bu_OperationType p);
     hmwp_detail := Some (bu_Detail p);
     hmwp_command_uuid := bu_CommandUUID p;
     hmwp_profile_name := bu_ProfileName p |}.

(** One VALUES row of the upsert: the INSERT and the ON DUPLICATE KEY
    UPDATE set the same five columns, so the row is the payload either
    way. *)
Definition upsert_host_profile
    (t : gmap (string * string) host_mdm_windows_profiles_row)
    (p : MDMWindowsBulkUpsertHostProfilePayload)
    : gmap (string * string) host_mdm_windows_profiles_row :=
  <[bu_key p := bu_row p]> t.

(** Every batch is one statement on the writer, outside a transaction. *)
Definition BulkUpsertMDMWindowsHostProfiles (ds : Datastore)
    (payload : list MDMWindowsBulkUpsertHostProfilePayload) (db : DB) : DB :=
  match payload with
  | [] => db
  | _ =>
      set_host_mdm_windows_profiles
        (batch_loop (λ args t, fold_left upsert_host_profile args t)
           (batchSize_or_default (testUpsertMDMDesiredProfilesBatchSize ds))
           payload [] 0%Z (host_mdm_windows_profiles db))
        db
  end.

Definition BulkDeleteMDMWindowsHostsConfigProfiles (ds : Datastore)
    (profs : list MDMWindowsProfilePayload) (db : DB) : DB :=
  bulkDeleteMDMWindowsHostsConfigProfilesDB ds profs db.

(** The two list functions of the datastore run the queries without a host
    filter. *)
Definition ListMDMWindowsProfilesToInstall (db : DB) : list MDMWindowsProfilePayload :=
  listMDMWindowsProfilesToInstallDB db [].

Definition ListMDMWindowsProfilesToRemove (db : DB) : list MDMWindowsProfilePayload :=
  listMDMWindowsProfilesToRemoveDB db [].

(** ** Configuration profiles: get, delete, contents *)

(** [team_id] is scanned into the pointer field, so a stored profile
    always has a team id, 0 for no team. *)
Definition GetMDMWindowsConfigProfile (db : DB) (profileUUID : string)
    : Result MDMWindowsConfigProfile :=
  match filter (λ r, mwcp_profile_uuid r = profileUUID)
               (mdm_windows_configuration_profiles db) with
  | res :: _ =>
      Ok {| ProfileUUID := mwcp_profile_uuid res; TeamID := Some (mwcp_team_id res);
            Name := mwcp_name res; cp_SyncML := mwcp_syncml res |}
  | [] => Err (notFound "MDMWindowsProfile")
  end.

Definition DeleteMDMWindowsConfigProfile (profileUUID : string) (db : DB)
    : Result () * DB :=
  let deleted := length (filter (λ r, mwcp_profile_uuid r = profileUUID)
                                (mdm_windows_configuration_profiles db)) in
  let db := set_mdm_windows_configuration_profiles
              (filter (λ r, mwcp_profile_uuid r ≠ profileUUID)
                      (mdm_windows_configuration_profiles db)) db in
  if decide (deleted ≠ 1) then (Err (notFound "MDMWindowsProfile"), db)
  else (Ok (), db).

(** [None] is the nil map returned without uuids. *)
Definition GetMDMWindowsProfilesContents (db : DB) (uuids : list string)
    : option (gmap string (list byte)) :=
  match uuids with
  | [] => None
  | _ =>
      let profs := filter (λ r, mwcp_profile_uuid r ∈ uuids)
                          (mdm_windows_configuration_profiles db) in
      Some (fold_left (λ results p, <[mwcp_profile_uuid p := mwcp_syncml p]> results)
                      profs ∅)
  end.

(** ** The profiles of a host *)

Record HostMDMWindowsProfile := {
  hp_ProfileUUID : string;
  hp_Name : string;
  hp_Status : MDMDeliveryStatus;
  hp_OperationType : option MDMOperationType;
  hp_Detail : string }.

(** [COALESCE(status, 'pending')] *)
Definition status_or_pending (r : host_mdm_windows_profiles_row) : MDMDeliveryStatus :=
  default MDMDeliveryPending (hmwp_status r).

(** [NOT (operation_type = 'remove' AND COALESCE(status, 'pending') IN
    ('verifying', 'verified'))] *)
Definition visible_profile (r : host_mdm_windows_profiles_row) : sql_bool :=
  sql_not (operation_is MDMOperationTypeRemove r
           &&& Some (eqb_of (status_or_pending r) MDMDeliveryVerifying
                     || eqb_of (status_or_pending r) MDMDeliveryVerified)).

(** [NULL] operation type is reported as the empty operation type
    [None], and the detail is read as [COALESCE(detail, '')]. *)
Definition GetHostMDMWindowsProfiles (db : DB) (hostUUID : string)
    : list HostMDMWindowsProfile :=
  (λ kr : string * string * host_mdm_windows_profiles_row,
     {| hp_ProfileUUID := kr.1.2;
        hp_Name := hmwp_profile_name kr.2;
        hp_Status := status_or_pending kr.2;
        hp_OperationType := hmwp_operation_type kr.2;
        hp_Detail := default "" (hmwp_detail kr.2) |})
    <$> filter (λ kr, kr.1.1 = hostUUID ∧ sql_true (visible_profile kr.2) = true)
               (map_to_list (host_mdm_windows_profiles db)).

(** Example data of the reconciler and of the host view. *)
Definition ds_batch_of (n : Z) : Datastore :=
  {| testUpsertMDMDesiredProfilesBatchSize := n; testDeleteMDMProfilesBatchSize := n |}.

Definition payload_install_P1 : MDMWindowsBulkUpsertHostProfilePayload :=
  {| bu_ProfileUUID := "P1"; bu_ProfileName := "N1"; bu_HostUUID := "H1";
     bu_CommandUUID := "C7"; bu_OperationType := MDMOperationTypeInstall;
     bu_Status := Some MDMDeliveryPending; bu_Detail := "" |}.

Definition payload_remove_P9 : MDMWindowsBulkUpsertHostProfilePayload :=
  {| bu_ProfileUUID := "P9"; bu_ProfileName := "N9"; bu_HostUUID := "H1";
     bu_CommandUUID := "C8"; bu_OperationType := MDMOperationTypeRemove;
     bu_Status := Some MDMDeliveryVerifying; bu_Detail := "" |}.

Definition profile_N4 : MDMWindowsConfigProfile :=
  {| ProfileUUID := ""; TeamID := None; Name := "N4"; cp_SyncML := [x3c; x61; x3e] |}.

Definition payload_key_P1 : MDMWindowsProfilePayload :=
  {| pp_ProfileUUID := "P1"; pp_ProfileName := ""; pp_HostUUID := "H1";
     pp_Status := None; pp_OperationType := None;
     pp_Detail := ""; pp_CommandUUID := "" |}.

Definition payload_key_P9 : MDMWindowsProfilePayload :=
  {| pp_ProfileUUID := "P9"; pp_ProfileName := ""; pp_HostUUID := "H1";
     pp_Status := None; pp_OperationType := None;
     pp_Detail := ""; pp_CommandUUID := "" |}.

Definition row_P1_verified : host_mdm_windows_profiles_row :=
  {| hmwp_status := Some MDMDeliveryVerified;
     hmwp_operation_type := Some MDMOperationTypeInstall;
     hmwp_detail := Some ""; hmwp_command_uuid := "C1"; hmwp_profile_name := "N1" |}.

(** The reconciler database after the profile N4 was stored as U4. *)
Definition db_with_N4 : DB :=
  set_mdm_windows_configuration_profiles
    (mdm_windows_configuration_profiles db_reconcile
     ++ [ {| mwcp_profile_uuid := "U4"; mwcp_team_id := 0; mwcp_name := "N4";
             mwcp_syncml := [x3c; x61; x3e] |} ])
    db_reconcile.

Definition profile_U4 : MDMWindowsConfigProfile :=
  {| ProfileUUID := "U4"; TeamID := None; Name := "N4"; cp_SyncML := [x3c; x61; x3e] |}.

(** ** Batch-setting the profiles of a team *)

(** [incomingProfs]: the incoming profiles keyed by name; of two profiles
    with one name the later one stays. *)
Definition incomingProfs_of (profiles : list MDMWindowsConfigProfile)
    : gmap string MDMWindowsConfigProfile :=
  fold_left (λ m p, <[Name p := p]> m) profiles ∅.

(** [INSERT INTO mdm_windows_configuration_profiles (profile_uuid,
    team_id, name, syncml) VALUES (UUID(), ?, ?, ?) ON DUPLICATE KEY
    UPDATE name = VALUES(name), syncml = VALUES(syncml)]. [uuid] is the
    value of [UUID()], which is the identifier of no stored row.

    Modelled from the spec: the schema of the table is not under src/; by
    the data model the name is unique within a team, so the row collides
    with the stored row of the same team and name, which is then
    updated. *)
Definition insertNewOrEditedProfile (profTeamID : N) (uuid : string)
    (p : MDMWindowsConfigProfile) (tx : DB) : DB :=
  let rows := mdm_windows_configuration_profiles tx in
  let collides r :=
    N.eqb (mwcp_team_id r) profTeamID && String.eqb (mwcp_name r) (Name p) in
  if existsb collides rows then
    set_mdm_windows_configuration_profiles
      ((λ r, if collides r
             then {| mwcp_profile_uuid := mwcp_profile_uuid r;
                     mwcp_team_id := mwcp_team_id r;
                     mwcp_name := Name p; mwcp_syncml := cp_SyncML p |}
             else r) <$> rows)
      tx
  else
    set_mdm_windows_configuration_profiles
      (rows ++ [ {| mwcp_profile_uuid := uuid; mwcp_team_id := profTeamID;
                    mwcp_name := Name p; mwcp_syncml := cp_SyncML p |} ])
      tx.

(** The loop [for _, p := range incomingProfs]. [range] is the sequence
    of entries in the order the loop visits them, which Go does not
    specify; [UUID i] is the value of [UUID()] in the statement number
    [i]. *)
Fixpoint insertProfiles (profTeamID : N) (UUID : nat → string) (i : nat)
    (range : list (string * MDMWindowsConfigProfile)) (tx : DB) : DB :=
  match range with
  | [] => tx
  | (_, p) :: range =>
      insertProfiles profTeamID UUID (S i) range
        (insertNewOrEditedProfile profTeamID (UUID i) p tx)
  end.

(** The closure given to [withRetryTxx]. *)
Definition batchSetTx (profTeamID : N) (profiles : list MDMWindowsConfigProfile)
    (UUID : nat → string) (range : list (string * MDMWindowsConfigProfile))
    (tx : DB) : Result DB :=
  let incomingNames := Name <$> profiles in
  let incomingProfs := incomingProfs_of profiles in
  let existingProfiles :=
    match incomingNames with
    | [] => []
    | _ => filter (λ r, mwcp_team_id r = profTeamID ∧ mwcp_name r ∈ incomingNames)
                  (mdm_windows_configuration_profiles tx)
    end in
  let keepNames :=
    filter (λ name, is_Some (incomingProfs !! name)) (mwcp_name <$> existingProfiles) in
  let tx :=
    match keepNames with
    | [] =>
        (* deleteAllProfilesForTeam *)
        set_mdm_windows_configuration_profiles
          (filter (λ r, mwcp_team_id r ≠ profTeamID)
                  (mdm_windows_configuration_profiles tx)) tx
    | _ =>
        (* deleteProfilesNotInList *)
        set_mdm_windows_configuration_profiles
          (filter (λ r, ¬ (mwcp_team_id r = profTeamID ∧ mwcp_name r ∉ keepNames))
                  (mdm_windows_configuration_profiles tx)) tx
    end in
  Ok (insertProfiles profTeamID UUID 0 range tx).

(** The [tx] argument of the Go function is not used: the function opens
    its own retrying transaction. *)
Definition batchSetMDMWindowsProfilesDB (attempts : list attempt) (tmID : option N)
    (profiles : list MDMWindowsConfigProfile)
    (UUID : nat → string) (range : list (string * MDMWindowsConfigProfile))
    : Result DB :=
  let profTeamID := match tmID with Some t => t | None => 0%N end in
  withRetryTxx attempts (batchSetTx profTeamID profiles UUID range).

(** Example data: the profiles N1 (edited) and N5 (new) are set for no
    team on the reconciler database, which holds N1 and N2. *)
Definition profiles_N1_N5 : list MDMWindowsConfigProfile :=
  [ {| ProfileUUID := ""; TeamID := None; Name := "N1"; cp_SyncML := [x3c; x62; x3e] |};
    {| ProfileUUID := ""; TeamID := None; Name := "N5"; cp_SyncML := [x3c; x63; x3e] |} ].

Definition UUID_example (i : nat) : string :=
  match i with 0 => "U5" | 1 => "U6" | _ => "U7" end.

Definition db_after_batch : DB :=
  match batchSetMDMWindowsProfilesDB
          [ {| at_start := db_reconcile; at_conflict := false |} ] None profiles_N1_N5
          UUID_example (map_to_list (incomingProfs_of profiles_N1_N5)) with
  | Ok db => db
  | _ => empty_db
  end.

(** * Properties *)

(** ** Disk encryption classifier *)

Section DiskEncryptionProperties.

Variable getConfigEnableDiskEncryption : DB → option N → Result bool.

Lemma has_client_error_where j :
  has_client_error j →
  whereNotServer j = Some true ∧ whereClientError j = Some true.
Proof.
  intros [Hs (e & He & Hne)]. unfold whereNotServer, whereClientError.
  rewrite Hs, He. simpl. split; [done|].
  unfold str_ne. destruct (String.eqb_spec e ""); [done|done].
Qed.

Lemma client_error_classes now j :
  has_client_error j →
  sql_true (whereBitLockerStatus DiskEncryptionVerified now j) = false ∧
  sql_true (whereBitLockerStatus DiskEncryptionVerifying now j) = false ∧
  sql_true (whereBitLockerStatus DiskEncryptionEnforcing now j) = false ∧
  sql_true (whereBitLockerStatus DiskEncryptionFailed now j) = true.
Proof.
  intros H. destruct (has_client_error_where j H) as [Hn Hc].
  unfold whereBitLockerStatus. rewrite Hn, Hc. simpl.
  split_and!; try done;
    by destruct (whereKeyAvailable j) as [[]|], (whereEncrypted j) as [[]|],
      (whereHostDisksUpdated j) as [[]|], (withinGracePeriod now j) as [[]|].
Qed.

(** Each fragment is TRUE or FALSE, never NULL: every comparison is
    guarded by IS NOT NULL. *)
Lemma whereNotServer_two_valued j : ∃ b, whereNotServer j = Some b.
Proof. unfold whereNotServer. destruct (is_server j) as [[]|]; simpl; eauto. Qed.

Lemma whereKeyAvailable_two_valued j : ∃ b, whereKeyAvailable j = Some b.
Proof.
  unfold whereKeyAvailable.
  destruct (base64_encrypted j) as [s|], (decryptable j) as [[]|]; simpl;
    try destruct (str_ne s ""); simpl; eauto.
Qed.

Lemma whereEncrypted_two_valued j : ∃ b, whereEncrypted j = Some b.
Proof. unfold whereEncrypted. destruct (encrypted j) as [[]|]; simpl; eauto. Qed.

Lemma whereHostDisksUpdated_two_valued j : ∃ b, whereHostDisksUpdated j = Some b.
Proof.
  unfold whereHostDisksUpdated.
  destruct (disk_updated_at j) as [d|], (key_updated_at j) as [k|]; simpl; eauto.
  destruct (k <=? d)%Z; eauto.
Qed.

Lemma whereClientError_two_valued j : ∃ b, whereClientError j = Some b.
Proof.
  unfold whereClientError.
  destruct (client_error j) as [s|]; simpl; try destruct (str_ne s ""); eauto.
Qed.

Lemma withinGracePeriod_two_valued now j : ∃ b, withinGracePeriod now j = Some b.
Proof.
  unfold withinGracePeriod.
  destruct (key_updated_at j) as [k|]; simpl; eauto.
  destruct (one_hour_ago now <=? k)%Z; eauto.
Qed.

Ltac two_valued now j :=
  destruct (whereKeyAvailable_two_valued j) as [[] ->];
  destruct (whereEncrypted_two_valued j) as [[] ->];
  destruct (whereHostDisksUpdated_two_valued j) as [[] ->];
  destruct (whereClientError_two_valued j) as [[] ->];
  destruct (withinGracePeriod_two_valued now j) as [[] ->].

(** A host that is not a server is in exactly one of the four classes. *)
Lemma not_server_one_class now j :
  whereNotServer j = Some true →
  ∃ s, bitlocker_status_case now j = Some s ∧
       ∀ s', sql_true (whereBitLockerStatus s' now j) = true ↔ s' = s.
Proof.
  intros Hn. unfold bitlocker_status_case, whereBitLockerStatus. rewrite Hn.
  two_valued now j; simpl;
    (eexists; split; [reflexivity|]; intros []; simpl; split; congruence).
Qed.

Lemma COUNT_if_app {A} (cond : A → sql_bool) (l1 l2 : list A) :
  COUNT_if cond (l1 ++ l2) = COUNT_if cond l1 + COUNT_if cond l2.
Proof. unfold COUNT_if. by rewrite filter_app, length_app. Qed.

Lemma COUNT_if_middle {A} (cond : A → sql_bool) (l1 l2 : list A) (x : A) :
  COUNT_if cond (l1 ++ x :: l2) =
  (if sql_true (cond x) then 1 else 0) + COUNT_if cond (l1 ++ l2).
Proof.
  rewrite !COUNT_if_app. unfold COUNT_if at 2. rewrite filter_cons.
  destruct (sql_true (cond x)); case_decide; simpl; try done; unfold COUNT_if; lia.
Qed.

Lemma bitlocker_rows_of_middle db teamID hs1 hs2 h :
  bitlocker_summary_where db teamID h = true →
  bitlocker_rows_of db teamID (hs1 ++ h :: hs2) =
  bitlocker_rows_of db teamID hs1 ++ bitlocker_join db (h_id h)
    :: bitlocker_rows_of db teamID hs2.
Proof.
  intros Hh. unfold bitlocker_rows_of.
  rewrite filter_app, filter_cons. case_decide; [|done].
  by rewrite fmap_app, fmap_cons.
Qed.

Lemma bitlocker_rows_of_app db teamID hs1 hs2 :
  bitlocker_rows_of db teamID (hs1 ++ hs2) =
  bitlocker_rows_of db teamID hs1 ++ bitlocker_rows_of db teamID hs2.
Proof. unfold bitlocker_rows_of. by rewrite filter_app, fmap_app. Qed.

(** C8. A host that is not a server and whose disk encryption client
    error is non-empty is Failed whatever its key, encrypted flag and
    timestamps are: the single-host lookup returns Failed with the error
    as detail, and in the fleet-wide summary the host adds one to the
    Failed count and nothing to the three other counts. *)
Theorem client_error_is_failed
    (db : DB) (now : Z) (host : Host) (teamID : option N)
    (h : hosts_row) (hs1 hs2 : list hosts_row) (e : string) :
  let j := bitlocker_join db (host_ID host) in
  let others := bitlocker_rows_of db teamID (hs1 ++ hs2) in
  is_server j = Some false →
  client_error j = Some e → e ≠ "" →
  Platform host = "windows" →
  (∀ i, MDMInfo host = Some i → IsServer i = false) →
  getConfigEnableDiskEncryption db (host_TeamID host) = Ok true →
  getConfigEnableDiskEncryption db teamID = Ok true →
  hosts db = hs1 ++ h :: hs2 →
  h_id h = host_ID host → h_platform h = "windows" →
  sql_true (teamFilter teamID h) = true →
  GetMDMWindowsBitLockerStatus getConfigEnableDiskEncryption db now (Some host)
    = Ok (Some {| Status := Some DiskEncryptionFailed; Detail := e |})
  ∧ GetMDMWindowsBitLockerSummary getConfigEnableDiskEncryption db now teamID
    = Ok {| Verified := COUNT_if (whereBitLockerStatus DiskEncryptionVerified now) others;
            Verifying := COUNT_if (whereBitLockerStatus DiskEncryptionVerifying now) others;
            ActionRequired := 0;
            Enforcing := COUNT_if (whereBitLockerStatus DiskEncryptionEnforcing now) others;
            Failed := S (COUNT_if (whereBitLockerStatus DiskEncryptionFailed now) others);
            RemovingEnforcement := 0 |}.
Proof.
  intros j others Hs He Hne Hp Hm Hen1 Hen2 Hhosts Hid Hhp Htf.
  assert (Hce : has_client_error j) by (split; eauto).
  destruct (client_error_classes now j Hce) as (Hv & Hvg & Hen & Hf).
  split.
  - unfold GetMDMWindowsBitLockerStatus. rewrite Hp. simpl.
    assert (match MDMInfo host with Some i => IsServer i | None => false end = false)
      as -> by (destruct (MDMInfo host); eauto).
    rewrite Hen1. simpl.
    destruct (host_mdm db !! host_ID host) as [m|] eqn:Hm'.
    + fold j. unfold bitlocker_status_case. rewrite Hv, Hvg, Hen, Hf, He. done.
    + unfold j, is_server, bitlocker_join in Hs. simpl in Hs. by rewrite Hm' in Hs.
  - unfold GetMDMWindowsBitLockerSummary. rewrite Hen2. simpl.
    unfold bitlocker_summary_rows. rewrite Hhosts.
    rewrite bitlocker_rows_of_middle.
    + rewrite !COUNT_if_middle, <- !bitlocker_rows_of_app. rewrite Hid. fold j.
      rewrite Hv, Hvg, Hen, Hf. done.
    + unfold bitlocker_summary_where. rewrite Hhp, Hid. fold j. rewrite Hs. simpl.
      by destruct (teamFilter teamID h) as [[]|].
Qed.

(** C3, as the code has it. For a host that is not a server, has no
    client error, has an available key recorded at [T0] and a disk
    that reports not-encrypted at a time [d] at least as fresh as the
    key, the class depends on the evaluation time [now] and not on [d]:
    Verifying while [now] is at most one hour after [T0], Enforcing
    afterwards.  Hence an observation later than [T0] plus one hour is
    Enforcing at every evaluation time from the observation on. *)
Theorem grace_window_is_measured_from_evaluation_time
    (now T0 d : Z) (j : BitLockerJoin) (key : string) :
  is_server j = Some false →
  client_error j = None ∨ client_error j = Some "" →
  base64_encrypted j = Some key → key ≠ "" →
  decryptable j = Some true →
  key_updated_at j = Some T0 →
  encrypted j = Some false →
  disk_updated_at j = Some d →
  (T0 ≤ d)%Z →
  ((now ≤ T0 + 3600)%Z →
     bitlocker_status_case now j = Some DiskEncryptionVerifying ∧
     sql_true (whereBitLockerStatus DiskEncryptionVerifying now j) = true)
  ∧ ((T0 + 3600 < now)%Z →
     bitlocker_status_case now j = Some DiskEncryptionEnforcing ∧
     sql_true (whereBitLockerStatus DiskEncryptionEnforcing now j) = true)
  ∧ ((T0 + 3600 < d)%Z → (d ≤ now)%Z →
     bitlocker_status_case now j = Some DiskEncryptionEnforcing).
Proof.
  intros Hs Hce Hk Hkne Hdec Hku Henc Hdu Hle.
  assert (Hns : whereNotServer j = Some true)
    by (unfold whereNotServer; by rewrite Hs).
  assert (Hc : whereClientError j = Some false)
    by (unfold whereClientError; destruct Hce as [-> | ->]; done).
  assert (Hka : whereKeyAvailable j = Some true).
  { unfold whereKeyAvailable. rewrite Hk, Hdec. simpl. unfold str_ne.
    by destruct (String.eqb_spec key ""). }
  assert (He : whereEncrypted j = Some false)
    by (unfold whereEncrypted; by rewrite Henc).
  assert (Hu : whereHostDisksUpdated j = Some true).
  { unfold whereHostDisksUpdated. rewrite Hdu, Hku. simpl.
    by destruct (Z.leb_spec T0 d); [|lia]. }
  assert (Hg : withinGracePeriod now j = Some (now - 3600 <=? T0)%Z)
    by (unfold withinGracePeriod, one_hour_ago; rewrite Hku; simpl;
        by destruct (now - 3600 <=? T0)%Z).
  assert (Hcase : bitlocker_status_case now j =
                  Some (if (now - 3600 <=? T0)%Z then DiskEncryptionVerifying
                        else DiskEncryptionEnforcing)).
  { unfold bitlocker_status_case, whereBitLockerStatus.
    rewrite Hns, Hc, Hka, He, Hu, Hg. by destruct (now - 3600 <=? T0)%Z. }
  rewrite Hcase. unfold whereBitLockerStatus. rewrite Hns, Hc, Hka, He, Hu, Hg.
  split_and!; intros; destruct (Z.leb_spec (now - 3600) T0); done || lia.
Qed.

(** C9. For every host the combined summary counts, the status it is
    grouped under is the merge rule of section 4.6 applied to the host's
    profile delivery status (the value of the profilesStatus CASE) and its
    disk encryption class (a counted host is not a server, so it has
    exactly one class; Enforcing is the class reported as pending). *)
Theorem combined_status_follows_merge_rule
    (db : DB) (now : Z) (teamID : option N) (h : hosts_row) (delivery : spec_bucket) :
  counted_host db teamID h = true →
  profilesStatus db (h_uuid h) = spec_delivery_name delivery →
  ∃ s de,
    bitlocker_status_case now (bitlocker_join db (h_id h)) = Some s
    ∧ spec_disk_encryption_bucket s = Some de
    ∧ profilesAndBitLockerStatus db now h
      = spec_bucket_name (spec_merge_rule delivery de).
Proof.
  intros Hc Hd.
  assert (Hns : whereNotServer (bitlocker_join db (h_id h)) = Some true).
  { unfold counted_host in Hc. unfold whereNotServer, is_server, bitlocker_join. simpl.
    destruct (host_mdm db !! h_id h) as [m|]; [|done]. simpl.
    destruct (hmdm_mdm_id m ≫= _); [|done].
    destruct (hmdm_is_server m) as [[]|]; simpl in *; try done;
      by destruct (String.eqb _ _), (hmdm_enrolled m) as [[]|],
        (String.eqb _ _), (teamFilter teamID h) as [[]|]. }
  destruct (not_server_one_class now _ Hns) as (s & Hs & Hclass).
  exists s.
  cut (∃ de, spec_disk_encryption_bucket s = Some de
             ∧ profilesAndBitLockerStatus db now h
               = spec_bucket_name (spec_merge_rule delivery de)).
  { intros (de & ? & ?). eauto. }
  clear Hclass.
  unfold profilesAndBitLockerStatus, bitlockerStatus. rewrite Hd.
  unfold bitlocker_status_case in Hs.
  repeat match goal with
         | H : context [if sql_true ?c then _ else _] |- _ => destruct (sql_true c)
         end; simplify_eq; simpl; (eexists; split; [done|]);
    by destruct delivery.
Qed.

End DiskEncryptionProperties.

(** ** Profile reconciler: install and remove sets *)

Section Reconciler.

Implicit Types (db : DB) (hostUUIDs : list string) (k : string * string).
Implicit Types (d : mdm_windows_configuration_profiles_row * hosts_row).

Lemma elem_of_desired_state db (F : string → bool) d :
  d ∈ desired_state db F ↔
  d.1 ∈ mdm_windows_configuration_profiles db ∧ d.2 ∈ hosts db
  ∧ (∃ mwe, mwe ∈ mdm_windows_enrollments db ∧ HostUUID mwe = h_uuid d.2)
  ∧ sql_true (team_join d.1 d.2) = true
  ∧ String.eqb (h_platform d.2) "windows" = true
  ∧ F (h_uuid d.2) = true.
Proof.
  unfold desired_state. destruct d as [mwcp h]. simpl. split.
  - intros (mwcp' & H1 & Hp)%list_elem_of_bind.
    apply list_elem_of_bind in H1 as (h' & H1 & Hh).
    apply list_elem_of_bind in H1 as (mwe & H1 & He).
    destruct (sql_true (team_join mwcp' h')) eqn:Ht; [|by apply elem_of_nil in H1].
    destruct (bool_decide (HostUUID mwe = h_uuid h')) eqn:Hu; [|by apply elem_of_nil in H1].
    destruct (String.eqb (h_platform h') "windows") eqn:Hw; [|by apply elem_of_nil in H1].
    destruct (F (h_uuid h')) eqn:HF; [|by apply elem_of_nil in H1].
    simpl in H1. apply list_elem_of_singleton in H1. simplify_eq.
    apply bool_decide_eq_true in Hu. eauto 10.
  - intros (Hp & Hh & (mwe & He & Hu) & Ht & Hw & HF).
    apply list_elem_of_bind. exists mwcp. split; [|done].
    apply list_elem_of_bind. exists h. split; [|done].
    apply list_elem_of_bind. exists mwe. split; [|done].
    rewrite Ht, Hw, HF, bool_decide_eq_true_2 by done. simpl. by apply list_elem_of_singleton.
Qed.

Lemma desired_state_filtered db hostUUIDs d :
  d ∈ desired_state db (hostFilter hostUUIDs) ↔
  d ∈ desired_state db (λ _, true) ∧ hostFilter hostUUIDs (h_uuid d.2) = true.
Proof. rewrite !elem_of_desired_state. naive_solver. Qed.

(** The pairs of the install list are desired pairs of filtered hosts
    that have no row, or a row to dispatch again. *)
Lemma elem_of_install_pairs db hostUUIDs k :
  k ∈ pp_key <$> listMDMWindowsProfilesToInstallDB db hostUUIDs ↔
  ∃ d, d ∈ desired_state db (hostFilter hostUUIDs) ∧ ds_key d = k
       ∧ to_install db d = true.
Proof.
  unfold listMDMWindowsProfilesToInstallDB. rewrite <- list_fmap_compose.
  rewrite list_elem_of_fmap. split.
  - intros (d & -> & [Hi Hd]%list_elem_of_filter). by exists d.
  - intros (d & Hd & <- & Hi). exists d. split; [done|].
    by apply list_elem_of_filter.
Qed.

(** The pairs of the remove list are the keys of rows of filtered hosts
    that no desired row joins. *)
Lemma elem_of_remove_pairs db hostUUIDs k :
  k ∈ pp_key <$> listMDMWindowsProfilesToRemoveDB db hostUUIDs ↔
  is_Some (host_mdm_windows_profiles db !! k)
  ∧ hostFilter hostUUIDs k.1 = true
  ∧ ∀ d, d ∈ desired_state db (λ _, true) → ds_key d ≠ k.
Proof.
  unfold listMDMWindowsProfilesToRemoveDB. rewrite <- list_fmap_compose.
  rewrite list_elem_of_fmap. unfold to_remove. split.
  - intros ([[hu pu] r] & -> & [Hr Hm]%list_elem_of_filter).
    apply elem_of_map_to_list in Hm. simpl in *.
    apply andb_true_iff in Hr as [Hall HF]. split_and!; [by eexists|done|].
    intros d Hd Hk. rewrite forallb_forall in Hall.
    apply list_elem_of_In, Hall in Hd. rewrite Hk in Hd.
    by rewrite bool_decide_eq_true_2 in Hd.
  - intros ([r Hr] & HF & Hnone). exists (k, r). destruct k as [hu pu].
    split; [done|]. apply list_elem_of_filter. split; [|by apply elem_of_map_to_list].
    simpl in *. apply andb_true_iff. split; [|done].
    apply forallb_forall. intros d Hd%list_elem_of_In.
    apply negb_true_iff, bool_decide_eq_false_2. by apply Hnone.
Qed.

(** C7. On any desired state and any host_mdm_windows_profiles table,
    and for any host filter: the install list and the remove list share
    no (host, profile) pair; a pair is desired or present exactly when it
    is in the install list, in the remove list, or both desired and
    present; and a pair that is both desired and present is never in the
    remove list.  Without host uuids the filter is TRUE and the desired
    and actual sets are the whole sets. *)
Theorem install_remove_cover_desired_and_actual db hostUUIDs :
  let install := pp_key <$> listMDMWindowsProfilesToInstallDB db hostUUIDs in
  let remove := pp_key <$> listMDMWindowsProfilesToRemoveDB db hostUUIDs in
  let desired := ds_key <$> desired_state db (hostFilter hostUUIDs) in
  let actual k := is_Some (host_mdm_windows_profiles db !! k)
                  ∧ hostFilter hostUUIDs k.1 = true in
  (∀ k, ¬ (k ∈ install ∧ k ∈ remove))
  ∧ (∀ k, k ∈ desired ∨ actual k ↔
          k ∈ install ∨ k ∈ remove ∨ (k ∈ desired ∧ actual k))
  ∧ (∀ k, k ∈ ds_key <$> desired_state db (λ _, true) →
          is_Some (host_mdm_windows_profiles db !! k) → k ∉ remove).
Proof.
  intros install remove desired actual.
  assert (Hdes : ∀ k, k ∈ desired ↔
            ∃ d, d ∈ desired_state db (hostFilter hostUUIDs) ∧ ds_key d = k).
  { intros k. unfold desired. rewrite list_elem_of_fmap. naive_solver. }
  split_and!.
  - intros k [(d & Hd & Hk & _)%elem_of_install_pairs
              (_ & _ & Hnone)%elem_of_remove_pairs].
    apply desired_state_filtered in Hd as [Hd _]. by apply (Hnone d).
  - intros k. unfold install, remove. rewrite elem_of_install_pairs, elem_of_remove_pairs.
    rewrite Hdes. unfold actual. split.
    + intros [(d & Hd & Hk) | [[r Hr] HF]].
      * destruct (host_mdm_windows_profiles db !! k) as [r|] eqn:Hr.
        -- right; right. split; [by exists d|]. split; [by eexists|].
           apply desired_state_filtered in Hd as [_ HF]. subst k. done.
        -- left. exists d. split_and!; [done..|]. unfold to_install. by rewrite Hk, Hr.
      * destruct (decide (k ∈ ds_key <$> desired_state db (λ _, true)))
          as [(d & Hk & Hd)%list_elem_of_fmap|Hno].
        -- right; right. split; [|split; [by eexists|done]].
           exists d. split; [|done]. apply desired_state_filtered. split; [done|].
           subst k. done.
        -- right; left. split_and!; [by eexists|done|].
           intros d Hd Hk. apply Hno, list_elem_of_fmap. by exists d.
    + intros [(d & Hd & Hk & _) | [(Hr & HF & _) | [Hd Ha]]]; eauto.
  - intros k (d & -> & Hd)%list_elem_of_fmap _ (_ & _ & Hnone)%elem_of_remove_pairs.
    by apply (Hnone d).
Qed.

(** *** Applying the install and remove sets *)

Implicit Types (t : gmap (string * string) host_mdm_windows_profiles_row).
Implicit Types (p : MDMWindowsProfilePayload).

(** Whatever the batch size, the loop executes the items in order: it
    equals one execution on the whole list when executing a batch is a
    left fold. *)
Lemma batch_loop_fold {A S} (f : S → A → S) (n : Z) (items args : list A) (s : S) :
  batch_loop (λ l s, fold_left f l s) n items args (Z.of_nat (length args)) s
  = fold_left f (args ++ items) s.
Proof.
  revert args s. induction items as [|p items IH]; intros args s; simpl.
  - rewrite app_nil_r. by destruct args.
  - replace (Z.of_nat (length args) + 1)%Z with (Z.of_nat (length (args ++ [p])))
      by (rewrite length_app; simpl; lia).
    destruct (n <=? _)%Z.
    + rewrite (IH [] _). simpl. by rewrite <- fold_left_app, <- app_assoc.
    + rewrite IH. by rewrite <- app_assoc.
Qed.

Lemma lookup_executeDeleteBatch l t k :
  executeDeleteBatch l t !! k
  = if decide (k ∈ pp_key <$> l) then None else t !! k.
Proof.
  unfold executeDeleteBatch. revert t.
  induction l as [|p l IH]; intros t.
  - rewrite decide_False; [done|]. by intros ?%elem_of_nil.
  - simpl fold_left. rewrite IH. rewrite fmap_cons.
    destruct (decide (k ∈ pp_key <$> l)) as [Hin|Hin].
    + rewrite decide_True; [done|]. by right.
    + destruct (decide (k = pp_key p)) as [->|Hne].
      * rewrite decide_True by left. apply lookup_delete_eq.
      * rewrite decide_False; [by apply lookup_delete_ne|].
        by intros [?|?]%elem_of_cons.
Qed.

(** The row of the payload's key after its upsert: inserted with NULL
    detail when the key had no row, and otherwise the old row reset. *)
Lemma upsert_pending_eq t p :
  ∃ r, upsert_pending t p !! pp_key p = Some r ∧ is_waiting r
       ∧ (hmwp_detail r = None → t !! pp_key p = None)
       ∧ ∀ old, t !! pp_key p = Some old →
                is_reset r ∧ hmwp_profile_name r = hmwp_profile_name old.
Proof.
  unfold upsert_pending.
  destruct (t !! pp_key p) as [old|]; rewrite lookup_insert_eq; eexists;
    (split; [done|]).
  - split; [|split].
    + unfold is_waiting. cbn. split_and!; auto.
    + cbn. discriminate.
    + intros old' [= <-]. unfold is_reset. cbn. by split_and!.
  - split; [|split].
    + unfold is_waiting. cbn. split_and!; auto.
    + done.
    + discriminate.
Qed.

Lemma upsert_pending_ne t p k :
  k ≠ pp_key p → upsert_pending t p !! k = t !! k.
Proof.
  intros Hne. unfold upsert_pending.
  by destruct (t !! pp_key p); rewrite lookup_insert_ne.
Qed.

Lemma upsert_pending_reset t p r :
  t !! pp_key p = Some r → is_reset r → upsert_pending t p = t.
Proof.
  intros Hr (Hs & Ho & Hd & Hc). unfold upsert_pending. rewrite Hr.
  apply insert_id. rewrite Hr. f_equal. destruct r; simpl in *. by subst.
Qed.

Lemma upsert_pending_keeps_reset t p k r :
  t !! k = Some r → is_reset r →
  ∃ r', upsert_pending t p !! k = Some r' ∧ is_reset r'
        ∧ hmwp_profile_name r' = hmwp_profile_name r.
Proof.
  intros Hr Hres. destruct (decide (k = pp_key p)) as [->|Hne].
  - destruct (upsert_pending_eq t p) as (r' & Hr' & _ & _ & Hold).
    exists r'. split; [done|]. by apply Hold.
  - exists r. by rewrite upsert_pending_ne.
Qed.

Lemma executeUpsertBatch_keeps_reset l t k r :
  t !! k = Some r → is_reset r →
  ∃ r', executeUpsertBatch l t !! k = Some r' ∧ is_reset r'
        ∧ hmwp_profile_name r' = hmwp_profile_name r.
Proof.
  unfold executeUpsertBatch. revert t r.
  induction l as [|p l IH]; intros t r Hr Hres; simpl; [by exists r|].
  destruct (upsert_pending_keeps_reset t p k r Hr Hres) as (r1 & Hr1 & Hres1 & Hn1).
  destruct (IH _ r1 Hr1 Hres1) as (r' & Hr' & Hres' & Hn').
  exists r'. split_and!; [done..|]. by rewrite Hn'.
Qed.

(** A NULL detail under a key of the batch stays NULL only while no
    further row of the batch has the key. *)
Lemma upsert_pending_keeps_waiting t p k r :
  t !! k = Some r → is_waiting r →
  ∃ r', upsert_pending t p !! k = Some r' ∧ is_waiting r'
        ∧ (hmwp_detail r' = None → hmwp_detail r = None).
Proof.
  intros Hr Hw. destruct (decide (k = pp_key p)) as [->|Hne].
  - destruct (upsert_pending_eq t p) as (r' & Hr' & Hw' & Hnone & _).
    exists r'. split_and!; [done..|]. intros Hd. by rewrite (Hnone Hd) in Hr.
  - exists r. by rewrite upsert_pending_ne.
Qed.

Lemma executeUpsertBatch_keeps_waiting l t k r :
  t !! k = Some r → is_waiting r →
  ∃ r', executeUpsertBatch l t !! k = Some r' ∧ is_waiting r'
        ∧ (hmwp_detail r' = None → hmwp_detail r = None).
Proof.
  unfold executeUpsertBatch. revert t r.
  induction l as [|p l IH]; intros t r Hr Hw; simpl; [by exists r|].
  destruct (upsert_pending_keeps_waiting t p k r Hr Hw) as (r1 & Hr1 & Hw1 & Hd1).
  destruct (IH _ r1 Hr1 Hw1) as (r' & Hr' & Hw' & Hd').
  exists r'. split_and!; [done..|]. auto.
Qed.

(** Every key of the batch has a waiting row afterwards; the row was
    inserted by the batch when its detail is NULL, and it is the old row
    reset when the key had a row. *)
Lemma lookup_executeUpsertBatch_elem l t k :
  k ∈ pp_key <$> l →
  ∃ r, executeUpsertBatch l t !! k = Some r ∧ is_waiting r
       ∧ (hmwp_detail r = None → t !! k = None)
       ∧ ∀ old, t !! k = Some old →
                is_reset r ∧ hmwp_profile_name r = hmwp_profile_name old.
Proof.
  revert t.
  induction l as [|p l IH]; intros t; [by intros ?%elem_of_nil|].
  rewrite fmap_cons.
  destruct (decide (k ∈ pp_key <$> l)) as [Hin|Hni].
  - intros _. unfold executeUpsertBatch. cbn [fold_left].
    destruct (IH (upsert_pending t p) Hin) as (r & Hr & Hw & Hnone & Hold).
    exists r. split_and!; [done..| |].
    + intros Hd. specialize (Hnone Hd).
      destruct (decide (k = pp_key p)) as [->|Hne].
      * destruct (upsert_pending_eq t p) as (r1 & Hr1 & _). congruence.
      * by rewrite upsert_pending_ne in Hnone.
    + intros old Hk. destruct (decide (k = pp_key p)) as [->|Hne].
      * destruct (upsert_pending_eq t p) as (r1 & Hr1 & _ & _ & Hold1).
        destruct (Hold1 old Hk) as [Hres1 Hn1].
        destruct (Hold r1 Hr1) as [Hres Hn]. split; [done|]. by rewrite Hn.
      * apply Hold. by rewrite upsert_pending_ne.
  - intros [->|?]%elem_of_cons; [|done]. unfold executeUpsertBatch. cbn [fold_left].
    destruct (upsert_pending_eq t p) as (r1 & Hr1 & Hw1 & Hnone1 & Hold1).
    destruct (executeUpsertBatch_keeps_waiting l _ _ r1 Hr1 Hw1) as (r & Hr & Hw & Hd).
    exists r. split_and!; [done..|auto|].
    intros old Hk. destruct (Hold1 old Hk) as [Hres1 Hn1].
    destruct (executeUpsertBatch_keeps_reset l _ _ r1 Hr1 Hres1) as (r' & Hr' & Hres' & Hn').
    unfold executeUpsertBatch in Hr, Hr'. rewrite Hr in Hr'. injection Hr' as <-.
    split; [done|]. by rewrite Hn'.
Qed.

Lemma lookup_executeUpsertBatch_ne l t k :
  k ∉ pp_key <$> l → executeUpsertBatch l t !! k = t !! k.
Proof.
  unfold executeUpsertBatch. revert t.
  induction l as [|p l IH]; intros t; simpl; [done|].
  intros [Hne Hin]%not_elem_of_cons.
  rewrite IH by done. by apply upsert_pending_ne.
Qed.

Lemma executeUpsertBatch_reset l t :
  (∀ p, p ∈ l → ∃ r, t !! pp_key p = Some r ∧ is_reset r) →
  executeUpsertBatch l t = t.
Proof.
  unfold executeUpsertBatch. induction l as [|p l IH]; intros Hall; simpl; [done|].
  destruct (Hall p) as (r & Hr & Hres); [by left|].
  rewrite (upsert_pending_reset t p r) by done.
  apply IH. intros q Hq. apply Hall. by right.
Qed.

Lemma batch_loop_executeDeleteBatch n l t :
  batch_loop executeDeleteBatch n l [] 0%Z t = executeDeleteBatch l t.
Proof. exact (batch_loop_fold _ n l [] t). Qed.

Lemma batch_loop_executeUpsertBatch n l t :
  batch_loop executeUpsertBatch n l [] 0%Z t = executeUpsertBatch l t.
Proof. exact (batch_loop_fold _ n l [] t). Qed.

Lemma set_host_mdm_windows_profiles_id db :
  set_host_mdm_windows_profiles (host_mdm_windows_profiles db) db = db.
Proof. by destruct db. Qed.

(** The function as one expression: delete the remove list, then upsert
    the install list, whatever the batch sizes. *)
Lemma bulkSetPendingMDMWindowsHostProfilesDB_table ds db uuids :
  uuids ≠ [] →
  bulkSetPendingMDMWindowsHostProfilesDB ds uuids db
  = set_host_mdm_windows_profiles
      (executeUpsertBatch (listMDMWindowsProfilesToInstallDB db uuids)
         (executeDeleteBatch (listMDMWindowsProfilesToRemoveDB db uuids)
            (host_mdm_windows_profiles db)))
      db.
Proof.
  intros Hne. unfold bulkSetPendingMDMWindowsHostProfilesDB.
  destruct uuids as [|u uuids]; [done|].
  destruct (listMDMWindowsProfilesToInstallDB db (u :: uuids)) as [|p ins] eqn:Hi,
           (listMDMWindowsProfilesToRemoveDB db (u :: uuids)) as [|q rem] eqn:Hr;
    unfold bulkDeleteMDMWindowsHostsConfigProfilesDB;
    rewrite ?batch_loop_executeDeleteBatch, ?batch_loop_executeUpsertBatch;
    try reflexivity.
  symmetry. apply set_host_mdm_windows_profiles_id.
Qed.

(** The table a run leaves, key by key: a key of the install list has a
    waiting row; every other key has the row it had, unless it is in the
    remove list. *)
Lemma lookup_bulkSetPending ds (uuids : list string) db k :
  uuids ≠ [] →
  let T := host_mdm_windows_profiles
             (bulkSetPendingMDMWindowsHostProfilesDB ds uuids db) in
  (k ∈ pp_key <$> listMDMWindowsProfilesToInstallDB db uuids →
   ∃ r, T !! k = Some r ∧ is_waiting r
        ∧ (hmwp_detail r = None → host_mdm_windows_profiles db !! k = None)
        ∧ ∀ old, host_mdm_windows_profiles db !! k = Some old →
                 is_reset r ∧ hmwp_profile_name r = hmwp_profile_name old)
  ∧ (k ∉ pp_key <$> listMDMWindowsProfilesToInstallDB db uuids →
     T !! k = if decide (k ∈ pp_key <$> listMDMWindowsProfilesToRemoveDB db uuids)
              then None else host_mdm_windows_profiles db !! k).
Proof.
  intros Hne T. unfold T.
  rewrite bulkSetPendingMDMWindowsHostProfilesDB_table by done.
  cbn [host_mdm_windows_profiles set_host_mdm_windows_profiles]. split.
  - intros Hin.
    assert (Hkeep : executeDeleteBatch (listMDMWindowsProfilesToRemoveDB db uuids)
                      (host_mdm_windows_profiles db) !! k
                    = host_mdm_windows_profiles db !! k).
    { rewrite lookup_executeDeleteBatch, decide_False; [done|].
      intros (_ & _ & Hnone)%elem_of_remove_pairs.
      apply elem_of_install_pairs in Hin as (d & [Hd _]%desired_state_filtered & Hk & _).
      by apply (Hnone d). }
    destruct (lookup_executeUpsertBatch_elem _
                (executeDeleteBatch (listMDMWindowsProfilesToRemoveDB db uuids)
                   (host_mdm_windows_profiles db)) k Hin)
      as (r & Hr & Hw & Hnone & Hold).
    rewrite Hkeep in Hnone, Hold. by exists r.
  - intros Hk. rewrite lookup_executeUpsertBatch_ne by done.
    apply lookup_executeDeleteBatch.
Qed.

Lemma is_waiting_to_install db d r :
  host_mdm_windows_profiles db !! ds_key d = Some r → is_waiting r →
  to_install db d = true.
Proof.
  intros Hr (Hs & Ho & _). unfold to_install. rewrite Hr.
  unfold operation_is. by rewrite Ho, Hs.
Qed.

Lemma desired_state_bulkSetPending ds (uuids : list string) db F :
  desired_state (bulkSetPendingMDMWindowsHostProfilesDB ds uuids db) F
  = desired_state db F.
Proof.
  destruct (decide (uuids = [])) as [->|Hne]; [done|].
  by rewrite bulkSetPendingMDMWindowsHostProfilesDB_table.
Qed.

(** After a run nothing is left to remove, and the install list has the
    pairs it had. *)
Lemma bulkSetPending_lists ds (uuids : list string) db :
  uuids ≠ [] →
  let db' := bulkSetPendingMDMWindowsHostProfilesDB ds uuids db in
  listMDMWindowsProfilesToRemoveDB db' uuids = []
  ∧ ∀ k, k ∈ pp_key <$> listMDMWindowsProfilesToInstallDB db' uuids
         ↔ k ∈ pp_key <$> listMDMWindowsProfilesToInstallDB db uuids.
Proof.
  intros Hne db'.
  pose proof (λ k, lookup_bulkSetPending ds uuids db k Hne) as HT.
  cbn zeta in HT. fold db' in HT.
  assert (Hdes : ∀ F, desired_state db' F = desired_state db F)
    by (intros F; apply desired_state_bulkSetPending).
  split.
  - apply (fmap_nil_inv pp_key), elem_of_nil_inv.
    intros k (Hsome & HF & Hnone)%elem_of_remove_pairs.
    setoid_rewrite Hdes in Hnone.
    destruct (decide (k ∈ pp_key <$> listMDMWindowsProfilesToInstallDB db uuids))
      as [(d & [Hd _]%desired_state_filtered & Hk & _)%elem_of_install_pairs|Hni].
    + by apply (Hnone d).
    + destruct (HT k) as [_ Hout]. rewrite (Hout Hni) in Hsome.
      case_decide as Hr; [by destruct Hsome|].
      apply Hr, elem_of_remove_pairs. done.
  - intros k. split.
    + intros (d & Hd & Hk & Hti)%elem_of_install_pairs. rewrite Hdes in Hd.
      destruct (decide (k ∈ pp_key <$> listMDMWindowsProfilesToInstallDB db uuids))
        as [|Hni]; [done|].
      exfalso. destruct (HT k) as [_ Hout].
      unfold to_install in Hti. rewrite Hk, (Hout Hni) in Hti.
      rewrite decide_False in Hti.
      * apply Hni, elem_of_install_pairs. exists d. split_and!; [done..|].
        unfold to_install. by rewrite Hk.
      * intros (_ & _ & Hnone)%elem_of_remove_pairs.
        apply desired_state_filtered in Hd as [Hd _]. by apply (Hnone d).
    + intros Hk. destruct (HT k) as [Hin _]. destruct (Hin Hk) as (r & Hr & Hw & _).
      apply elem_of_install_pairs in Hk as (d & Hd & Hkd & _).
      apply elem_of_install_pairs. exists d. rewrite Hdes. split_and!; [done..|].
      apply (is_waiting_to_install db' d r); [|done]. by rewrite Hkd.
Qed.

(** A run on a database with nothing to remove and only reset rows to
    install changes nothing. *)
Lemma bulkSetPending_fixed ds (uuids : list string) db :
  listMDMWindowsProfilesToRemoveDB db uuids = [] →
  (∀ p, p ∈ listMDMWindowsProfilesToInstallDB db uuids →
        ∃ r, host_mdm_windows_profiles db !! pp_key p = Some r ∧ is_reset r) →
  bulkSetPendingMDMWindowsHostProfilesDB ds uuids db = db.
Proof.
  intros Hrem Hins. destruct (decide (uuids = [])) as [->|Hne]; [done|].
  rewrite bulkSetPendingMDMWindowsHostProfilesDB_table by done.
  rewrite Hrem. change (executeDeleteBatch [] ?t) with t.
  rewrite (executeUpsertBatch_reset _ _ Hins).
  apply set_host_mdm_windows_profiles_id.
Qed.

(** C6. Running bulkSetPendingMDMWindowsHostProfilesDB again for the
    same host uuids on the database the first run left, with the
    profiles, hosts and enrollments unchanged, leaves the same (host,
    profile) pairs, and each row as every query reads it: the same status,
    operation type, command uuid and profile name, and the same detail
    read through COALESCE(detail, ''). The stored rows are the same
    except that a row the first run inserted, which holds a NULL detail,
    has the detail '' after the second run. From the second run on a
    further run changes nothing. The batch sizes of the runs may
    differ. *)
Theorem bulkSetPendingMDMWindowsHostProfilesDB_second_run
    (ds ds' ds'' : Datastore) db (uuids : list string) :
  let db1 := bulkSetPendingMDMWindowsHostProfilesDB ds uuids db in
  let db2 := bulkSetPendingMDMWindowsHostProfilesDB ds' uuids db1 in
  db2 = set_host_mdm_windows_profiles (host_mdm_windows_profiles db2) db1
  ∧ (∀ k, is_Some (host_mdm_windows_profiles db2 !! k)
          ↔ is_Some (host_mdm_windows_profiles db1 !! k))
  ∧ (∀ k r1 r2,
       host_mdm_windows_profiles db1 !! k = Some r1 →
       host_mdm_windows_profiles db2 !! k = Some r2 →
       same_row_read r1 r2
       ∧ (r2 ≠ r1 →
          host_mdm_windows_profiles db !! k = None
          ∧ hmwp_detail r1 = None ∧ hmwp_detail r2 = Some ""))
  ∧ bulkSetPendingMDMWindowsHostProfilesDB ds'' uuids db2 = db2.
Proof.
  intros db1 db2.
  destruct (decide (uuids = [])) as [->|Hne].
  { split_and!; [by destruct db|done| |done].
    intros k r1 r2 H1 H2. unfold db2 in H2. cbn in H2. unfold db1 in H1. cbn in H1.
    assert (r2 = r1) as -> by congruence. by split. }
  pose proof (λ k, lookup_bulkSetPending ds uuids db k Hne) as HT1.
  pose proof (λ k, lookup_bulkSetPending ds' uuids db1 k Hne) as HT2.
  cbn zeta in HT1, HT2. fold db1 in HT1, HT2. fold db2 in HT2.
  destruct (bulkSetPending_lists ds uuids db Hne) as [Hrem1 Hins1]. fold db1 in Hrem1, Hins1.
  destruct (bulkSetPending_lists ds' uuids db1 Hne) as [Hrem2 Hins2].
  fold db2 in Hrem2, Hins2.
  (* the second run, key by key *)
  assert (Hin : ∀ k, k ∈ pp_key <$> listMDMWindowsProfilesToInstallDB db uuids →
            ∃ r1 r2, host_mdm_windows_profiles db1 !! k = Some r1
                     ∧ host_mdm_windows_profiles db2 !! k = Some r2
                     ∧ is_waiting r1 ∧ is_reset r2
                     ∧ hmwp_profile_name r2 = hmwp_profile_name r1
                     ∧ (hmwp_detail r1 = None → host_mdm_windows_profiles db !! k = None)).
  { intros k Hk. destruct (HT1 k) as [H1 _]. destruct (H1 Hk) as (r1 & Hr1 & Hw1 & Hn1 & _).
    destruct (HT2 k) as [H2 _].
    destruct (H2 (proj2 (Hins1 k) Hk)) as (r2 & Hr2 & _ & _ & Hold).
    destruct (Hold r1 Hr1) as [Hres2 Hname]. by exists r1, r2. }
  assert (Hout : ∀ k, k ∉ pp_key <$> listMDMWindowsProfilesToInstallDB db uuids →
            host_mdm_windows_profiles db2 !! k = host_mdm_windows_profiles db1 !! k).
  { intros k Hk. destruct (HT2 k) as [_ H2]. rewrite H2 by (by rewrite Hins1).
    rewrite Hrem1. rewrite decide_False; [done|]. by intros ?%elem_of_nil. }
  split_and!.
  - unfold db2. rewrite bulkSetPendingMDMWindowsHostProfilesDB_table by done.
    by destruct db1.
  - intros k.
    destruct (decide (k ∈ pp_key <$> listMDMWindowsProfilesToInstallDB db uuids)) as [Hk|Hk].
    + destruct (Hin k Hk) as (r1 & r2 & -> & -> & _). split; by eexists.
    + by rewrite Hout.
  - intros k r1 r2 Hr1 Hr2.
    destruct (decide (k ∈ pp_key <$> listMDMWindowsProfilesToInstallDB db uuids)) as [Hk|Hk].
    + destruct (Hin k Hk) as (r1' & r2' & Hr1' & Hr2' & Hw & Hres & Hname & Hnone).
      assert (r1' = r1) as -> by congruence. assert (r2' = r2) as -> by congruence.
      destruct Hw as (Hs1 & Ho1 & Hd1 & Hc1), Hres as (Hs2 & Ho2 & Hd2 & Hc2).
      split.
      * unfold same_row_read, detail_read. rewrite Hs1, Hs2, Ho1, Ho2, Hc1, Hc2, Hd2.
        split_and!; [done..|]. by destruct Hd1 as [->| ->].
      * intros Hne'. destruct Hd1 as [Hd1|Hd1]; [by auto|].
        exfalso. apply Hne'. destruct r1, r2; cbn in *. by subst.
    + rewrite Hout, Hr1 in Hr2 by done. injection Hr2 as <-.
      split; [by split_and!|done].
  - apply bulkSetPending_fixed; [done|].
    intros p Hp.
    assert (Hk : pp_key p ∈ pp_key <$> listMDMWindowsProfilesToInstallDB db2 uuids)
      by (by apply list_elem_of_fmap_2).
    apply Hins2, Hins1 in Hk.
    destruct (Hin _ Hk) as (r1 & r2 & _ & Hr2 & _ & Hres & _). by exists r2.
Qed.

End Reconciler.

(** ** Configuration profiles *)

(** C10. NewMDMWindowsConfigProfile returns the exists error for the
    profile name, and leaves the database as it was, when a Windows profile
    of the same team already has the name, and also when an Apple profile
    of that team has it. *)
Theorem NewMDMWindowsConfigProfile_name_collision
    (profileUUID : string) (cp : MDMWindowsConfigProfile) (db : DB) :
  let teamID := match TeamID cp with Some t => t | None => 0%N end in
  (∃ w, w ∈ mdm_windows_configuration_profiles db
        ∧ mwcp_team_id w = teamID ∧ mwcp_name w = Name cp)
  ∨ (∃ a, a ∈ mdm_apple_configuration_profiles db
          ∧ macp_team_id a = teamID ∧ macp_name a = Name cp) →
  NewMDMWindowsConfigProfile profileUUID cp db
  = (Err (existsError "MDMWindowsConfigProfile.Name" (Name cp) (TeamID cp)), db).
Proof.
  intros teamID Hcol. unfold NewMDMWindowsConfigProfile. fold teamID.
  destruct (EXISTS_apple_profile db (Name cp) teamID) eqn:Ha; [done|].
  destruct Hcol as [(w & Hw & Ht & Hn) | (a & Hin & Ht & Hn)].
  - assert (isDuplicate_profile db
              {| mwcp_profile_uuid := profileUUID; mwcp_team_id := teamID;
                 mwcp_name := Name cp; mwcp_syncml := cp_SyncML cp |} = true) as ->; [|done].
    apply existsb_exists. exists w. split; [by apply list_elem_of_In|]. simpl.
    rewrite Ht, Hn, N.eqb_refl, String.eqb_refl. apply orb_true_r.
  - exfalso. apply not_true_iff_false in Ha. apply Ha.
    apply existsb_exists. exists a. split; [by apply list_elem_of_In|].
    by rewrite Ht, Hn, N.eqb_refl, String.eqb_refl.
Qed.

(** ** Response correlator *)

Section CorrelatorProperties.

Variable ShouldBeTracked : SyncMLCmd → string → bool.
Variable BuildMDMWindowsProfilePayloadFromMDMResponse :
  MDMWindowsCommand → gmap string SyncMLCmd → string → Result MDMWindowsProfilePayload.
Variable xml_Marshal : SyncMLCmd → option (list byte).

Local Abbreviation saveTx :=
  (saveResponseTx ShouldBeTracked BuildMDMWindowsProfilePayloadFromMDMResponse xml_Marshal).
Local Abbreviation SaveResponse :=
  (MDMWindowsSaveResponse ShouldBeTracked BuildMDMWindowsProfilePayloadFromMDMResponse
     xml_Marshal).
Local Abbreviation collect :=
  (collect_results BuildMDMWindowsProfilePayloadFromMDMResponse xml_Marshal).

Implicit Types (t : gmap (string * string) host_mdm_windows_profiles_row).

Lemma only_status_updated_refl t : only_status_updated t t.
Proof. split; [done|]. intros k r Hr. exists r. by repeat split. Qed.

Lemma only_status_updated_trans t1 t2 t3 :
  only_status_updated t1 t2 → only_status_updated t2 t3 → only_status_updated t1 t3.
Proof.
  intros [Hd1 H1] [Hd2 H2]. split; [congruence|].
  intros k r3 Hr3. destruct (H2 k r3 Hr3) as (r2 & Hr2 & ? & ? & ?).
  destruct (H1 k r2 Hr2) as (r1 & Hr1 & ? & ? & ?).
  exists r1. repeat split; congruence.
Qed.

Lemma upsert_status_existing t key detail status :
  is_Some (t !! key) →
  only_status_updated t (upsert_status t (key, detail, status)).
Proof.
  intros [r Hr]. unfold upsert_status. rewrite Hr. split.
  - apply dom_insert_lookup_L. by eexists.
  - intros k r'. destruct (decide (key = k)) as [->|Hne].
    + rewrite lookup_insert_eq. intros [= <-]. exists r. by repeat split.
    + rewrite lookup_insert_ne by done. intros Hr'. exists r'. by repeat split.
Qed.

Lemma fold_upsert_status_existing args t :
  (∀ a, a ∈ args → is_Some (t !! a.1.1)) →
  only_status_updated t (fold_left upsert_status args t).
Proof.
  revert t. induction args as [|[[key detail] status] args IH]; intros t Hall;
    cbn [fold_left].
  - apply only_status_updated_refl.
  - assert (Hk : is_Some (t !! key)) by (apply (Hall (key, detail, status)); by left).
    pose proof (upsert_status_existing t key detail status Hk) as Hstep.
    eapply only_status_updated_trans; [exact Hstep|]. apply IH.
    intros a Ha. destruct Hstep as [Hdom _].
    apply elem_of_dom. rewrite Hdom. apply elem_of_dom, Hall. by right.
Qed.

Lemma status_args_keys m matching args :
  status_args m matching = Ok args →
  ∀ a, a ∈ args → ∃ hp, hp ∈ matching ∧ a.1.1 = hp.1.
Proof.
  revert args. induction matching as [|hp rest IH]; intros args; simpl.
  - intros [= <-] a Ha. by apply elem_of_nil in Ha.
  - destruct (m !! hmwp_command_uuid hp.2) as [payload|]; [|done].
    destruct (status_args m rest) as [args'| |] eqn:Hrest; simpl; [|done..].
    intros [= <-] a [->|Ha]%elem_of_cons.
    + exists hp. split; [by left|done].
    + destruct (IH args' eq_refl a Ha) as (hp' & Hin & Hk).
      exists hp'. split; [by right|done].
Qed.

(** The status update only touches rows that exist: it creates no row. *)
Lemma updateMDMWindowsHostProfileStatusFromResponseDB_existing tx payloads tx' :
  updateMDMWindowsHostProfileStatusFromResponseDB tx payloads = Ok tx' →
  only_status_updated (host_mdm_windows_profiles tx) (host_mdm_windows_profiles tx')
  ∧ windows_mdm_responses tx' = windows_mdm_responses tx
  ∧ windows_mdm_command_results tx' = windows_mdm_command_results tx
  ∧ windows_mdm_command_queue tx' = windows_mdm_command_queue tx.
Proof.
  unfold updateMDMWindowsHostProfileStatusFromResponseDB.
  destruct payloads as [|first rest].
  { intros [= <-]. split; [apply only_status_updated_refl|done]. }
  destruct (negb _); [done|].
  destruct (status_args _ _) as [args| |] eqn:Hargs; simpl; [|done..].
  destruct args as [|a args]; [done|]. intros [= <-]. split; [|done].
  cbn [host_mdm_windows_profiles set_host_mdm_windows_profiles].
  apply (fold_upsert_status_existing (a :: args)).
  intros a' Ha'.
  destruct (status_args_keys _ _ _ Hargs a' Ha') as ([k r] & Hin & ->).
  apply list_elem_of_filter in Hin as [_ Hin].
  apply elem_of_map_to_list in Hin. by eexists.
Qed.

Lemma withRetryTxx_Ok attempts fn db' :
  withRetryTxx attempts fn = Ok db' →
  ∃ a, a ∈ attempts ∧ at_conflict a = false ∧ fn (at_start a) = Ok db'.
Proof.
  induction attempts as [|a attempts IH]; simpl; [done|].
  destruct (at_conflict a) eqn:Hc.
  - intros (a' & Hin & H)%IH. exists a'. split; [by right|done].
  - intros Hfn. exists a. split; [by left|done].
Qed.

(** Every VALUES row of the results carries the identifier of the
    enrollment the loop was given, and a status code that is a value. *)
Lemma collect_results_args enrollment responseID tr cmds args pps :
  collect enrollment responseID tr cmds = Ok (args, pps) →
  ∀ a, a ∈ args →
    ra_enrollment_id a = ID enrollment ∧ ra_response_id a = responseID
    ∧ is_Some (ra_status_code a).
Proof.
  revert args pps. induction cmds as [|cmd cmds IH]; intros args pps; simpl.
  - intros ? a Ha. simplify_eq. by apply elem_of_nil in Ha.
  - destruct (uuidsToStatus tr !! CommandUUID cmd) as [status|];
      [destruct (Data status);
       [destruct (bool_decide _);
        [destruct (BuildMDMWindowsProfilePayloadFromMDMResponse _ _ _)|]|]|];
      simpl; try done;
      (destruct (collect enrollment responseID tr cmds)
         as [[args' pps']| |] eqn:Hrest; simpl; [|done..]);
      (intros ? x Hx; simplify_eq; apply elem_of_cons in Hx as [->|Hx];
       [by repeat split; simpl; eauto|by eapply IH]).
Qed.

Implicit Types (res : gmap (N * string) windows_mdm_command_results_row).

Lemma upsert_result_other res a k :
  k ≠ (ra_enrollment_id a, ra_command_uuid a) → upsert_result res a !! k = res !! k.
Proof.
  intros Hne. unfold upsert_result.
  by destruct (res !! _); rewrite lookup_insert_ne.
Qed.

Lemma fold_upsert_result_other args res i k :
  (∀ a, a ∈ args → ra_enrollment_id a = i) → k.1 ≠ i →
  fold_left upsert_result args res !! k = res !! k.
Proof.
  revert res. induction args as [|a args IH]; intros res Hall Hk; simpl; [done|].
  rewrite IH; [|intros a' Ha'; apply Hall; by right|done].
  apply upsert_result_other. intros ->. apply Hk. simpl. apply Hall. by left.
Qed.

(** An existing result row takes the status code and the result of the
    VALUES row whenever these are values, the empty string and the empty
    byte string included. *)
Lemma upsert_result_replaces res a old code raw :
  res !! (ra_enrollment_id a, ra_command_uuid a) = Some old →
  ra_status_code a = Some code → ra_raw_result a = Some raw →
  upsert_result res a !! (ra_enrollment_id a, ra_command_uuid a)
  = Some {| wmcr_raw_result := Some raw;
            wmcr_response_id := wmcr_response_id old;
            wmcr_status_code := Some code |}.
Proof.
  intros Hold Hc Hr. unfold upsert_result. rewrite Hold, lookup_insert_eq, Hc, Hr. done.
Qed.

(** The dequeue statement selects by command uuid only: no entry of a
    listed command is left, whatever its enrollment. *)
Lemma dequeue_ignores_enrollment (q : gset (N * string)) (uuids : list string)
    (enrollment_id : N) (command_uuid : string) :
  command_uuid ∈ uuids →
  (enrollment_id, command_uuid) ∉ filter (λ ec : N * string, ec.2 ∉ uuids) q.
Proof. intros Hin [Hnot _]%elem_of_filter. by apply Hnot. Qed.

(** What one run of the closure does to the tables, for the enrollment
    it was given. *)
Lemma saveResponseTx_Ok enrollment fullResponse tx db' :
  saveTx enrollment fullResponse tx = Ok db' →
  only_status_updated (host_mdm_windows_profiles tx) (host_mdm_windows_profiles db')
  ∧ (windows_mdm_responses db' = windows_mdm_responses tx
     ∨ windows_mdm_responses db'
       = windows_mdm_responses tx
         ++ [{| wmr_enrollment_id := ID enrollment;
                wmr_raw_response := Raw fullResponse |}])
  ∧ ∀ k, k.1 ≠ ID enrollment →
         windows_mdm_command_results db' !! k = windows_mdm_command_results tx !! k.
Proof.
  unfold saveResponseTx.
  destruct (cmdUUIDs _) as [|u us].
  { intros [= <-]. split_and!; [apply only_status_updated_refl|by left|done]. }
  destruct (findCommands _ _) as [|cmd cmds] eqn:Hfind.
  { intros [= <-]. split_and!; [apply only_status_updated_refl|by right|done]. }
  destruct (collect _ _ _ _) as [[args pps]| |] eqn:Hargs; simpl; [|done..].
  destruct (updateMDMWindowsHostProfileStatusFromResponseDB _ _) as [tx1| |] eqn:Hup;
    simpl; [|done..].
  apply updateMDMWindowsHostProfileStatusFromResponseDB_existing in Hup
    as (Hprof & Hresp & Hres & Hq).
  intros [= <-]. simpl. split_and!; [done|right; by rewrite Hresp|].
  intros k Hk. rewrite Hres.
  apply (fold_upsert_result_other _ _ (ID enrollment)); [|done].
  intros a Ha. by apply (collect_results_args _ _ _ _ _ _ Hargs).
Qed.

Lemma MDMWindowsSaveResponse_Ok db attempts deviceID fullResponse db' :
  SaveResponse db attempts deviceID fullResponse = Ok db' →
  ∃ enrollment a,
    MDMWindowsGetEnrolledDeviceWithDeviceID db deviceID = Ok enrollment
    ∧ a ∈ attempts ∧ at_conflict a = false
    ∧ saveTx enrollment fullResponse (at_start a) = Ok db'.
Proof.
  unfold MDMWindowsSaveResponse. destruct (Raw fullResponse); [done|].
  destruct (MDMWindowsGetEnrolledDeviceWithDeviceID db deviceID)
    as [enrollment| |]; simpl; [|done..].
  intros (a & Hin & Hc & Hfn)%withRetryTxx_Ok. by exists enrollment, a.
Qed.

(** C5. Whatever the response holds, a call of MDMWindowsSaveResponse
    that succeeds leaves host_mdm_windows_profiles with exactly the
    (host, profile) keys the transaction started from: it inserts no row
    (and deletes none), and the rows differ at most in detail and
    status. *)
Theorem response_never_inserts_host_profile
    (db : DB) (attempts : list attempt) (deviceID : string)
    (fullResponse : SyncML) (db' : DB) :
  SaveResponse db attempts deviceID fullResponse = Ok db' →
  ∃ a, a ∈ attempts
       ∧ dom (host_mdm_windows_profiles db') = dom (host_mdm_windows_profiles (at_start a))
       ∧ ∀ k r', host_mdm_windows_profiles db' !! k = Some r' →
                 ∃ r, host_mdm_windows_profiles (at_start a) !! k = Some r
                      ∧ same_assignment r r'.
Proof.
  intros (enrollment & a & _ & Hin & _ & Htx)%MDMWindowsSaveResponse_Ok.
  apply saveResponseTx_Ok in Htx as ([Hdom Hrows] & _). by exists a.
Qed.

(** C4, as the code has it. The enrollment is resolved once, on the
    database the call was made on, before the retrying transaction is
    started: the attempt that commits, however many came before it,
    stores the response under the identifier of that enrollment and
    writes results for no other enrollment, whatever
    mdm_windows_enrollments holds when the attempt starts. *)
Theorem enrollment_is_resolved_before_the_transaction
    (db : DB) (attempts : list attempt) (deviceID : string)
    (fullResponse : SyncML) (db' : DB) :
  SaveResponse db attempts deviceID fullResponse = Ok db' →
  ∃ enrollment a,
    MDMWindowsGetEnrolledDeviceWithDeviceID db deviceID = Ok enrollment
    ∧ a ∈ attempts
    ∧ (windows_mdm_responses db' = windows_mdm_responses (at_start a)
       ∨ windows_mdm_responses db'
         = windows_mdm_responses (at_start a)
           ++ [{| wmr_enrollment_id := ID enrollment;
                  wmr_raw_response := Raw fullResponse |}])
    ∧ ∀ k, k.1 ≠ ID enrollment →
           windows_mdm_command_results db' !! k
           = windows_mdm_command_results (at_start a) !! k.
Proof.
  intros (enrollment & a & Hlook & Hin & _ & Htx)%MDMWindowsSaveResponse_Ok.
  apply saveResponseTx_Ok in Htx as (_ & Hresp & Hres). by exists enrollment, a.
Qed.

End CorrelatorProperties.

(** ** The properties on the example data *)

Lemma client_error_is_failed_witness :
  GetMDMWindowsBitLockerStatus disk_encryption_enabled db_disk_encryption 100 (Some host_H1)
  = Ok (Some {| Status := Some DiskEncryptionFailed; Detail := "tpm is missing" |})
  ∧ GetMDMWindowsBitLockerSummary disk_encryption_enabled db_disk_encryption 100 None
    = Ok {| Verified := 1; Verifying := 1; ActionRequired := 0;
            Enforcing := 0; Failed := 1; RemovingEnforcement := 0 |}.
Proof.
  apply (client_error_is_failed disk_encryption_enabled db_disk_encryption 100 host_H1 None
           {| h_id := 1; h_uuid := "H1"; h_platform := "windows"; h_team_id := None |}
           []
           [ {| h_id := 2; h_uuid := "H2"; h_platform := "windows"; h_team_id := None |};
             {| h_id := 3; h_uuid := "H3"; h_platform := "windows"; h_team_id := None |} ]
           "tpm is missing").
  - reflexivity.
  - reflexivity.
  - discriminate.
  - reflexivity.
  - intros i [= <-]. reflexivity.
  - reflexivity.
  - reflexivity.
  - reflexivity.
  - reflexivity.
  - reflexivity.
  - reflexivity.
Defined.

(** C3, counterexample. The third example host is not a server, has no
    client error, has an available key recorded at time 0, and its disk
    reported not-encrypted at 1800 s, thirty minutes after the key and so
    inside the hour; evaluated two hours after the key, the host is
    Enforcing, not Verifying. *)
Lemma grace_window_counterexample :
  let j := bitlocker_join db_disk_encryption 3 in
  is_server j = Some false
  ∧ client_error j = None
  ∧ base64_encrypted j = Some "a2V5"
  ∧ decryptable j = Some true
  ∧ key_updated_at j = Some 0%Z
  ∧ encrypted j = Some false
  ∧ disk_updated_at j = Some 1800%Z
  ∧ (0 ≤ 1800)%Z ∧ (1800 ≤ 0 + 3600)%Z
  ∧ bitlocker_status_case 7200 j = Some DiskEncryptionEnforcing
  ∧ bitlocker_status_case 7200 j ≠ Some DiskEncryptionVerifying
  ∧ sql_true (whereBitLockerStatus DiskEncryptionVerifying 7200 j) = false.
Proof. vm_compute. repeat split; congruence. Qed.

Lemma grace_window_is_measured_from_evaluation_time_witness :
  let j := bitlocker_join db_disk_encryption 3 in
  ((1000 ≤ 0 + 3600)%Z →
     bitlocker_status_case 1000 j = Some DiskEncryptionVerifying ∧
     sql_true (whereBitLockerStatus DiskEncryptionVerifying 1000 j) = true)
  ∧ ((0 + 3600 < 1000)%Z →
     bitlocker_status_case 1000 j = Some DiskEncryptionEnforcing ∧
     sql_true (whereBitLockerStatus DiskEncryptionEnforcing 1000 j) = true)
  ∧ ((0 + 3600 < 1800)%Z → (1800 ≤ 1000)%Z →
     bitlocker_status_case 1000 j = Some DiskEncryptionEnforcing).
Proof.
  apply (grace_window_is_measured_from_evaluation_time 1000 0 1800
           (bitlocker_join db_disk_encryption 3) "a2V5").
  - reflexivity.
  - left. reflexivity.
  - reflexivity.
  - discriminate.
  - reflexivity.
  - reflexivity.
  - reflexivity.
  - reflexivity.
  - lia.
Defined.

Lemma combined_status_follows_merge_rule_witness :
  ∃ s de,
    bitlocker_status_case 100 (bitlocker_join db_disk_encryption 3) = Some s
    ∧ spec_disk_encryption_bucket s = Some de
    ∧ profilesAndBitLockerStatus db_disk_encryption 100
        {| h_id := 3; h_uuid := "H3"; h_platform := "windows"; h_team_id := None |}
      = spec_bucket_name (spec_merge_rule BucketVerifying de).
Proof.
  apply (combined_status_follows_merge_rule db_disk_encryption 100 None
           {| h_id := 3; h_uuid := "H3"; h_platform := "windows"; h_team_id := None |}
           BucketVerifying).
  - reflexivity.
  - vm_compute. reflexivity.
Defined.

Lemma install_remove_cover_desired_and_actual_witness :
  ("H1", "P1") ∉ pp_key <$> listMDMWindowsProfilesToRemoveDB db_reconcile [].
Proof.
  apply (install_remove_cover_desired_and_actual db_reconcile []).
  - vm_compute. left.
  - vm_compute. eauto.
Defined.

(** C6, counterexample. On the reconciler database the host H1 desires
    the profiles P1 and P2 and has no row for P2. The first run for H1
    inserts the row of P2, which holds a NULL detail; the second run, on
    that database and with the same profiles, hosts and enrollments,
    updates the row and stores the detail '': the row set after the second
    run is not the row set after the first. *)
Lemma second_run_rewrites_null_detail :
  let ds := {| testUpsertMDMDesiredProfilesBatchSize := 0;
               testDeleteMDMProfilesBatchSize := 0 |} in
  let db1 := bulkSetPendingMDMWindowsHostProfilesDB ds ["H1"] db_reconcile in
  let db2 := bulkSetPendingMDMWindowsHostProfilesDB ds ["H1"] db1 in
  host_mdm_windows_profiles db_reconcile !! ("H1", "P2") = None
  ∧ desired_state db1 (λ _, true) = desired_state db_reconcile (λ _, true)
  ∧ (∃ r1, host_mdm_windows_profiles db1 !! ("H1", "P2") = Some r1
           ∧ hmwp_detail r1 = None)
  ∧ (∃ r2, host_mdm_windows_profiles db2 !! ("H1", "P2") = Some r2
           ∧ hmwp_detail r2 = Some "")
  ∧ host_mdm_windows_profiles db2 ≠ host_mdm_windows_profiles db1.
Proof.
  intros ds db1 db2. split_and!.
  - reflexivity.
  - reflexivity.
  - eexists. split; [by vm_compute|reflexivity].
  - eexists. split; [by vm_compute|reflexivity].
  - intros Heq. apply (f_equal (λ t, hmwp_detail <$> t !! ("H1", "P2"))) in Heq.
    vm_compute in Heq. discriminate.
Qed.

Lemma NewMDMWindowsConfigProfile_name_collision_witness :
  NewMDMWindowsConfigProfile "P3"
    {| ProfileUUID := ""; TeamID := None; Name := "N3"; cp_SyncML := [] |} db_reconcile
  = (Err (existsError "MDMWindowsConfigProfile.Name" "N3" None), db_reconcile).
Proof.
  apply (NewMDMWindowsConfigProfile_name_collision "P3"
           {| ProfileUUID := ""; TeamID := None; Name := "N3"; cp_SyncML := [] |}
           db_reconcile).
  right. exists {| macp_team_id := 0; macp_name := "N3" |}.
  split; [left|split; reflexivity].
Defined.

(** C1, on the code. The command C1 is known and device D1 is enrolled
    as enrollment 1. A first response with a Status operation of code 200
    and no Results writes the row (1, C1) with status code 200 and empty
    result bytes. A second response with a Results operation and no Status
    then updates the same row: the result bytes are stored, and the status
    code is overwritten with the empty string, because the Go code sends
    the empty string, which COALESCE does not skip. The row does not hold
    200 any more. *)
Theorem later_results_write_erases_status_code :
  ∃ db1 db2,
    MDMWindowsSaveResponse_alone track_all build_verifying marshal_fixed
      db_two_devices "D1" response_status_200 = Ok db1
    ∧ windows_mdm_command_results db1 !! (1%N, "C1")
      = Some {| wmcr_raw_result := Some []; wmcr_response_id := 1;
                wmcr_status_code := Some "200" |}
    ∧ MDMWindowsSaveResponse_alone track_all build_verifying marshal_fixed
        db1 "D1" response_results = Ok db2
    ∧ windows_mdm_command_results db2 !! (1%N, "C1")
      = Some {| wmcr_raw_result := Some [x3c; x52; x2f; x3e]; wmcr_response_id := 1;
                wmcr_status_code := Some "" |}.
Proof.
  destruct (MDMWindowsSaveResponse_alone track_all build_verifying marshal_fixed
              db_two_devices "D1" response_status_200) as [db1| |] eqn:H1;
    [|by vm_compute in H1..].
  destruct (MDMWindowsSaveResponse_alone track_all build_verifying marshal_fixed
              db1 "D1" response_results) as [db2| |] eqn:H2.
  - exists db1, db2. vm_compute in H1. injection H1 as <-.
    vm_compute in H2. injection H2 as <-. by vm_compute.
  - vm_compute in H1. injection H1 as <-. by vm_compute in H2.
  - vm_compute in H1. injection H1 as <-. by vm_compute in H2.
Qed.

(** C2, on the code. The command C1 is queued for the two enrollments 1
    (device D1) and 2 (device D2). After the response of D1 with a Status
    operation for C1 the queue is empty: the entry (1, C1) is gone, and so
    is the entry (2, C1) of the other device, which has not answered. *)
Theorem dequeue_removes_entries_of_other_devices :
  (2%N, "C1") ∈ windows_mdm_command_queue db_two_devices
  ∧ ∃ db1,
      MDMWindowsSaveResponse_alone track_all build_verifying marshal_fixed
        db_two_devices "D1" response_status_200 = Ok db1
      ∧ ((1%N, "C1") ∉ windows_mdm_command_queue db1)
      ∧ ((2%N, "C1") ∉ windows_mdm_command_queue db1).
Proof.
  split; [by vm_compute|].
  destruct (MDMWindowsSaveResponse_alone track_all build_verifying marshal_fixed
              db_two_devices "D1" response_status_200) as [db1| |] eqn:H1;
    [|by vm_compute in H1..].
  exists db1. split; [done|]. vm_compute in H1. injection H1 as <-.
  split; by vm_compute.
Qed.

(** C4, counterexample. The enrollment of device D1 is read as
    enrollment 1; the first attempt of the transaction ends in a conflict,
    and when the second attempt starts D1 is the device of enrollment 3.
    The committed response is nevertheless stored under enrollment 1, and
    so is the result: the retry did not read the enrollment again. *)
Lemma stale_enrollment_counterexample :
  ∃ db',
    MDMWindowsSaveResponse track_all build_verifying marshal_fixed
      db_two_devices attempts_with_retry "D1" response_status_200 = Ok db'
    ∧ MDMWindowsGetEnrolledDeviceWithDeviceID db_device_id_reassigned "D1"
      = Ok {| ID := 3; MDMDeviceID := "D1"; MDMHardwareID := "HW3"; HostUUID := "H3" |}
    ∧ windows_mdm_responses db'
      = [ {| wmr_enrollment_id := 1; wmr_raw_response := Raw response_status_200 |} ]
    ∧ is_Some (windows_mdm_command_results db' !! (1%N, "C1"))
    ∧ windows_mdm_command_results db' !! (3%N, "C1") = None.
Proof.
  destruct (MDMWindowsSaveResponse track_all build_verifying marshal_fixed
              db_two_devices attempts_with_retry "D1" response_status_200)
    as [db'| |] eqn:H1; [|by vm_compute in H1..].
  exists db'. split; [done|]. vm_compute in H1. injection H1 as <-.
  split_and!; [by vm_compute..| |by vm_compute]. vm_compute. eauto.
Qed.

Lemma enrollment_is_resolved_before_the_transaction_witness :
  ∃ enrollment a,
    MDMWindowsGetEnrolledDeviceWithDeviceID db_two_devices "D1" = Ok enrollment
    ∧ a ∈ attempts_with_retry
    ∧ (windows_mdm_responses db_after_retry = windows_mdm_responses (at_start a)
       ∨ windows_mdm_responses db_after_retry
         = windows_mdm_responses (at_start a)
           ++ [{| wmr_enrollment_id := ID enrollment;
                  wmr_raw_response := Raw response_status_200 |}])
    ∧ ∀ k, k.1 ≠ ID enrollment →
           windows_mdm_command_results db_after_retry !! k
           = windows_mdm_command_results (at_start a) !! k.
Proof.
  apply (enrollment_is_resolved_before_the_transaction
           track_all build_verifying marshal_fixed
           db_two_devices attempts_with_retry "D1" response_status_200 db_after_retry).
  vm_compute. reflexivity.
Defined.

Lemma response_never_inserts_host_profile_witness :
  ∃ a, a ∈ [{| at_start := db_pending_profile; at_conflict := false |}]
       ∧ dom (host_mdm_windows_profiles db_after_atomic)
         = dom (host_mdm_windows_profiles (at_start a))
       ∧ ∀ k r',
           host_mdm_windows_profiles db_after_atomic !! k = Some r' →
           ∃ r, host_mdm_windows_profiles (at_start a) !! k = Some r
                ∧ same_assignment r r'.
Proof.
  apply (response_never_inserts_host_profile
           track_all build_verifying marshal_fixed db_pending_profile
           [{| at_start := db_pending_profile; at_conflict := false |}]
           "D1" response_atomic_200 db_after_atomic).
  vm_compute. reflexivity.
Defined.

(** * Further properties of the datastore *)

(** ** Enrollment registry *)

Section Registry.

Implicit Types (db : DB) (l : list MDMWindowsEnrolledDevice).

Lemma set_mdm_windows_enrollments_id db :
  set_mdm_windows_enrollments (mdm_windows_enrollments db) db = db.
Proof. by destruct db. Qed.

Lemma filter_device_id_removed l d :
  filter (λ e, MDMDeviceID e = d) (filter (λ e, MDMDeviceID e ≠ d) l) = [].
Proof.
  induction l as [|e l IH]; [done|].
  rewrite (filter_cons (λ e, MDMDeviceID e ≠ d)). case_decide as Hne; [|done].
  rewrite filter_cons. by rewrite decide_False.
Qed.

Lemma filter_device_id_other l d d' :
  d' ≠ d →
  filter (λ e, MDMDeviceID e = d') (filter (λ e, MDMDeviceID e ≠ d) l)
  = filter (λ e, MDMDeviceID e = d') l.
Proof.
  intros Hne. induction l as [|e l IH]; [done|].
  rewrite (filter_cons (λ e, MDMDeviceID e ≠ d)). case_decide as Hd.
  - rewrite !filter_cons. case_decide; by rewrite IH.
  - rewrite IH, filter_cons. rewrite decide_False; [done|].
    intros He. apply Hne. congruence.
Qed.

Lemma filter_none_length {A} (P : A → Prop) `{!∀ x, Decision (P x)}
    `{!∀ x, Decision (¬ P x)} (l : list A) :
  length (filter P l) = 0 → filter (λ x, ¬ P x) l = l.
Proof.
  induction l as [|x l IH]; [done|]. rewrite !filter_cons.
  destruct (decide (P x)) as [HP|HP]; simpl; [done|].
  intros Hl. case_decide; [|done]. by rewrite IH.
Qed.

(** X1. Deleting an enrollment by device id returns nil exactly when one
    enrollment has the device id, and NotFound otherwise; in every case no
    enrollment of that device id is found afterwards, the lookup of any
    other device id is as before, and a delete that finds no enrollment
    leaves the database as it was. *)
Theorem MDMWindowsDeleteEnrolledDeviceWithDeviceID_then_get (d : string) db :
  let res := (MDMWindowsDeleteEnrolledDeviceWithDeviceID d db).1 in
  let db' := (MDMWindowsDeleteEnrolledDeviceWithDeviceID d db).2 in
  (res = Ok () ↔
     length (filter (λ e, MDMDeviceID e = d) (mdm_windows_enrollments db)) = 1)
  ∧ (res = Ok () ∨ res = Err (notFound "MDMWindowsDeleteEnrolledDeviceWithDeviceID"))
  ∧ MDMWindowsGetEnrolledDeviceWithDeviceID db' d
    = Err (notFound "MDMWindowsEnrolledDevice")
  ∧ (∀ d', d' ≠ d →
       MDMWindowsGetEnrolledDeviceWithDeviceID db' d'
       = MDMWindowsGetEnrolledDeviceWithDeviceID db d')
  ∧ (MDMWindowsGetEnrolledDeviceWithDeviceID db d
       = Err (notFound "MDMWindowsEnrolledDevice") →
     res = Err (notFound "MDMWindowsDeleteEnrolledDeviceWithDeviceID") ∧ db' = db).
Proof.
  intros res db'. unfold res, db', MDMWindowsDeleteEnrolledDeviceWithDeviceID.
  unfold MDMWindowsGetEnrolledDeviceWithDeviceID.
  destruct (decide (length (filter (λ e, MDMDeviceID e = d)
                              (mdm_windows_enrollments db)) = 1)) as [Hone|Hone];
    cbn [fst snd mdm_windows_enrollments set_mdm_windows_enrollments];
    rewrite filter_device_id_removed.
  - split_and!; [done|by left|done| |].
    + intros d' Hne. by rewrite filter_device_id_other.
    + destruct (filter _ (mdm_windows_enrollments db)); done.
  - split_and!; [split; [done|by intros ?]|by right|done| |].
    + intros d' Hne. by rewrite filter_device_id_other.
    + destruct (filter (λ e, MDMDeviceID e = d) (mdm_windows_enrollments db)) eqn:Hf;
        [|done].
      intros _. split; [done|].
      rewrite (filter_none_length (λ e, MDMDeviceID e = d)) by (by rewrite Hf).
      apply set_mdm_windows_enrollments_id.
Qed.

(** X2. Deleting an enrollment by hardware id returns nil exactly when
    one enrollment has the hardware id; afterwards no enrollment has it,
    the enrollments of other hardware are all kept, and deleting the same
    hardware id again returns NotFound and changes nothing. *)
Theorem MDMWindowsDeleteEnrolledDevice_removes_hardware (hw : string) db :
  let res := (MDMWindowsDeleteEnrolledDevice hw db).1 in
  let db' := (MDMWindowsDeleteEnrolledDevice hw db).2 in
  (res = Ok () ↔
     length (filter (λ e, MDMHardwareID e = hw) (mdm_windows_enrollments db)) = 1)
  ∧ (∀ e, e ∈ mdm_windows_enrollments db' ↔
          e ∈ mdm_windows_enrollments db ∧ MDMHardwareID e ≠ hw)
  ∧ MDMWindowsDeleteEnrolledDevice hw db'
    = (Err (notFound "MDMWindowsEnrolledDevice"), db').
Proof.
  intros res db'. unfold res, db'.
  assert (Hnone : filter (λ e, MDMHardwareID e = hw)
                    (filter (λ e, MDMHardwareID e ≠ hw) (mdm_windows_enrollments db)) = []).
  { induction (mdm_windows_enrollments db) as [|e l IH]; [done|].
    rewrite (filter_cons (λ e, MDMHardwareID e ≠ hw)). case_decide; [|done].
    rewrite filter_cons. by rewrite decide_False. }
  assert (Hagain : ∀ db1,
            mdm_windows_enrollments db1
            = filter (λ e, MDMHardwareID e ≠ hw) (mdm_windows_enrollments db) →
            MDMWindowsDeleteEnrolledDevice hw db1
            = (Err (notFound "MDMWindowsEnrolledDevice"), db1)).
  { intros db1 Hdb1. unfold MDMWindowsDeleteEnrolledDevice.
    rewrite Hdb1, Hnone. rewrite decide_False by done. f_equal.
    rewrite (filter_none_length (λ e, MDMHardwareID e = hw)) by (by rewrite Hnone).
    rewrite <- Hdb1. by destruct db1. }
  assert (Hdb' : (MDMWindowsDeleteEnrolledDevice hw db).2
                 = set_mdm_windows_enrollments
                     (filter (λ e, MDMHardwareID e ≠ hw) (mdm_windows_enrollments db)) db)
    by (unfold MDMWindowsDeleteEnrolledDevice; by case_decide).
  assert (Hres : (MDMWindowsDeleteEnrolledDevice hw db).1
                 = if decide (length (filter (λ e, MDMHardwareID e = hw)
                                        (mdm_windows_enrollments db)) = 1)
                   then Ok () else Err (notFound "MDMWindowsEnrolledDevice"))
    by (unfold MDMWindowsDeleteEnrolledDevice; by case_decide).
  rewrite Hdb', Hres. split_and!.
  - case_decide; [done|]. split; [done|by intros ?].
  - intros e. cbn [mdm_windows_enrollments set_mdm_windows_enrollments].
    rewrite list_elem_of_filter. naive_solver.
  - by apply Hagain.
Qed.

Lemma filter_link l (h d d' : string) :
  filter (λ e, MDMDeviceID e = d')
    ((λ e, if decide (MDMDeviceID e = d)
           then {| ID := ID e; MDMDeviceID := MDMDeviceID e;
                   MDMHardwareID := MDMHardwareID e; HostUUID := h |}
           else e) <$> l)
  = (λ e, if decide (MDMDeviceID e = d)
          then {| ID := ID e; MDMDeviceID := MDMDeviceID e;
                  MDMHardwareID := MDMHardwareID e; HostUUID := h |}
          else e) <$> filter (λ e, MDMDeviceID e = d') l.
Proof.
  induction l as [|e l IH]; [done|].
  rewrite fmap_cons, !filter_cons.
  assert (MDMDeviceID (if decide (MDMDeviceID e = d)
                       then {| ID := ID e; MDMDeviceID := MDMDeviceID e;
                               MDMHardwareID := MDMHardwareID e; HostUUID := h |}
                       else e) = MDMDeviceID e) as -> by (by case_decide).
  case_decide; by rewrite IH.
Qed.

(** X3. Linking a host: after UpdateMDMWindowsEnrollmentsHostUUID the
    enrollment found for the device id is the one found before with its
    host uuid replaced, a device id without enrollment still has none, the
    lookup of other device ids is as before, and of two links of the same
    device the last one stands. *)
Theorem UpdateMDMWindowsEnrollmentsHostUUID_then_get (hostUUID d : string) db :
  let db' := UpdateMDMWindowsEnrollmentsHostUUID hostUUID d db in
  (∀ e, MDMWindowsGetEnrolledDeviceWithDeviceID db d = Ok e →
        MDMWindowsGetEnrolledDeviceWithDeviceID db' d
        = Ok {| ID := ID e; MDMDeviceID := MDMDeviceID e;
                MDMHardwareID := MDMHardwareID e; HostUUID := hostUUID |})
  ∧ (∀ err, MDMWindowsGetEnrolledDeviceWithDeviceID db d = Err err →
            MDMWindowsGetEnrolledDeviceWithDeviceID db' d = Err err)
  ∧ (∀ d', d' ≠ d →
       MDMWindowsGetEnrolledDeviceWithDeviceID db' d'
       = MDMWindowsGetEnrolledDeviceWithDeviceID db d')
  ∧ (∀ hostUUID',
       UpdateMDMWindowsEnrollmentsHostUUID hostUUID d
         (UpdateMDMWindowsEnrollmentsHostUUID hostUUID' d db) = db').
Proof.
  intros db'. unfold db', UpdateMDMWindowsEnrollmentsHostUUID.
  unfold MDMWindowsGetEnrolledDeviceWithDeviceID.
  cbn [mdm_windows_enrollments set_mdm_windows_enrollments].
  split_and!.
  - intros e. rewrite filter_link.
    destruct (filter _ (mdm_windows_enrollments db)) as [|e0 l] eqn:Hf; [done|].
    intros [= ->]. rewrite fmap_cons. f_equal. rewrite decide_True; [done|].
    assert (He : e ∈ filter (λ e, MDMDeviceID e = d) (mdm_windows_enrollments db))
      by (rewrite Hf; left).
    by apply list_elem_of_filter in He as [He _].
  - intros err. rewrite filter_link.
    by destruct (filter _ (mdm_windows_enrollments db)).
  - intros d' Hne. rewrite filter_link.
    destruct (filter _ (mdm_windows_enrollments db)) as [|e0 l] eqn:Hf; [done|].
    rewrite fmap_cons. f_equal. rewrite decide_False; [done|].
    assert (He : e0 ∈ filter (λ e, MDMDeviceID e = d') (mdm_windows_enrollments db))
      by (rewrite Hf; left).
    apply list_elem_of_filter in He as [He _]. congruence.
  - intros h'. unfold set_mdm_windows_enrollments at 1 3. f_equal.
    cbn [mdm_windows_enrollments set_mdm_windows_enrollments].
    rewrite <- list_fmap_compose.
    apply list_fmap_ext. intros i e _. simpl. by repeat case_decide.
Qed.

End Registry.

(** ** Command dispatch queue *)

Section Dispatch.

Implicit Types (db tx : DB) (cmd : MDMWindowsCommand).

Lemma mdmWindowsInsertHostCommandDB_Ok tx target c tx' :
  mdmWindowsInsertHostCommandDB tx target c = Ok tx' →
  mdm_windows_enrollments tx' = mdm_windows_enrollments tx
  ∧ windows_mdm_commands tx' = windows_mdm_commands tx
  ∧ windows_mdm_command_results tx' = windows_mdm_command_results tx
  ∧ ∃ e, filter (λ e, HostUUID e = target ∨ MDMDeviceID e = target)
                (mdm_windows_enrollments tx) = [e]
         ∧ ((ID e, c) ∉ windows_mdm_command_queue tx)
         ∧ windows_mdm_command_queue tx' = {[ (ID e, c) ]} ∪ windows_mdm_command_queue tx.
Proof.
  unfold mdmWindowsInsertHostCommandDB.
  destruct (filter _ (mdm_windows_enrollments tx)) as [|e [|??]]; [done| |done].
  case_decide; [done|]. intros [= <-]. split_and!; [done..|]. by exists e.
Qed.

Lemma insertHostCommands_Ok tx targets c tx' :
  insertHostCommands tx targets c = Ok tx' →
  mdm_windows_enrollments tx' = mdm_windows_enrollments tx
  ∧ windows_mdm_commands tx' = windows_mdm_commands tx
  ∧ windows_mdm_command_results tx' = windows_mdm_command_results tx
  ∧ windows_mdm_command_queue tx ⊆ windows_mdm_command_queue tx'
  ∧ ∀ target, target ∈ targets →
      ∃ e, filter (λ e, HostUUID e = target ∨ MDMDeviceID e = target)
                  (mdm_windows_enrollments tx) = [e]
           ∧ (ID e, c) ∈ windows_mdm_command_queue tx'.
Proof.
  revert tx. induction targets as [|t targets IH]; intros tx; simpl.
  - intros [= <-]. split_and!; [done..|]. by intros ? ?%elem_of_nil.
  - destruct (mdmWindowsInsertHostCommandDB tx t c) as [tx1| |] eqn:H1; simpl; [|done..].
    apply mdmWindowsInsertHostCommandDB_Ok in H1 as (He & Hc & Hr & e & Hf & Hnew & Hq).
    intros (He' & Hc' & Hr' & Hq' & Hall)%IH.
    split_and!; [congruence..| |].
    + rewrite Hq in Hq'. set_solver.
    + intros target [->|Hin]%elem_of_cons.
      * exists e. split; [done|]. apply Hq'. rewrite Hq. set_solver.
      * destruct (Hall target Hin) as (e' & Hf' & Hin'). exists e'. by rewrite <- He.
Qed.

(** X4. A command that MDMWindowsInsertCommandForHosts stored is pending
    for every host it was sent to: each target resolves to exactly one
    enrollment, and the command, with its payload and target path, is among
    the pending commands of that enrollment's device as long as the
    enrollment has no result for it. *)
Theorem dispatched_command_is_pending
    db (attempts : list attempt) (targets : list string) cmd (db' : DB)
    (target : string) (e : MDMWindowsEnrolledDevice) :
  MDMWindowsInsertCommandForHosts db attempts targets cmd = Ok db' →
  target ∈ targets →
  e ∈ mdm_windows_enrollments db' →
  HostUUID e = target ∨ MDMDeviceID e = target →
  windows_mdm_command_results db' !! (ID e, CommandUUID cmd) = None →
  filter (λ e, HostUUID e = target ∨ MDMDeviceID e = target)
         (mdm_windows_enrollments db') = [e]
  ∧ cmd ∈ MDMWindowsGetPendingCommands db' (MDMDeviceID e).
Proof.
  intros Hins Htarget He Hmatch Hres.
  unfold MDMWindowsInsertCommandForHosts in Hins.
  destruct targets as [|t0 ts]; [by apply elem_of_nil in Htarget|].
  apply withRetryTxx_Ok in Hins as (a & _ & _ & Htx).
  unfold insertCommandTx in Htx.
  destruct (windows_mdm_commands (at_start a) !! CommandUUID cmd) eqn:Hnew; [done|].
  apply insertHostCommands_Ok in Htx as (Henr & Hcmds & _ & _ & Hall).
  destruct (Hall target Htarget) as (e0 & Hf & Hq).
  cbn [mdm_windows_enrollments set_windows_mdm_commands] in Hf, Henr.
  rewrite <- Henr in Hf.
  assert (e = e0) as <-.
  { assert (Hin : e ∈ filter (λ e, HostUUID e = target ∨ MDMDeviceID e = target)
                      (mdm_windows_enrollments db'))
      by (by apply list_elem_of_filter).
    rewrite Hf in Hin. by apply list_elem_of_singleton in Hin. }
  split; [done|].
  unfold MDMWindowsGetPendingCommands.
  apply list_elem_of_bind. exists (ID e, CommandUUID cmd). split; [|by apply elem_of_elements].
  apply list_elem_of_bind. exists e. split; [|by apply list_elem_of_filter].
  cbn [fst snd]. rewrite Hcmds. cbn [windows_mdm_commands set_windows_mdm_commands].
  rewrite lookup_insert_eq. rewrite !bool_decide_eq_true_2 by done.
  cbn. apply list_elem_of_singleton. by destruct cmd.
Qed.

End Dispatch.

Lemma dispatched_command_is_pending_witness :
  filter (λ e, HostUUID e = "H2" ∨ MDMDeviceID e = "H2")
         (mdm_windows_enrollments db_after_dispatch)
  = [ {| ID := 2; MDMDeviceID := "D2"; MDMHardwareID := "HW2"; HostUUID := "H2" |} ]
  ∧ cmd_C2 ∈ MDMWindowsGetPendingCommands db_after_dispatch "D2".
Proof.
  apply (dispatched_command_is_pending db_two_devices
           [{| at_start := db_two_devices; at_conflict := false |}]
           ["D1"; "H2"] cmd_C2 db_after_dispatch "H2"
           {| ID := 2; MDMDeviceID := "D2"; MDMHardwareID := "HW2"; HostUUID := "H2" |}).
  - vm_compute. reflexivity.
  - right. left.
  - right. left.
  - left. reflexivity.
  - vm_compute. reflexivity.
Defined.

(** ** Response correlator: what a saved response leaves behind *)

Section CorrelatorEffects.

Variable ShouldBeTracked : SyncMLCmd → string → bool.
Variable BuildMDMWindowsProfilePayloadFromMDMResponse :
  MDMWindowsCommand → gmap string SyncMLCmd → string → Result MDMWindowsProfilePayload.
Variable xml_Marshal : SyncMLCmd → option (list byte).

Local Abbreviation saveTx :=
  (saveResponseTx ShouldBeTracked BuildMDMWindowsProfilePayloadFromMDMResponse xml_Marshal).
Local Abbreviation SaveResponse :=
  (MDMWindowsSaveResponse ShouldBeTracked BuildMDMWindowsProfilePayloadFromMDMResponse
     xml_Marshal).
Local Abbreviation SaveResponse_alone :=
  (MDMWindowsSaveResponse_alone ShouldBeTracked BuildMDMWindowsProfilePayloadFromMDMResponse
     xml_Marshal).
Local Abbreviation collect :=
  (collect_results BuildMDMWindowsProfilePayloadFromMDMResponse xml_Marshal).
Local Abbreviation tracked_of fullResponse :=
  (fold_left (track ShouldBeTracked) (GetOrderedCmds fullResponse)
     {| cmdUUIDs := []; uuidsToStatus := ∅; uuidsToResults := ∅ |}).

Implicit Types (db tx : DB) (res : gmap (N * string) windows_mdm_command_results_row).

Lemma track_cmdUUIDs acc op c :
  c ∈ cmdUUIDs (track ShouldBeTracked acc op)
  ↔ c ∈ cmdUUIDs acc ∨ is_tracked ShouldBeTracked op c.
Proof.
  unfold track, is_tracked.
  destruct (CmdRef (pco_Cmd op)) as [ref|]; [|naive_solver].
  destruct (ShouldBeTracked (pco_Cmd op) (Verb op)); simpl; [|naive_solver].
  destruct (String.eqb_spec (Verb op) CmdStatus) as [Hs|Hs].
  { simpl. rewrite elem_of_app, list_elem_of_singleton. naive_solver. }
  destruct (String.eqb_spec (Verb op) CmdResults) as [Hr|Hr].
  { simpl. rewrite elem_of_app, list_elem_of_singleton. naive_solver. }
  naive_solver.
Qed.

Lemma fold_track_cmdUUIDs ops acc c :
  c ∈ cmdUUIDs (fold_left (track ShouldBeTracked) ops acc)
  ↔ c ∈ cmdUUIDs acc ∨ ∃ op, op ∈ ops ∧ is_tracked ShouldBeTracked op c.
Proof.
  revert acc. induction ops as [|op ops IH]; intros acc; simpl.
  - split; [by left|]. intros [?|(op & ?%elem_of_nil & _)]; done.
  - rewrite IH, track_cmdUUIDs. split.
    + intros [[?|?]|(op' & ? & ?)]; [by left|right; exists op|right; exists op'];
        (split; [|done]); [by left|by right].
    + intros [?|(op' & [->|?]%elem_of_cons & ?)]; [by left; left|by left; right|].
      right. by exists op'.
Qed.

Lemma elem_of_findCommands_uuid tx uuids u :
  u ∈ CommandUUID <$> findCommands tx uuids
  ↔ is_Some (windows_mdm_commands tx !! u) ∧ u ∈ uuids.
Proof.
  unfold findCommands. rewrite <- list_fmap_compose, list_elem_of_fmap. split.
  - intros ([k row] & -> & [Hin Hm]%list_elem_of_filter).
    apply elem_of_map_to_list in Hm. simpl in *. split; [by eexists|done].
  - intros [[row Hrow] Hin]. exists (u, row). split; [done|].
    apply list_elem_of_filter. split; [done|]. by apply elem_of_map_to_list.
Qed.

Lemma collect_results_uuids enrollment responseID tr cmds args pps :
  collect enrollment responseID tr cmds = Ok (args, pps) →
  ra_command_uuid <$> args = CommandUUID <$> cmds.
Proof.
  revert args pps. induction cmds as [|cmd cmds IH]; intros args pps; simpl.
  - intros ?. by simplify_eq.
  - destruct (uuidsToStatus tr !! CommandUUID cmd) as [status|];
      [destruct (Data status);
       [destruct (bool_decide _);
        [destruct (BuildMDMWindowsProfilePayloadFromMDMResponse _ _ _)|]|]|];
      simpl; try done;
      (destruct (collect enrollment responseID tr cmds)
         as [[args' pps']| |] eqn:Hrest; simpl; [|done..]);
      (intros ?; simplify_eq; simpl; f_equal; by eapply IH).
Qed.

Lemma updateMDMWindowsHostProfileStatusFromResponseDB_frame tx payloads tx' :
  updateMDMWindowsHostProfileStatusFromResponseDB tx payloads = Ok tx' →
  windows_mdm_commands tx' = windows_mdm_commands tx
  ∧ mdm_windows_enrollments tx' = mdm_windows_enrollments tx.
Proof.
  unfold updateMDMWindowsHostProfileStatusFromResponseDB.
  destruct payloads as [|first rest]; [by intros [= <-]|].
  destruct (negb _); [done|].
  destruct (status_args _ _) as [args| |]; simpl; [|done..].
  destruct args; [done|]. by intros [= <-].
Qed.

Local Abbreviation matching_of fullResponse tx :=
  (findCommands tx (cmdUUIDs (tracked_of fullResponse))).
Local Abbreviation stored_of enrollment fullResponse tx :=
  (windows_mdm_responses tx
   ++ [{| wmr_enrollment_id := ID enrollment; wmr_raw_response := Raw fullResponse |}]).

(** The three ways the closure succeeds: nothing to track, no command
    matched, or results stored and commands dequeued. *)
Lemma saveResponseTx_effect enrollment fullResponse tx db' :
  saveTx enrollment fullResponse tx = Ok db' →
  windows_mdm_commands db' = windows_mdm_commands tx
  ∧ mdm_windows_enrollments db' = mdm_windows_enrollments tx
  ∧ ((cmdUUIDs (tracked_of fullResponse) = [] ∧ db' = tx)
     ∨ (cmdUUIDs (tracked_of fullResponse) ≠ [] ∧ matching_of fullResponse tx = []
        ∧ db' = set_windows_mdm_responses (stored_of enrollment fullResponse tx) tx)
     ∨ (cmdUUIDs (tracked_of fullResponse) ≠ [] ∧ matching_of fullResponse tx ≠ []
        ∧ ∃ args pps,
            collect enrollment (N.of_nat (length (windows_mdm_responses tx)) + 1)%N
              (tracked_of fullResponse) (matching_of fullResponse tx) = Ok (args, pps)
            ∧ windows_mdm_responses db' = stored_of enrollment fullResponse tx
            ∧ windows_mdm_command_results db'
              = fold_left upsert_result args (windows_mdm_command_results tx)
            ∧ windows_mdm_command_queue db'
              = filter (λ ec : N * string,
                          ec.2 ∉ CommandUUID <$> matching_of fullResponse tx)
                       (windows_mdm_command_queue tx))).
Proof.
  unfold saveResponseTx.
  destruct (cmdUUIDs (tracked_of fullResponse)) as [|u us] eqn:Hu.
  { intros [= <-]. split_and!; [done..|]. by left. }
  rewrite <- Hu.
  change (findCommands (set_windows_mdm_responses (stored_of enrollment fullResponse tx) tx)
            (cmdUUIDs (tracked_of fullResponse)))
    with (matching_of fullResponse tx).
  destruct (matching_of fullResponse tx) as [|cmd cmds] eqn:Hm.
  { intros [= <-]. split_and!; [done..|]. right; left. by rewrite Hu. }
  rewrite <- Hm.
  destruct (collect _ _ _ _) as [[args pps]| |] eqn:Hargs; simpl; [|done..].
  destruct (updateMDMWindowsHostProfileStatusFromResponseDB _ _) as [tx1| |] eqn:Hup;
    simpl; [|done..].
  pose proof (updateMDMWindowsHostProfileStatusFromResponseDB_frame _ _ _ Hup)
    as (Hcmds & Henr).
  apply updateMDMWindowsHostProfileStatusFromResponseDB_existing in Hup
    as (_ & Hresp & Hres & Hq).
  intros [= <-]. cbn. split_and!; [done..|]. right; right.
  split_and!; [by rewrite Hu|by rewrite Hm|]. exists args, pps.
  split_and!; [done|done|by rewrite Hres|by rewrite Hq].
Qed.

Lemma elem_of_MDMWindowsGetPendingCommands db deviceID cmd :
  cmd ∈ MDMWindowsGetPendingCommands db deviceID →
  is_Some (windows_mdm_commands db !! CommandUUID cmd)
  ∧ ∃ mwe, mwe ∈ mdm_windows_enrollments db ∧ MDMDeviceID mwe = deviceID
           ∧ (ID mwe, CommandUUID cmd) ∈ windows_mdm_command_queue db
           ∧ windows_mdm_command_results db !! (ID mwe, CommandUUID cmd) = None.
Proof.
  unfold MDMWindowsGetPendingCommands.
  intros ([eid c] & Hin & Hq%elem_of_elements)%list_elem_of_bind.
  apply list_elem_of_bind in Hin as (mwe & Hin & [Hid Hmwe]%list_elem_of_filter).
  cbn [fst snd] in *.
  destruct (windows_mdm_commands db !! c) as [wmc|] eqn:Hc; [|by apply elem_of_nil in Hin].
  destruct (bool_decide (MDMDeviceID mwe = deviceID)) eqn:Hd; [|by apply elem_of_nil in Hin].
  destruct (bool_decide (windows_mdm_command_results db !! (eid, c) = None)) eqn:Hr;
    [|by apply elem_of_nil in Hin].
  apply list_elem_of_singleton in Hin as ->. simpl.
  apply bool_decide_eq_true in Hd, Hr. subst eid.
  split; [by eexists|]. by exists mwe.
Qed.

Lemma SaveResponse_effect db attempts deviceID fullResponse db' :
  SaveResponse db attempts deviceID fullResponse = Ok db' →
  ∃ enrollment a,
    MDMWindowsGetEnrolledDeviceWithDeviceID db deviceID = Ok enrollment
    ∧ a ∈ attempts ∧ at_conflict a = false
    ∧ saveTx enrollment fullResponse (at_start a) = Ok db'.
Proof.
  unfold MDMWindowsSaveResponse. destruct (Raw fullResponse); [done|].
  destruct (MDMWindowsGetEnrolledDeviceWithDeviceID db deviceID)
    as [enrollment| |]; simpl; [|done..].
  intros (a & Hin & Hc & Hfn)%withRetryTxx_Ok. by exists enrollment, a.
Qed.

(** X5. After a response is saved, no command it answered is pending
    for any device: a command of windows_mdm_commands that a tracked Status
    or Results operation of the response references is in no list of
    pending commands. *)
Theorem answered_command_is_not_pending
    db (attempts : list attempt) (deviceID : string) (fullResponse : SyncML) (db' : DB)
    (protoOp : ProtoCmdOperation) (cmdRef : string)
    (anyDevice : string) (cmd : MDMWindowsCommand) :
  SaveResponse db attempts deviceID fullResponse = Ok db' →
  protoOp ∈ GetOrderedCmds fullResponse →
  is_tracked ShouldBeTracked protoOp cmdRef →
  cmd ∈ MDMWindowsGetPendingCommands db' anyDevice →
  CommandUUID cmd ≠ cmdRef.
Proof.
  intros (e & a & _ & _ & _ & Htx)%SaveResponse_effect Hop Htr Hpending Heq.
  apply saveResponseTx_effect in Htx as (Hcmds & _ & Hcases).
  apply elem_of_MDMWindowsGetPendingCommands in Hpending
    as (Hcmd & mwe & _ & _ & Hq & _).
  rewrite Heq, Hcmds in Hcmd. rewrite Heq in Hq.
  assert (Href : cmdRef ∈ cmdUUIDs (tracked_of fullResponse))
    by (apply fold_track_cmdUUIDs; right; by exists protoOp).
  assert (Hmatch : cmdRef ∈ CommandUUID <$> matching_of fullResponse (at_start a))
    by (by apply elem_of_findCommands_uuid).
  destruct Hcases as [[Hnil _]|[(_ & Hnil & _)|(_ & _ & args & pps & _ & _ & _ & Hq')]].
  - rewrite Hnil in Href. by apply elem_of_nil in Href.
  - rewrite Hnil in Hmatch. by apply elem_of_nil in Hmatch.
  - rewrite Hq' in Hq. apply elem_of_filter in Hq as [Hnot _]. by apply Hnot.
Qed.

Lemma withRetryTxx_first (retried : list attempt) (a : attempt) (later : list attempt)
    (fn : DB → Result DB) :
  (∀ c, c ∈ retried → at_conflict c = true) → at_conflict a = false →
  withRetryTxx (retried ++ a :: later) fn = fn (at_start a).
Proof.
  intros Hretried Ha. induction retried as [|c retried IH]; cbn.
  - by rewrite Ha.
  - rewrite (Hretried c) by left. apply IH. intros c' Hc'. apply Hretried. by right.
Qed.

(** A non-empty response of an enrolled device is handed to the
    transaction, and the first attempt without conflict decides. *)
Lemma SaveResponse_runs db deviceID fullResponse enrollment
    (retried : list attempt) (a : attempt) (later : list attempt) :
  Raw fullResponse ≠ [] →
  MDMWindowsGetEnrolledDeviceWithDeviceID db deviceID = Ok enrollment →
  (∀ c, c ∈ retried → at_conflict c = true) → at_conflict a = false →
  SaveResponse db (retried ++ a :: later) deviceID fullResponse
  = saveTx enrollment fullResponse (at_start a).
Proof.
  intros Hraw Hlook Hretried Ha. unfold MDMWindowsSaveResponse.
  destruct (Raw fullResponse); [done|]. rewrite Hlook. cbn.
  by apply withRetryTxx_first.
Qed.

(** X6. A non-empty response of an enrolled device without any tracked
    Status or Results operation is accepted and writes nothing: the call
    returns no error as soon as an attempt of the transaction meets no
    conflict, and the database after the call is the one that attempt
    started from, without even the raw response. *)
Theorem response_without_tracked_operation_writes_nothing
    db (deviceID : string) (fullResponse : SyncML) (enrollment : MDMWindowsEnrolledDevice)
    (retried : list attempt) (a : attempt) (later : list attempt) :
  (∀ protoOp cmdRef, protoOp ∈ GetOrderedCmds fullResponse →
                     ¬ is_tracked ShouldBeTracked protoOp cmdRef) →
  Raw fullResponse ≠ [] →
  MDMWindowsGetEnrolledDeviceWithDeviceID db deviceID = Ok enrollment →
  (∀ c, c ∈ retried → at_conflict c = true) → at_conflict a = false →
  SaveResponse db (retried ++ a :: later) deviceID fullResponse = Ok (at_start a).
Proof.
  intros Hnone Hraw Hlook Hretried Ha.
  rewrite (SaveResponse_runs db deviceID fullResponse enrollment) by done.
  assert (Hnil : cmdUUIDs (tracked_of fullResponse) = []).
  { apply elem_of_nil_inv. intros c [?%elem_of_nil|(op & Hop & Htr)]%fold_track_cmdUUIDs;
      [done|]. by apply (Hnone op c). }
  unfold saveResponseTx. by rewrite Hnil.
Qed.

(** X7. A non-empty response of an enrolled device whose tracked
    operations only reference commands that windows_mdm_commands does not
    hold is accepted: the call returns no error as soon as an attempt of
    the transaction meets no conflict, the raw response is stored for the
    enrollment, and nothing else is written, neither results, nor queue,
    nor host profiles. *)
Theorem response_for_unknown_commands_is_only_stored
    db (deviceID : string) (fullResponse : SyncML) (enrollment : MDMWindowsEnrolledDevice)
    (retried : list attempt) (a : attempt) (later : list attempt)
    (protoOp : ProtoCmdOperation) (cmdRef : string) :
  protoOp ∈ GetOrderedCmds fullResponse →
  is_tracked ShouldBeTracked protoOp cmdRef →
  (∀ op c, op ∈ GetOrderedCmds fullResponse →
           is_tracked ShouldBeTracked op c →
           windows_mdm_commands (at_start a) !! c = None) →
  Raw fullResponse ≠ [] →
  MDMWindowsGetEnrolledDeviceWithDeviceID db deviceID = Ok enrollment →
  (∀ c, c ∈ retried → at_conflict c = true) → at_conflict a = false →
  SaveResponse db (retried ++ a :: later) deviceID fullResponse
  = Ok (set_windows_mdm_responses
          (windows_mdm_responses (at_start a)
           ++ [{| wmr_enrollment_id := ID enrollment;
                  wmr_raw_response := Raw fullResponse |}])
          (at_start a)).
Proof.
  intros Hop Htr Hunknown Hraw Hlook Hretried Ha.
  rewrite (SaveResponse_runs db deviceID fullResponse enrollment) by done.
  assert (Href : cmdRef ∈ cmdUUIDs (tracked_of fullResponse))
    by (apply fold_track_cmdUUIDs; right; by exists protoOp).
  assert (Hm : matching_of fullResponse (at_start a) = []).
  { apply (fmap_nil_inv CommandUUID), elem_of_nil_inv.
    intros c [[row Hrow] [?%elem_of_nil|(op & Hop' & Htr')]%fold_track_cmdUUIDs]
      %elem_of_findCommands_uuid; [done|].
    by rewrite (Hunknown op c) in Hrow. }
  unfold saveResponseTx.
  destruct (cmdUUIDs (tracked_of fullResponse)) as [|u us] eqn:Hu;
    [by apply elem_of_nil in Href|].
  rewrite <- Hu in Hm |- *.
  change (findCommands (set_windows_mdm_responses (stored_of enrollment fullResponse
                                                      (at_start a)) (at_start a))
            (cmdUUIDs (tracked_of fullResponse)))
    with (matching_of fullResponse (at_start a)).
  by rewrite Hm.
Qed.

Lemma upsert_result_keeps res a k old :
  res !! k = Some old →
  ∃ new, upsert_result res a !! k = Some new
         ∧ wmcr_response_id new = wmcr_response_id old
         ∧ (is_Some (wmcr_status_code old) → is_Some (wmcr_status_code new)).
Proof.
  intros Hold. unfold upsert_result.
  destruct (decide (k = (ra_enrollment_id a, ra_command_uuid a))) as [->|Hne].
  - rewrite Hold, lookup_insert_eq. eexists. split_and!; [done..|].
    cbn. by destruct (ra_status_code a).
  - destruct (res !! (_, _)); rewrite lookup_insert_ne by done; by exists old.
Qed.

Lemma fold_upsert_result_keeps args res k old :
  res !! k = Some old →
  ∃ new, fold_left upsert_result args res !! k = Some new
         ∧ wmcr_response_id new = wmcr_response_id old
         ∧ (is_Some (wmcr_status_code old) → is_Some (wmcr_status_code new)).
Proof.
  revert res old. induction args as [|a args IH]; intros res old Hold; simpl.
  - by exists old.
  - destruct (upsert_result_keeps res a k old Hold) as (mid & Hmid & Hid & Hst).
    destruct (IH _ mid Hmid) as (new & Hnew & Hid' & Hst').
    exists new. split_and!; [done|congruence|auto].
Qed.

(** X8. Saving a response never deletes a command result and never moves
    it to another response: every result row the transaction started with
    is still there afterwards and references the response it referenced
    before. *)
Theorem saved_response_keeps_earlier_results
    db (attempts : list attempt) (deviceID : string) (fullResponse : SyncML) (db' : DB) :
  SaveResponse db attempts deviceID fullResponse = Ok db' →
  ∃ a, a ∈ attempts
       ∧ ∀ k old, windows_mdm_command_results (at_start a) !! k = Some old →
                  ∃ new, windows_mdm_command_results db' !! k = Some new
                         ∧ wmcr_response_id new = wmcr_response_id old.
Proof.
  intros (e & a & _ & Hin & _ & Htx)%SaveResponse_effect.
  exists a. split; [done|]. intros k old Hold.
  apply saveResponseTx_effect in Htx as (_ & _ & Hcases).
  destruct Hcases as [[_ ->]|[(_ & _ & ->)|(_ & _ & args & pps & _ & _ & -> & _)]];
    [by exists old..|].
  destruct (fold_upsert_result_keeps args _ k old Hold) as (new & ? & ? & _).
  by exists new.
Qed.

Lemma fold_upsert_result_elem args res k rid :
  (∀ a, a ∈ args → ra_response_id a = rid ∧ is_Some (ra_status_code a)) →
  k ∈ (λ a, (ra_enrollment_id a, ra_command_uuid a)) <$> args →
  ∃ row, fold_left upsert_result args res !! k = Some row
         ∧ is_Some (wmcr_status_code row)
         ∧ (res !! k = None → wmcr_response_id row = rid).
Proof.
  revert res. induction args as [|a args IH]; intros res Hall; simpl.
  { by intros ?%elem_of_nil. }
  destruct (Hall a) as [Hrid [code Hcode]]; [by left|].
  intros [->|Hin]%elem_of_cons.
  - assert (∃ mid, upsert_result res a !! (ra_enrollment_id a, ra_command_uuid a) = Some mid
                   ∧ is_Some (wmcr_status_code mid)
                   ∧ (res !! (ra_enrollment_id a, ra_command_uuid a) = None →
                      wmcr_response_id mid = rid)) as (mid & Hmid & Hst & Hnew).
    { unfold upsert_result.
      destruct (res !! (ra_enrollment_id a, ra_command_uuid a)) as [old|];
        rewrite lookup_insert_eq; eexists; (split; [done|]); cbn; rewrite Hcode;
        split; eauto; done. }
    destruct (fold_upsert_result_keeps args _ _ mid Hmid) as (row & Hrow & Hid & Hst').
    exists row. split_and!; [done|auto|]. intros Hnone. rewrite Hid. auto.
  - destruct (IH (upsert_result res a)) as (row & Hrow & Hst & Hnew);
      [intros a' Ha'; apply Hall; by right|done|].
    exists row. split_and!; [done..|]. intros Hnone.
    destruct (decide (k = (ra_enrollment_id a, ra_command_uuid a))) as [->|Hne].
    + assert (∃ mid, upsert_result res a !! (ra_enrollment_id a, ra_command_uuid a)
                     = Some mid ∧ wmcr_response_id mid = rid) as (mid & Hmid & Hmrid).
      { unfold upsert_result. rewrite Hnone, lookup_insert_eq. by eexists. }
      destruct (fold_upsert_result_keeps args _ _ mid Hmid) as (row' & Hrow' & Hid & _).
      congruence.
    + apply Hnew. unfold upsert_result.
      by destruct (res !! (_, _)); rewrite lookup_insert_ne.
Qed.

Lemma collected_key enrollment responseID tr cmds args pps c :
  collect enrollment responseID tr cmds = Ok (args, pps) →
  c ∈ CommandUUID <$> cmds →
  (ID enrollment, c) ∈ (λ a, (ra_enrollment_id a, ra_command_uuid a)) <$> args.
Proof.
  intros Hargs Hc. rewrite <- (collect_results_uuids _ _ _ _ _ _ Hargs) in Hc.
  apply list_elem_of_fmap in Hc as (a & -> & Ha). apply list_elem_of_fmap.
  exists a. split; [|done].
  by destruct (collect_results_args _ _ _ _ _ _ _ _ Hargs a Ha) as (-> & _).
Qed.

(** X9. Every command a saved response answers has a result afterwards:
    for a command of windows_mdm_commands that a tracked operation
    references there is a result row under the enrollment that was looked
    up for the device, and its status code is a value, not NULL. *)
Theorem answered_command_has_result
    db (attempts : list attempt) (deviceID : string) (fullResponse : SyncML) (db' : DB)
    (protoOp : ProtoCmdOperation) (cmdRef : string) :
  SaveResponse db attempts deviceID fullResponse = Ok db' →
  protoOp ∈ GetOrderedCmds fullResponse →
  is_tracked ShouldBeTracked protoOp cmdRef →
  is_Some (windows_mdm_commands db' !! cmdRef) →
  ∃ enrollment row,
    MDMWindowsGetEnrolledDeviceWithDeviceID db deviceID = Ok enrollment
    ∧ windows_mdm_command_results db' !! (ID enrollment, cmdRef) = Some row
    ∧ is_Some (wmcr_status_code row).
Proof.
  intros (e & a & Hlook & _ & _ & Htx)%SaveResponse_effect Hop Htr Hcmd.
  apply saveResponseTx_effect in Htx as (Hcmds & _ & Hcases). rewrite Hcmds in Hcmd.
  assert (Href : cmdRef ∈ cmdUUIDs (tracked_of fullResponse))
    by (apply fold_track_cmdUUIDs; right; by exists protoOp).
  assert (Hmatch : cmdRef ∈ CommandUUID <$> matching_of fullResponse (at_start a))
    by (by apply elem_of_findCommands_uuid).
  destruct Hcases as [[Hnil _]|[(_ & Hnil & _)|(_ & _ & args & pps & Hargs & _ & Hres & _)]].
  - rewrite Hnil in Href. by apply elem_of_nil in Href.
  - rewrite Hnil in Hmatch. by apply elem_of_nil in Hmatch.
  - destruct (fold_upsert_result_elem args (windows_mdm_command_results (at_start a))
                (ID e, cmdRef) (N.of_nat (length (windows_mdm_responses (at_start a))) + 1)%N)
      as (row & Hrow & Hst & _).
    + intros x Hx.
      by destruct (collect_results_args _ _ _ _ _ _ _ _ Hargs x Hx) as (_ & ? & ?).
    + by eapply collected_key.
    + exists e, row. by rewrite Hres.
Qed.

(** X29. The first result of a command is reported with the response
    that carried it: when a device without a result for the command
    answers it and the response is saved, GetMDMWindowsCommandResults lists
    for that command the host of the device with a status code and, as
    result, the raw response as a whole. *)
Theorem first_result_is_reported
    db (deviceID : string) (fullResponse : SyncML) (db' : DB)
    (protoOp : ProtoCmdOperation) (cmdRef : string) :
  SaveResponse_alone db deviceID fullResponse = Ok db' →
  protoOp ∈ GetOrderedCmds fullResponse →
  is_tracked ShouldBeTracked protoOp cmdRef →
  is_Some (windows_mdm_commands db !! cmdRef) →
  (∀ enrollment, MDMWindowsGetEnrolledDeviceWithDeviceID db deviceID = Ok enrollment →
                 windows_mdm_command_results db !! (ID enrollment, cmdRef) = None) →
  ∃ enrollment r,
    MDMWindowsGetEnrolledDeviceWithDeviceID db deviceID = Ok enrollment
    ∧ r ∈ GetMDMWindowsCommandResults db' cmdRef
    ∧ mcr_HostUUID r = HostUUID enrollment
    ∧ mcr_CommandUUID r = cmdRef
    ∧ mcr_Result r = Raw fullResponse
    ∧ is_Some (mcr_Status r).
Proof.
  unfold MDMWindowsSaveResponse_alone.
  intros (e & a & Hlook & ->%list_elem_of_singleton & _ & Htx)%SaveResponse_effect
    Hop Htr [wmc Hcmd] Hfresh.
  cbn [at_start] in Htx. specialize (Hfresh e Hlook).
  apply saveResponseTx_effect in Htx as (Hcmds & Henr & Hcases).
  assert (Href : cmdRef ∈ cmdUUIDs (tracked_of fullResponse))
    by (apply fold_track_cmdUUIDs; right; by exists protoOp).
  assert (Hmatch : cmdRef ∈ CommandUUID <$> matching_of fullResponse db)
    by (apply elem_of_findCommands_uuid; split; [by eexists|done]).
  destruct Hcases
    as [[Hnil _]|[(_ & Hnil & _)|(_ & _ & args & pps & Hargs & Hresp & Hres & _)]].
  { rewrite Hnil in Href. by apply elem_of_nil in Href. }
  { rewrite Hnil in Hmatch. by apply elem_of_nil in Hmatch. }
  set (rid := (N.of_nat (length (windows_mdm_responses db)) + 1)%N) in *.
  destruct (fold_upsert_result_elem args (windows_mdm_command_results db)
              (ID e, cmdRef) rid) as (row & Hrow & Hst & Hrid).
  { intros x Hx.
    by destruct (collect_results_args _ _ _ _ _ _ _ _ Hargs x Hx) as (_ & ? & ?). }
  { by eapply collected_key. }
  specialize (Hrid Hfresh). rewrite <- Hres in Hrow.
  assert (He : e ∈ filter (λ mwe, ID mwe = ID e) (mdm_windows_enrollments db')).
  { rewrite Henr. apply list_elem_of_filter. split; [done|].
    unfold MDMWindowsGetEnrolledDeviceWithDeviceID in Hlook.
    destruct (filter _ (mdm_windows_enrollments db)) as [|e0 l] eqn:Hf; [done|].
    injection Hlook as ->.
    assert (Hin : e ∈ filter (λ e, MDMDeviceID e = deviceID) (mdm_windows_enrollments db))
      by (rewrite Hf; left).
    by apply list_elem_of_filter in Hin as [_ Hin]. }
  assert (Hr : response_by_id db' (wmcr_response_id row)
               = Some {| wmr_enrollment_id := ID e; wmr_raw_response := Raw fullResponse |}).
  { unfold response_by_id. rewrite Hrid, Hresp. unfold rid.
    destruct (N.eqb_spec (N.of_nat (length (windows_mdm_responses db)) + 1) 0) as [H0|_];
      [lia|].
    apply list_lookup_middle. lia. }
  exists e.
  exists {| mcr_HostUUID := HostUUID e; mcr_CommandUUID := cmdRef;
            mcr_Status := wmcr_status_code row;
            mcr_RequestType := wmc_target_loc_uri wmc;
            mcr_Result := Raw fullResponse |}.
  split_and!; [done| |done..].
  unfold GetMDMWindowsCommandResults. apply list_elem_of_bind.
  exists ((ID e, cmdRef), row). split.
  - cbn [fst snd]. rewrite Hcmds, Hcmd, Hr. apply list_elem_of_fmap. by exists e.
  - apply list_elem_of_filter. split; [done|]. by apply elem_of_map_to_list.
Qed.

End CorrelatorEffects.

Lemma status_args_panics m matching hp :
  hp ∈ matching → m !! hmwp_command_uuid hp.2 = None →
  status_args m matching = Panic.
Proof.
  induction matching as [|hp' rest IH]; [by intros ?%elem_of_nil|].
  intros [->|Hin]%elem_of_cons Hnone; simpl.
  - by rewrite Hnone.
  - destruct (m !! hmwp_command_uuid hp'.2); [|done]. by rewrite IH.
Qed.

Lemma uuidsToPayloads_lookup_None (payloads : list MDMWindowsProfilePayload)
    (m : gmap string MDMWindowsProfilePayload) (u : string) :
  m !! u = None → (∀ p, p ∈ payloads → pp_CommandUUID p ≠ u) →
  fold_left (λ m payload, <[pp_CommandUUID payload := payload]> m) payloads m !! u = None.
Proof.
  revert m. induction payloads as [|p payloads IH]; intros m Hm Hall; simpl; [done|].
  apply IH.
  - rewrite lookup_insert_ne; [done|]. apply Hall. by left.
  - intros q Hq. apply Hall. by right.
Qed.

(** X10. The status update panics on a host profile that has no command:
    when the payloads are all for one host and none has the empty command
    uuid, and the host has a row whose command uuid is empty (as the
    pending upsert leaves it), the row is selected, because the list of
    command uuids starts with one empty string per payload, and the
    payload looked up for it is nil. *)
Theorem status_update_panics_on_row_without_command
    (tx : DB) (first : MDMWindowsProfilePayload) (rest : list MDMWindowsProfilePayload)
    (profile_uuid : string) (row : host_mdm_windows_profiles_row) :
  (∀ p, p ∈ first :: rest → pp_HostUUID p = pp_HostUUID first) →
  (∀ p, p ∈ first :: rest → pp_CommandUUID p ≠ "") →
  host_mdm_windows_profiles tx !! (pp_HostUUID first, profile_uuid) = Some row →
  hmwp_command_uuid row = "" →
  updateMDMWindowsHostProfileStatusFromResponseDB tx (first :: rest) = Panic.
Proof.
  intros Hhost Hcmd Hrow Hempty. unfold updateMDMWindowsHostProfileStatusFromResponseDB.
  assert (forallb (λ payload, String.eqb (pp_HostUUID payload) (pp_HostUUID first))
            (first :: rest) = true) as ->.
  { apply forallb_forall. intros p Hp%list_elem_of_In.
    rewrite (Hhost p Hp). apply String.eqb_refl. }
  cbn [negb].
  rewrite (status_args_panics _ _ ((pp_HostUUID first, profile_uuid), row)); [done| |].
  - apply list_elem_of_filter. split; [|by apply elem_of_map_to_list].
    split; [done|]. cbn [snd]. rewrite Hempty. apply elem_of_app. left. by left.
  - cbn [snd]. rewrite Hempty. by apply uuidsToPayloads_lookup_None.
Qed.

Lemma answered_command_is_not_pending_witness :
  CommandUUID cmd_C2 ≠ "C1".
Proof.
  apply (answered_command_is_not_pending track_all build_verifying marshal_fixed
           db_after_dispatch [{| at_start := db_after_dispatch; at_conflict := false |}]
           "D1" response_status_200 db_after_answer
           {| Verb := "Status";
              pco_Cmd := {| CmdRef := Some "C1"; Cmd := Some "Exec"; Data := Some "200" |} |}
           "C1" "D2" cmd_C2).
  - vm_compute. reflexivity.
  - left.
  - split_and!; [reflexivity..|]. left. reflexivity.
  - vm_compute. left.
Defined.

Lemma response_without_tracked_operation_writes_nothing_witness :
  MDMWindowsSaveResponse track_all build_verifying marshal_fixed db_two_devices
    ([{| at_start := db_device_id_reassigned; at_conflict := true |}]
     ++ {| at_start := db_two_devices; at_conflict := false |} :: [])
    "D1" response_without_reference
  = Ok (at_start {| at_start := db_two_devices; at_conflict := false |}).
Proof.
  apply (response_without_tracked_operation_writes_nothing
           track_all build_verifying marshal_fixed
           db_two_devices "D1" response_without_reference
           {| ID := 1; MDMDeviceID := "D1"; MDMHardwareID := "HW1"; HostUUID := "H1" |}
           [{| at_start := db_device_id_reassigned; at_conflict := true |}]
           {| at_start := db_two_devices; at_conflict := false |} []).
  - intros protoOp cmdRef Hop (Href & _). apply list_elem_of_singleton in Hop as ->.
    discriminate Href.
  - discriminate.
  - vm_compute. reflexivity.
  - intros c ->%list_elem_of_singleton. reflexivity.
  - reflexivity.
Defined.

Lemma response_for_unknown_commands_is_only_stored_witness :
  MDMWindowsSaveResponse track_all build_verifying marshal_fixed db_two_devices
    ([{| at_start := db_device_id_reassigned; at_conflict := true |}]
     ++ {| at_start := db_two_devices; at_conflict := false |} :: [])
    "D1" response_unknown_command
  = Ok (set_windows_mdm_responses
          (windows_mdm_responses
             (at_start {| at_start := db_two_devices; at_conflict := false |})
           ++ [{| wmr_enrollment_id :=
                    ID {| ID := 1; MDMDeviceID := "D1"; MDMHardwareID := "HW1";
                          HostUUID := "H1" |};
                  wmr_raw_response := Raw response_unknown_command |}])
          (at_start {| at_start := db_two_devices; at_conflict := false |})).
Proof.
  apply (response_for_unknown_commands_is_only_stored
           track_all build_verifying marshal_fixed
           db_two_devices "D1" response_unknown_command
           {| ID := 1; MDMDeviceID := "D1"; MDMHardwareID := "HW1"; HostUUID := "H1" |}
           [{| at_start := db_device_id_reassigned; at_conflict := true |}]
           {| at_start := db_two_devices; at_conflict := false |} []
           {| Verb := "Status";
              pco_Cmd := {| CmdRef := Some "C7"; Cmd := Some "Exec"; Data := Some "200" |} |}
           "C7").
  - left.
  - split_and!; [reflexivity..|]. left. reflexivity.
  - intros op c Hop (Href & _).
    apply list_elem_of_singleton in Hop as ->.
    injection Href as <-. vm_compute. reflexivity.
  - discriminate.
  - vm_compute. reflexivity.
  - intros c ->%list_elem_of_singleton. reflexivity.
  - reflexivity.
Defined.

Lemma saved_response_keeps_earlier_results_witness :
  ∃ a, a ∈ [{| at_start := db_after_status; at_conflict := false |}]
       ∧ ∀ k old, windows_mdm_command_results (at_start a) !! k = Some old →
                  ∃ new, windows_mdm_command_results db_after_results !! k = Some new
                         ∧ wmcr_response_id new = wmcr_response_id old.
Proof.
  apply (saved_response_keeps_earlier_results track_all build_verifying marshal_fixed
           db_after_status [{| at_start := db_after_status; at_conflict := false |}]
           "D1" response_results db_after_results).
  vm_compute. reflexivity.
Defined.

Lemma answered_command_has_result_witness :
  ∃ enrollment row,
    MDMWindowsGetEnrolledDeviceWithDeviceID db_two_devices "D1" = Ok enrollment
    ∧ windows_mdm_command_results db_after_status !! (ID enrollment, "C1") = Some row
    ∧ is_Some (wmcr_status_code row).
Proof.
  apply (answered_command_has_result track_all build_verifying marshal_fixed
           db_two_devices [{| at_start := db_two_devices; at_conflict := false |}]
           "D1" response_status_200 db_after_status
           {| Verb := "Status";
              pco_Cmd := {| CmdRef := Some "C1"; Cmd := Some "Exec"; Data := Some "200" |} |}
           "C1").
  - vm_compute. reflexivity.
  - left.
  - split_and!; [reflexivity..|]. left. reflexivity.
  - vm_compute. eauto.
Defined.

Lemma first_result_is_reported_witness :
  ∃ enrollment r,
    MDMWindowsGetEnrolledDeviceWithDeviceID db_two_devices "D1" = Ok enrollment
    ∧ r ∈ GetMDMWindowsCommandResults db_after_status "C1"
    ∧ mcr_HostUUID r = HostUUID enrollment
    ∧ mcr_CommandUUID r = "C1"
    ∧ mcr_Result r = Raw response_status_200
    ∧ is_Some (mcr_Status r).
Proof.
  apply (first_result_is_reported track_all build_verifying marshal_fixed
           db_two_devices "D1" response_status_200 db_after_status
           {| Verb := "Status";
              pco_Cmd := {| CmdRef := Some "C1"; Cmd := Some "Exec"; Data := Some "200" |} |}
           "C1").
  - vm_compute. reflexivity.
  - left.
  - split_and!; [reflexivity..|]. left. reflexivity.
  - vm_compute. eauto.
  - intros enrollment [= <-]. vm_compute. reflexivity.
Defined.

Lemma status_update_panics_on_row_without_command_witness :
  updateMDMWindowsHostProfileStatusFromResponseDB db_not_dispatched [payload_verifying_C1]
  = Panic.
Proof.
  apply (status_update_panics_on_row_without_command db_not_dispatched
           payload_verifying_C1 [] "P2"
           {| hmwp_status := None; hmwp_operation_type := Some MDMOperationTypeInstall;
              hmwp_detail := None; hmwp_command_uuid := ""; hmwp_profile_name := "N2" |}).
  - intros p ->%list_elem_of_singleton. reflexivity.
  - intros p ->%list_elem_of_singleton. discriminate.
  - vm_compute. reflexivity.
  - reflexivity.
Defined.

(** ** Disk encryption classes and the summaries *)

Section Classification.

Variable getConfigEnableDiskEncryption : DB → option N → Result bool.

Local Abbreviation Summary := (GetMDMWindowsBitLockerSummary getConfigEnableDiskEncryption).
Local Abbreviation BitLockerStatus :=
  (GetMDMWindowsBitLockerStatus getConfigEnableDiskEncryption).
Local Abbreviation ProfilesSummary :=
  (GetMDMWindowsProfilesSummary getConfigEnableDiskEncryption).

Implicit Types (db : DB) (j : BitLockerJoin) (now : Z).

Lemma one_class_counts now j :
  whereNotServer j = Some true →
  COUNT_if (whereBitLockerStatus DiskEncryptionVerified now) [j]
  + COUNT_if (whereBitLockerStatus DiskEncryptionVerifying now) [j]
  + COUNT_if (whereBitLockerStatus DiskEncryptionEnforcing now) [j]
  + COUNT_if (whereBitLockerStatus DiskEncryptionFailed now) [j] = 1.
Proof.
  intros Hns. destruct (not_server_one_class now j Hns) as (s & _ & Hs).
  unfold COUNT_if. rewrite !filter_cons, !filter_nil.
  pose proof (Hs DiskEncryptionVerified) as H1.
  pose proof (Hs DiskEncryptionVerifying) as H2.
  pose proof (Hs DiskEncryptionEnforcing) as H3.
  pose proof (Hs DiskEncryptionFailed) as H4.
  pose proof (proj2 (Hs s) eq_refl) as H5.
  repeat case_decide; simpl; destruct s; naive_solver.
Qed.

Lemma summary_row_not_server db teamID h :
  bitlocker_summary_where db teamID h = true →
  whereNotServer (bitlocker_join db (h_id h)) = Some true.
Proof.
  unfold bitlocker_summary_where, whereNotServer.
  destruct (is_server _) as [[]|]; simpl; [| done |];
    by destruct (String.eqb _ _), (teamFilter teamID h) as [[]|].
Qed.

(** X11. With disk encryption enabled, the BitLocker summary puts every
    selected host in exactly one class: the four counts add up to the
    number of Windows hosts of the team that are not servers, and the two
    classes that do not apply to Windows are zero. *)
Theorem bitlocker_summary_counts_every_host_once db now (teamID : option N) :
  getConfigEnableDiskEncryption db teamID = Ok true →
  ∃ s, Summary db now teamID = Ok s
       ∧ Verified s + Verifying s + Enforcing s + Failed s
         = length (filter (λ h, bitlocker_summary_where db teamID h = true) (hosts db))
       ∧ ActionRequired s = 0 ∧ RemovingEnforcement s = 0.
Proof.
  intros Hen. unfold GetMDMWindowsBitLockerSummary. rewrite Hen. simpl.
  eexists. split; [done|]. simpl. split; [|done].
  unfold bitlocker_summary_rows, bitlocker_rows_of.
  induction (hosts db) as [|h hs IH]; [done|].
  rewrite filter_cons. case_decide as Hh; [|done].
  rewrite fmap_cons. cbn [length].
  change (?x :: ?l) with ([x] ++ l). rewrite !COUNT_if_app.
  pose proof (one_class_counts now _ (summary_row_not_server _ _ _ Hh)) as Hone.
  cbn [compose]. cbn [compose] in IH. lia.
Qed.

(** X12. The lookup of one host and the summary agree: when
    GetMDMWindowsBitLockerStatus returns a status for a host that has a
    host_mdm row, the host's row satisfies the summary's condition of that
    class and of no other class, and the detail is the client error (empty
    without one). *)
Theorem bitlocker_status_is_the_summary_class db now (host : Host)
    (de : HostMDMDiskEncryption) :
  BitLockerStatus db now (Some host) = Ok (Some de) →
  is_Some (host_mdm db !! host_ID host) →
  let j := bitlocker_join db (host_ID host) in
  ∃ s, Status de = Some s
       ∧ (∀ s', sql_true (whereBitLockerStatus s' now j) = true ↔ s' = s)
       ∧ Detail de = default "" (client_error j).
Proof.
  intros Hstatus [m Hm] j. unfold GetMDMWindowsBitLockerStatus in Hstatus.
  destruct (str_ne (Platform host) "windows"); [done|].
  destruct (match MDMInfo host with Some i => IsServer i | None => false end); [done|].
  destruct (getConfigEnableDiskEncryption db (host_TeamID host)) as [[]| |];
    simpl in Hstatus; [|done..].
  rewrite Hm in Hstatus. fold j in Hstatus.
  destruct (bitlocker_status_case now j) as [s|] eqn:Hcase; [|done].
  injection Hstatus as <-. exists s. cbn [Status Detail].
  split_and!; [done| |by destruct (client_error j)].
  assert (Hns : whereNotServer j = Some true).
  { destruct (whereNotServer_two_valued j) as [[] Hns]; [done|].
    unfold bitlocker_status_case, whereBitLockerStatus in Hcase.
    rewrite Hns in Hcase. by destruct (whereClientError j) as [[]|]. }
  destruct (not_server_one_class now j Hns) as (s0 & Hs0 & Hclass).
  by simplify_eq.
Qed.

Lemma withinGracePeriod_earlier now now' j :
  (now ≤ now')%Z → withinGracePeriod now' j = Some true →
  withinGracePeriod now j = Some true.
Proof.
  unfold withinGracePeriod, one_hour_ago. intros Hle.
  destruct (key_updated_at j) as [k|]; simpl; [|done].
  destruct (Z.leb_spec (now' - 3600) k), (Z.leb_spec (now - 3600) k); try done; lia.
Qed.

(** X13. Only the grace period depends on the time of evaluation, and it
    only runs out: as time passes a host stays Verified or Failed exactly
    as it was, an Enforcing host stays Enforcing, and a host can only be
    Verifying later if it was Verifying before. *)
Theorem classes_as_time_passes now now' j :
  (now ≤ now')%Z →
  (bitlocker_status_case now j = Some DiskEncryptionVerified
   ↔ bitlocker_status_case now' j = Some DiskEncryptionVerified)
  ∧ (bitlocker_status_case now j = Some DiskEncryptionFailed
     ↔ bitlocker_status_case now' j = Some DiskEncryptionFailed)
  ∧ (bitlocker_status_case now j = Some DiskEncryptionEnforcing →
     bitlocker_status_case now' j = Some DiskEncryptionEnforcing)
  ∧ (bitlocker_status_case now' j = Some DiskEncryptionVerifying →
     bitlocker_status_case now j = Some DiskEncryptionVerifying).
Proof.
  intros Hle. pose proof (withinGracePeriod_earlier now now' j Hle) as Hgrace.
  unfold bitlocker_status_case, whereBitLockerStatus.
  destruct (whereNotServer_two_valued j) as [[] ->];
    destruct (whereKeyAvailable_two_valued j) as [[] ->];
    destruct (whereEncrypted_two_valued j) as [[] ->];
    destruct (whereHostDisksUpdated_two_valued j) as [[] ->];
    destruct (whereClientError_two_valued j) as [[] ->];
    destruct (withinGracePeriod_two_valued now j) as [[] Hg];
    destruct (withinGracePeriod_two_valued now' j) as [[] Hg'];
    rewrite ?Hg, ?Hg'; simpl; try done;
    specialize (Hgrace Hg'); congruence.
Qed.

(** X14. A host that is a server, or whose host_mdm row is missing or
    does not tell, is in no class: none of the four conditions holds for
    its row, so no summary counts it. The lookup of a Windows host without
    a host_mdm row, with disk encryption enabled, still returns Enforcing
    with an empty detail. *)
Theorem server_or_unknown_host_has_no_class db now j (host : Host) :
  (is_server j ≠ Some false →
   (∀ s, sql_true (whereBitLockerStatus s now j) = false)
   ∧ bitlocker_status_case now j = None
   ∧ bitlockerStatus now j = "")
  ∧ (host_mdm db !! host_ID host = None →
     Platform host = "windows" →
     (∀ i, MDMInfo host = Some i → IsServer i = false) →
     getConfigEnableDiskEncryption db (host_TeamID host) = Ok true →
     BitLockerStatus db now (Some host)
     = Ok (Some {| Status := Some DiskEncryptionEnforcing; Detail := "" |})
     ∧ ∀ s, sql_true (whereBitLockerStatus s now (bitlocker_join db (host_ID host)))
            = false).
Proof.
  assert (Hnone : ∀ j', is_server j' ≠ Some false →
            ∀ s, sql_true (whereBitLockerStatus s now j') = false).
  { intros j' Hs s.
    assert (Hns : whereNotServer j' = Some false)
      by (unfold whereNotServer; by destruct (is_server j') as [[]|]).
    unfold whereBitLockerStatus. rewrite Hns.
    destruct s; try done; by destruct (whereClientError j') as [[]|]. }
  split.
  - intros Hs. pose proof (Hnone j Hs) as Hall. split; [done|].
    unfold bitlocker_status_case, bitlockerStatus. by rewrite !Hall.
  - intros Hm Hp Hi Hen. split.
    + unfold GetMDMWindowsBitLockerStatus. rewrite Hp. simpl.
      assert (match MDMInfo host with Some i => IsServer i | None => false end = false)
        as -> by (destruct (MDMInfo host); eauto).
      rewrite Hen. simpl. by rewrite Hm.
    + apply Hnone. unfold is_server, bitlocker_join. simpl. by rewrite Hm.
Qed.

Local Abbreviation cnt s l := (length (filter (λ t : string, t = s) l)).

Lemma count_statuses_grouped (l d : list string) (acc : MDMProfilesSummary) :
  (∀ s, s ∈ d → s = "failed" ∨ s = "pending" ∨ s = "verifying" ∨ s = "verified" ∨ s = "") →
  count_statuses acc
    ((λ s, {| sc_Status := s; sc_Count := cnt s l |}) <$> d)
  = Ok {| ps_Verified := if decide ("verified" ∈ d) then cnt "verified" l
                         else ps_Verified acc;
          ps_Verifying := if decide ("verifying" ∈ d) then cnt "verifying" l
                          else ps_Verifying acc;
          ps_Failed := if decide ("failed" ∈ d) then cnt "failed" l else ps_Failed acc;
          ps_Pending := if decide ("pending" ∈ d) then cnt "pending" l
                        else ps_Pending acc |}.
Proof.
  revert acc. induction d as [|s d IH]; intros acc Hallowed.
  - by destruct acc.
  - rewrite fmap_cons. cbn [count_statuses].
    assert (Hd : ∀ s', s' ∈ d → s' = "failed" ∨ s' = "pending" ∨ s' = "verifying"
                                 ∨ s' = "verified" ∨ s' = "")
      by (intros s' Hs'; apply Hallowed; by right).
    destruct (Hallowed s) as [-> | [-> | [-> | [-> | ->]]]]; [by left|..];
      cbn; rewrite (IH _ Hd); cbn; f_equal; f_equal;
      repeat case_decide; try done; set_solver.
Qed.

Lemma cnt_not_elem (s : string) (l : list string) : s ∉ l → cnt s l = 0.
Proof.
  induction l as [|t l IH]; [done|]. intros [Hne Hl]%not_elem_of_cons.
  rewrite filter_cons. rewrite decide_False by done. auto.
Qed.

Lemma cnt_total (l : list string) :
  (∀ s, s ∈ l → s = "failed" ∨ s = "pending" ∨ s = "verifying" ∨ s = "verified" ∨ s = "") →
  cnt "failed" l + cnt "pending" l + cnt "verifying" l + cnt "verified" l + cnt "" l
  = length l.
Proof.
  induction l as [|t l IH]; [done|]. intros Hallowed.
  rewrite !filter_cons. cbn [length]. rewrite <- IH by (intros s Hs; apply Hallowed; by right).
  destruct (Hallowed t) as [-> | [-> | [-> | [-> | ->]]]]; [by left|..];
    repeat case_decide; try done; cbn [length]; lia.
Qed.

Lemma count_statuses_GROUP_BY (l : list string) :
  (∀ s, s ∈ l → s = "failed" ∨ s = "pending" ∨ s = "verifying" ∨ s = "verified" ∨ s = "") →
  count_statuses {| ps_Verified := 0; ps_Verifying := 0; ps_Failed := 0; ps_Pending := 0 |}
    (GROUP_BY_status l)
  = Ok {| ps_Verified := cnt "verified" l; ps_Verifying := cnt "verifying" l;
          ps_Failed := cnt "failed" l; ps_Pending := cnt "pending" l |}.
Proof.
  intros Hallowed. unfold GROUP_BY_status. rewrite count_statuses_grouped.
  - f_equal. cbn [ps_Verified ps_Verifying ps_Failed ps_Pending].
    f_equal; case_decide as Hin; try done; rewrite elem_of_remove_dups in Hin;
      symmetry; apply cnt_not_elem; exact Hin.
  - intros s Hs. rewrite elem_of_remove_dups in Hs. by apply Hallowed.
Qed.

Lemma profilesOnlyStatus_allowed db u :
  profilesOnlyStatus db u = "failed" ∨ profilesOnlyStatus db u = "pending"
  ∨ profilesOnlyStatus db u = "verifying" ∨ profilesOnlyStatus db u = "verified"
  ∨ profilesOnlyStatus db u = "".
Proof.
  unfold profilesOnlyStatus.
  repeat match goal with |- context [if ?c then _ else _] => destruct c end; auto 10.
Qed.

Lemma profilesAndBitLockerStatus_allowed db now teamID h :
  counted_host db teamID h = true →
  profilesAndBitLockerStatus db now h = "failed"
  ∨ profilesAndBitLockerStatus db now h = "pending"
  ∨ profilesAndBitLockerStatus db now h = "verifying"
  ∨ profilesAndBitLockerStatus db now h = "verified".
Proof.
  intros Hc.
  assert (Hns : whereNotServer (bitlocker_join db (h_id h)) = Some true).
  { unfold counted_host in Hc. unfold whereNotServer, is_server, bitlocker_join. simpl.
    destruct (host_mdm db !! h_id h) as [m|]; [|done]. simpl.
    destruct (hmdm_mdm_id m ≫= _); [|done].
    destruct (hmdm_is_server m) as [[]|]; simpl in *; try done;
      by destruct (String.eqb _ _), (hmdm_enrolled m) as [[]|],
        (String.eqb _ _), (teamFilter teamID h) as [[]|]. }
  destruct (not_server_one_class now _ Hns) as (s & Hs & _).
  unfold profilesAndBitLockerStatus, bitlockerStatus, profilesStatus.
  unfold bitlocker_status_case in Hs.
  repeat match goal with
         | H : context [if sql_true ?c then _ else _] |- _ => destruct (sql_true c)
         end; simplify_eq;
    repeat match goal with |- context [if ?c then _ else _] => destruct c end;
    cbn; auto.
Qed.

(** X15. GetMDMWindowsProfilesSummary never fails on an unexpected
    status: whenever the configuration can be read it returns a summary.
    The four counts never exceed the number of enrolled Windows hosts of
    the team that are not servers, and with disk encryption enabled they
    add up to exactly that number: every such host is in one bucket. *)
Theorem profiles_summary_accounts_for_hosts db now (teamID : option N) (include : bool) :
  getConfigEnableDiskEncryption db teamID = Ok include →
  let counted := filter (λ h, counted_host db teamID h = true) (hosts db) in
  ∃ s, ProfilesSummary db now teamID = Ok s
       ∧ (ps_Failed s + ps_Pending s + ps_Verifying s + ps_Verified s ≤ length counted)%nat
       ∧ (include = true →
          ps_Failed s + ps_Pending s + ps_Verifying s + ps_Verified s = length counted).
Proof.
  intros Hcfg counted. unfold GetMDMWindowsProfilesSummary. rewrite Hcfg. simpl.
  destruct include; simpl.
  - unfold getMDMWindowsStatusCountsProfilesAndBitLockerDB. fold counted.
    set (l := profilesAndBitLockerStatus db now <$> counted).
    assert (Hfour : ∀ s, s ∈ l → s = "failed" ∨ s = "pending" ∨ s = "verifying"
                                  ∨ s = "verified").
    { intros s (h & -> & [Hh _]%list_elem_of_filter)%list_elem_of_fmap.
      by eapply profilesAndBitLockerStatus_allowed. }
    assert (Hallowed : ∀ s, s ∈ l → s = "failed" ∨ s = "pending" ∨ s = "verifying"
                                     ∨ s = "verified" ∨ s = "")
      by (intros s Hs; destruct (Hfour s Hs) as [?|[?|[?|?]]]; auto 10).
    rewrite (count_statuses_GROUP_BY l Hallowed). eexists. split; [done|].
    cbn [ps_Verified ps_Verifying ps_Failed ps_Pending].
    pose proof (cnt_total l Hallowed) as Htot.
    assert (Hempty : cnt "" l = 0).
    { apply cnt_not_elem. intros Hin. by destruct (Hfour "" Hin) as [?|[?|[?|?]]]. }
    assert (Hlen : length l = length counted) by (unfold l; by rewrite length_fmap).
    split; [lia|]. intros _. lia.
  - unfold getMDMWindowsStatusCountsProfilesOnlyDB. fold counted.
    set (l := profilesOnlyStatus db ∘ h_uuid <$> counted).
    assert (Hallowed : ∀ s, s ∈ l → s = "failed" ∨ s = "pending" ∨ s = "verifying"
                                     ∨ s = "verified" ∨ s = "").
    { intros s (h & -> & _)%list_elem_of_fmap. apply profilesOnlyStatus_allowed. }
    rewrite (count_statuses_GROUP_BY l Hallowed). eexists. split; [done|].
    cbn [ps_Verified ps_Verifying ps_Failed ps_Pending].
    pose proof (cnt_total l Hallowed) as Htot.
    assert (Hlen : length l = length counted) by (unfold l; by rewrite length_fmap).
    split; [lia|done].
Qed.

End Classification.

(** ** Profile delivery status of a host *)

Section DeliveryStatus.

Implicit Types (db : DB) (u : string) (r : host_mdm_windows_profiles_row).

Lemma elem_of_host_profile_rows db u r :
  r ∈ host_profile_rows db u ↔ ∃ p, host_mdm_windows_profiles db !! (u, p) = Some r.
Proof.
  unfold host_profile_rows. rewrite list_elem_of_fmap. split.
  - intros ([[u' p] r'] & -> & [Hu Hm]%list_elem_of_filter).
    apply elem_of_map_to_list in Hm. simpl in *. subst u'. by exists p.
  - intros (p & Hp). exists ((u, p), r). split; [done|].
    apply list_elem_of_filter. split; [done|]. by apply elem_of_map_to_list.
Qed.

Lemma EXISTS_profile_true db u cond :
  EXISTS_profile db u cond = true
  ↔ ∃ r p, host_mdm_windows_profiles db !! (u, p) = Some r ∧ sql_true (cond r) = true.
Proof.
  unfold EXISTS_profile. rewrite existsb_exists. split.
  - intros (r & Hr%list_elem_of_In%elem_of_host_profile_rows & Hc).
    destruct Hr as [p Hp]. by exists r, p.
  - intros (r & p & Hp & Hc). exists r. split; [|done].
    apply list_elem_of_In, elem_of_host_profile_rows. by exists p.
Qed.

Lemma EXISTS_profile_false db u cond :
  (∀ r p, host_mdm_windows_profiles db !! (u, p) = Some r → sql_true (cond r) = false) →
  EXISTS_profile db u cond = false.
Proof.
  intros Hall. apply not_true_is_false. intros (r & p & Hp & Hc)%EXISTS_profile_true.
  by rewrite (Hall r p Hp) in Hc.
Qed.

(** X16. The delivery status of a host follows from its rows in this
    order: one failed row makes the host failed whatever the other rows
    are; without a failed row, one row that is pending or has no status
    makes it pending; a host whose rows are all installs that are
    verifying or verified is verifying if one of them is verifying and
    verified if all are verified; a host without rows has no status. *)
Theorem delivery_status_of_rows db u :
  let row r := ∃ p, host_mdm_windows_profiles db !! (u, p) = Some r in
  ((∃ r, row r ∧ hmwp_status r = Some MDMDeliveryFailed) →
   profilesOnlyStatus db u = "failed")
  ∧ ((∀ r, row r → hmwp_status r ≠ Some MDMDeliveryFailed) →
     (∃ r, row r ∧ (hmwp_status r = None ∨ hmwp_status r = Some MDMDeliveryPending)) →
     profilesOnlyStatus db u = "pending")
  ∧ ((∀ r, row r → hmwp_operation_type r = Some MDMOperationTypeInstall
                   ∧ (hmwp_status r = Some MDMDeliveryVerifying
                      ∨ hmwp_status r = Some MDMDeliveryVerified)) →
     (∃ r, row r ∧ hmwp_status r = Some MDMDeliveryVerifying) →
     profilesOnlyStatus db u = "verifying")
  ∧ ((∀ r, row r → hmwp_operation_type r = Some MDMOperationTypeInstall
                   ∧ hmwp_status r = Some MDMDeliveryVerified) →
     (∃ r, row r) →
     profilesOnlyStatus db u = "verified")
  ∧ ((∀ r, ¬ row r) → profilesOnlyStatus db u = "").
Proof.
  intros row. unfold profilesOnlyStatus,
    subqueryHostsMDMWindowsOSSettingsStatusFailed,
    subqueryHostsMDMWindowsOSSettingsStatusPending,
    subqueryHostsMDMWindowsOSSettingsStatusVerifying,
    subqueryHostsMDMWindowsOSSettingsStatusVerified.
  split_and!.
  - intros (r & [p Hp] & Hs).
    rewrite (proj2 (EXISTS_profile_true db u (status_is MDMDeliveryFailed))); [done|].
    exists r, p. split; [done|]. unfold status_is. by rewrite Hs.
  - intros Hnofail (r & [p Hp] & Hs).
    assert (Hf : EXISTS_profile db u (status_is MDMDeliveryFailed) = false).
    { apply EXISTS_profile_false. intros r' p' Hp'.
      assert (Hne : hmwp_status r' ≠ Some MDMDeliveryFailed) by (apply Hnofail; by exists p').
      unfold status_is. by destruct (hmwp_status r') as [[]|]. }
    rewrite Hf.
    rewrite (proj2 (EXISTS_profile_true db u _)); [done|].
    exists r, p. split; [done|]. unfold status_is, is_null.
    by destruct Hs as [-> | ->].
  - intros Hall (r & [p Hp] & Hs).
    rewrite EXISTS_profile_false; last first.
    { intros r' p' Hp'. destruct (Hall r') as [_ [Hs'|Hs']]; [by exists p'|..];
        unfold status_is; by rewrite Hs'. }
    rewrite EXISTS_profile_false; last first.
    { intros r' p' Hp'. destruct (Hall r') as [_ [Hs'|Hs']]; [by exists p'|..];
        unfold status_is, is_null; by rewrite Hs'. }
    rewrite (proj2 (EXISTS_profile_true db u _)); [done|].
    exists r, p. split; [done|].
    destruct (Hall r) as [Ho _]; [by exists p|].
    rewrite EXISTS_profile_false.
    + unfold operation_is, status_is. by rewrite Ho, Hs.
    + intros r' p' Hp'. destruct (Hall r') as [Ho' [Hs'|Hs']]; [by exists p'|..];
        unfold operation_is, status_is, is_null; by rewrite Ho', Hs'.
  - intros Hall (r & [p Hp]).
    rewrite EXISTS_profile_false; last first.
    { intros r' p' Hp'. destruct (Hall r') as [_ Hs']; [by exists p'|].
      unfold status_is; by rewrite Hs'. }
    rewrite EXISTS_profile_false; last first.
    { intros r' p' Hp'. destruct (Hall r') as [_ Hs']; [by exists p'|].
      unfold status_is, is_null. by rewrite Hs'. }
    rewrite EXISTS_profile_false; last first.
    { intros r' p' Hp'. destruct (Hall r') as [Ho' Hs']; [by exists p'|].
      unfold operation_is, status_is. by rewrite Ho', Hs'. }
    rewrite (proj2 (EXISTS_profile_true db u _)); [done|].
    exists r, p. split; [done|].
    destruct (Hall r) as [Ho Hs]; [by exists p|].
    rewrite EXISTS_profile_false.
    + unfold operation_is, status_is. by rewrite Ho, Hs.
    + intros r' p' Hp'. destruct (Hall r') as [Ho' Hs']; [by exists p'|].
      unfold operation_is, status_is, is_null. by rewrite Ho', Hs'.
  - intros Hnone.
    rewrite !EXISTS_profile_false; [done|intros r p Hp; exfalso; apply (Hnone r); by exists p..].
Qed.

End DeliveryStatus.

Lemma bitlocker_summary_counts_every_host_once_witness :
  ∃ s, GetMDMWindowsBitLockerSummary disk_encryption_enabled db_disk_encryption 100 None
       = Ok s
       ∧ Verified s + Verifying s + Enforcing s + Failed s
         = length (filter (λ h, bitlocker_summary_where db_disk_encryption None h = true)
                          (hosts db_disk_encryption))
       ∧ ActionRequired s = 0 ∧ RemovingEnforcement s = 0.
Proof.
  apply (bitlocker_summary_counts_every_host_once disk_encryption_enabled
           db_disk_encryption 100 None).
  reflexivity.
Defined.

Lemma bitlocker_status_is_the_summary_class_witness :
  ∃ s, Some DiskEncryptionFailed = Some s
       ∧ (∀ s', sql_true (whereBitLockerStatus s' 100 (bitlocker_join db_disk_encryption 1))
                = true ↔ s' = s)
       ∧ "tpm is missing" = default "" (client_error (bitlocker_join db_disk_encryption 1)).
Proof.
  apply (bitlocker_status_is_the_summary_class disk_encryption_enabled
           db_disk_encryption 100 host_H1
           {| Status := Some DiskEncryptionFailed; Detail := "tpm is missing" |}).
  - reflexivity.
  - vm_compute. eauto.
Defined.

Lemma classes_as_time_passes_witness :
  let j := bitlocker_join db_disk_encryption 3 in
  (bitlocker_status_case 1000 j = Some DiskEncryptionVerified
   ↔ bitlocker_status_case 7200 j = Some DiskEncryptionVerified)
  ∧ (bitlocker_status_case 1000 j = Some DiskEncryptionFailed
     ↔ bitlocker_status_case 7200 j = Some DiskEncryptionFailed)
  ∧ (bitlocker_status_case 1000 j = Some DiskEncryptionEnforcing →
     bitlocker_status_case 7200 j = Some DiskEncryptionEnforcing)
  ∧ (bitlocker_status_case 7200 j = Some DiskEncryptionVerifying →
     bitlocker_status_case 1000 j = Some DiskEncryptionVerifying).
Proof.
  apply (classes_as_time_passes 1000 7200 (bitlocker_join db_disk_encryption 3)).
  lia.
Defined.

Lemma profiles_summary_accounts_for_hosts_witness :
  ∃ s, GetMDMWindowsProfilesSummary disk_encryption_enabled db_disk_encryption 100 None
       = Ok s
       ∧ (ps_Failed s + ps_Pending s + ps_Verifying s + ps_Verified s
          ≤ length (filter (λ h, counted_host db_disk_encryption None h = true)
                           (hosts db_disk_encryption)))%nat
       ∧ (true = true →
          ps_Failed s + ps_Pending s + ps_Verifying s + ps_Verified s
          = length (filter (λ h, counted_host db_disk_encryption None h = true)
                           (hosts db_disk_encryption))).
Proof.
  apply (profiles_summary_accounts_for_hosts disk_encryption_enabled
           db_disk_encryption 100 None true).
  reflexivity.
Defined.

(** ** Bulk changes of host profiles *)

Section BulkProfiles.

Implicit Types (db : DB) (ds : Datastore) (k : string * string).
Implicit Types (t : gmap (string * string) host_mdm_windows_profiles_row).

Lemma lookup_fold_upsert_host_profile
    (l : list MDMWindowsBulkUpsertHostProfilePayload) t k :
  fold_left upsert_host_profile l t !! k
  = match last (filter (λ p, bu_key p = k) l) with
    | Some p => Some (bu_row p)
    | None => t !! k
    end.
Proof.
  induction l as [|p l IH] using rev_ind; [done|].
  rewrite fold_left_app, filter_app. cbn [fold_left]. unfold upsert_host_profile at 1.
  destruct (decide (bu_key p = k)) as [<-|Hne].
  - rewrite lookup_insert_eq.
    rewrite (filter_cons_True _ p) by done. by rewrite filter_nil, last_snoc.
  - rewrite lookup_insert_ne by done.
    rewrite (filter_cons_False _ p) by done. by rewrite filter_nil, app_nil_r.
Qed.

Lemma BulkUpsertMDMWindowsHostProfiles_table ds
    (payload : list MDMWindowsBulkUpsertHostProfilePayload) db :
  BulkUpsertMDMWindowsHostProfiles ds payload db
  = set_host_mdm_windows_profiles
      (fold_left upsert_host_profile payload (host_mdm_windows_profiles db)) db.
Proof.
  unfold BulkUpsertMDMWindowsHostProfiles. destruct payload as [|p payload].
  - symmetry. apply set_host_mdm_windows_profiles_id.
  - f_equal. exact (batch_loop_fold _ _ (p :: payload) [] _).
Qed.

Lemma bulkDeleteMDMWindowsHostsConfigProfilesDB_table ds
    (profs : list MDMWindowsProfilePayload) db :
  bulkDeleteMDMWindowsHostsConfigProfilesDB ds profs db
  = set_host_mdm_windows_profiles
      (executeDeleteBatch profs (host_mdm_windows_profiles db)) db.
Proof.
  unfold bulkDeleteMDMWindowsHostsConfigProfilesDB. destruct profs as [|p profs].
  - symmetry. apply set_host_mdm_windows_profiles_id.
  - by rewrite batch_loop_executeDeleteBatch.
Qed.

(** X17. The batch sizes of the datastore never change what the three
    bulk functions do: the bulk upsert, the bulk delete and the
    reconciliation of the pending profiles of hosts leave the same
    database for any two batch sizes. *)
Theorem bulk_functions_ignore_batch_size ds ds'
    (payload : list MDMWindowsBulkUpsertHostProfilePayload)
    (profs : list MDMWindowsProfilePayload) (uuids : list string) db :
  BulkUpsertMDMWindowsHostProfiles ds payload db
  = BulkUpsertMDMWindowsHostProfiles ds' payload db
  ∧ BulkDeleteMDMWindowsHostsConfigProfiles ds profs db
    = BulkDeleteMDMWindowsHostsConfigProfiles ds' profs db
  ∧ bulkSetPendingMDMWindowsHostProfilesDB ds uuids db
    = bulkSetPendingMDMWindowsHostProfilesDB ds' uuids db.
Proof.
  split_and!.
  - by rewrite !BulkUpsertMDMWindowsHostProfiles_table.
  - unfold BulkDeleteMDMWindowsHostsConfigProfiles.
    by rewrite !bulkDeleteMDMWindowsHostsConfigProfilesDB_table.
  - destruct (decide (uuids = [])) as [->|Hne]; [done|].
    by rewrite !bulkSetPendingMDMWindowsHostProfilesDB_table.
Qed.

(** X18. After BulkUpsertMDMWindowsHostProfiles the row of a (host,
    profile) pair holds the columns of the last payload for that pair,
    also when earlier payloads name the pair; a pair that no payload names
    keeps what it had. No other table changes. *)
Theorem BulkUpsertMDMWindowsHostProfiles_last_payload_wins ds
    (payload : list MDMWindowsBulkUpsertHostProfilePayload) db :
  let db' := BulkUpsertMDMWindowsHostProfiles ds payload db in
  db' = set_host_mdm_windows_profiles (host_mdm_windows_profiles db') db
  ∧ ∀ k, host_mdm_windows_profiles db' !! k
         = match last (filter (λ p, bu_key p = k) payload) with
           | Some p => Some (bu_row p)
           | None => host_mdm_windows_profiles db !! k
           end.
Proof.
  intros db'. unfold db'. rewrite BulkUpsertMDMWindowsHostProfiles_table.
  split; [by destruct db|].
  intros k. apply lookup_fold_upsert_host_profile.
Qed.

(** X19. BulkDeleteMDMWindowsHostsConfigProfiles removes the rows of
    exactly the (host, profile) pairs of the payloads, whatever the other
    fields of the payloads hold, and changes no other row and no other
    table. *)
Theorem BulkDeleteMDMWindowsHostsConfigProfiles_removes_pairs ds
    (profs : list MDMWindowsProfilePayload) db :
  let db' := BulkDeleteMDMWindowsHostsConfigProfiles ds profs db in
  db' = set_host_mdm_windows_profiles (host_mdm_windows_profiles db') db
  ∧ ∀ k, host_mdm_windows_profiles db' !! k
         = if decide (k ∈ pp_key <$> profs) then None
           else host_mdm_windows_profiles db !! k.
Proof.
  intros db'. unfold db', BulkDeleteMDMWindowsHostsConfigProfiles.
  rewrite bulkDeleteMDMWindowsHostsConfigProfilesDB_table.
  split; [by destruct db|].
  intros k. apply lookup_executeDeleteBatch.
Qed.

(** X20. Rows upserted for pairs that had no row are taken away again by
    the bulk delete of the same pairs: the database is the one before the
    upsert, whatever the batch sizes of the two calls. *)
Theorem bulk_delete_undoes_bulk_upsert ds ds'
    (payload : list MDMWindowsBulkUpsertHostProfilePayload)
    (profs : list MDMWindowsProfilePayload) db :
  pp_key <$> profs = bu_key <$> payload →
  (∀ p, p ∈ payload → host_mdm_windows_profiles db !! bu_key p = None) →
  BulkDeleteMDMWindowsHostsConfigProfiles ds' profs
    (BulkUpsertMDMWindowsHostProfiles ds payload db) = db.
Proof.
  intros Hkeys Hnew. unfold BulkDeleteMDMWindowsHostsConfigProfiles.
  rewrite bulkDeleteMDMWindowsHostsConfigProfilesDB_table,
    BulkUpsertMDMWindowsHostProfiles_table.
  assert (Ht : executeDeleteBatch profs
                 (host_mdm_windows_profiles
                    (set_host_mdm_windows_profiles
                       (fold_left upsert_host_profile payload
                          (host_mdm_windows_profiles db)) db))
               = host_mdm_windows_profiles db).
  { apply map_eq. intros k. cbn [host_mdm_windows_profiles set_host_mdm_windows_profiles].
    rewrite lookup_executeDeleteBatch, Hkeys.
    case_decide as Hin.
    - apply list_elem_of_fmap in Hin as (p & -> & Hp). symmetry. by apply Hnew.
    - rewrite lookup_fold_upsert_host_profile.
      destruct (last _) as [p|] eqn:Hl; [|done].
      exfalso. apply Hin. apply last_Some in Hl as [l' Hl].
      assert (Hp : p ∈ filter (λ p, bu_key p = k) payload)
        by (rewrite Hl; apply elem_of_app; right; by left).
      apply list_elem_of_filter in Hp as [<- Hp]. by apply list_elem_of_fmap_2. }
  rewrite Ht. by destruct db.
Qed.

End BulkProfiles.

(** ** Reconciling the pending profiles of hosts *)

Section Reconciliation.

Implicit Types (db : DB) (ds : Datastore) (k : string * string).
Implicit Types (t : gmap (string * string) host_mdm_windows_profiles_row).
Implicit Types (d : mdm_windows_configuration_profiles_row * hosts_row).

(** X21. For a non-empty list of host uuids,
    bulkSetPendingMDMWindowsHostProfilesDB leaves a database in which
    nothing is left to remove for these hosts, every desired (host,
    profile) pair of these hosts has a row, every pair of the install list
    is still in the install list (its row waits with NULL status for the
    command to be sent), and the rows of all other hosts are the ones
    before the call. *)
Theorem bulkSetPending_reaches_desired_state ds (uuids : list string) db :
  uuids ≠ [] →
  let db' := bulkSetPendingMDMWindowsHostProfilesDB ds uuids db in
  listMDMWindowsProfilesToRemoveDB db' uuids = []
  ∧ (∀ d, d ∈ desired_state db (hostFilter uuids) →
          is_Some (host_mdm_windows_profiles db' !! ds_key d))
  ∧ (∀ k, k ∈ pp_key <$> listMDMWindowsProfilesToInstallDB db uuids →
          k ∈ pp_key <$> listMDMWindowsProfilesToInstallDB db' uuids)
  ∧ (∀ k, k.1 ∉ uuids →
          host_mdm_windows_profiles db' !! k = host_mdm_windows_profiles db !! k).
Proof.
  intros Hne db'.
  pose proof (λ k, lookup_bulkSetPending ds uuids db k Hne) as HT.
  cbn zeta in HT. fold db' in HT.
  assert (Hdes : ∀ F, desired_state db' F = desired_state db F)
    by (intros F; apply desired_state_bulkSetPending).
  split_and!.
  - apply (fmap_nil_inv pp_key), elem_of_nil_inv.
    intros k (Hsome & HF & Hnone)%elem_of_remove_pairs.
    setoid_rewrite Hdes in Hnone.
    destruct (decide (k ∈ pp_key <$> listMDMWindowsProfilesToInstallDB db uuids))
      as [(d & [Hd _]%desired_state_filtered & Hk & _)%elem_of_install_pairs|Hni].
    + by apply (Hnone d).
    + destruct (HT k) as [_ Hout]. rewrite (Hout Hni) in Hsome.
      case_decide as Hr; [by destruct Hsome|].
      apply Hr, elem_of_remove_pairs. done.
  - intros d Hd.
    destruct (decide (ds_key d ∈ pp_key <$> listMDMWindowsProfilesToInstallDB db uuids))
      as [Hi|Hni].
    + destruct (HT (ds_key d)) as [Hin _]. destruct (Hin Hi) as (r & -> & _). by eexists.
    + destruct (HT (ds_key d)) as [_ Hout]. rewrite (Hout Hni).
      rewrite decide_False.
      * destruct (host_mdm_windows_profiles db !! ds_key d) as [r|] eqn:Hr; [by eexists|].
        exfalso. apply Hni, elem_of_install_pairs. exists d. split_and!; [done..|].
        unfold to_install. by rewrite Hr.
      * intros (_ & _ & Hnone)%elem_of_remove_pairs.
        apply desired_state_filtered in Hd as [Hd _]. by apply (Hnone d).
  - intros k Hk. destruct (HT k) as [Hin _]. destruct (Hin Hk) as (r & Hr & Hw & _).
    apply elem_of_install_pairs in Hk as (d & Hd & Hkd & _).
    apply elem_of_install_pairs. exists d. rewrite Hdes. split_and!; [done..|].
    apply (is_waiting_to_install db' d r); [|done]. by rewrite Hkd.
  - intros k Hk.
    assert (HF : hostFilter uuids k.1 = false).
    { destruct uuids; [done|]. by apply bool_decide_eq_false_2. }
    destruct (HT k) as [_ Hout]. rewrite Hout.
    + rewrite decide_False; [done|].
      intros (_ & HF' & _)%elem_of_remove_pairs. congruence.
    + intros (d & [_ HF']%desired_state_filtered & <- & _)%elem_of_install_pairs.
      cbn in HF. congruence.
Qed.

(** X22. bulkSetPendingMDMWindowsHostProfilesDB does not touch a row in
    flight: a row of a desired pair that is not a NULL-status install row
    is the same after the call. A row of the install list is reset (NULL
    status, operation install, empty detail, no command) and keeps its
    profile name. *)
Theorem bulkSetPending_keeps_rows_in_flight ds (uuids : list string) db k r :
  uuids ≠ [] →
  host_mdm_windows_profiles db !! k = Some r →
  k ∈ ds_key <$> desired_state db (λ _, true) →
  let db' := bulkSetPendingMDMWindowsHostProfilesDB ds uuids db in
  let waiting :=
    sql_true (operation_is MDMOperationTypeInstall r &&& is_null (hmwp_status r)) in
  (waiting = false → host_mdm_windows_profiles db' !! k = Some r)
  ∧ (waiting = true → hostFilter uuids k.1 = true →
     ∃ r', host_mdm_windows_profiles db' !! k = Some r' ∧ is_reset r'
           ∧ hmwp_profile_name r' = hmwp_profile_name r).
Proof.
  intros Hne Hr (d & -> & Hd)%list_elem_of_fmap db' waiting.
  assert (Hnr : ds_key d ∉ pp_key <$> listMDMWindowsProfilesToRemoveDB db uuids).
  { intros (_ & _ & Hnone)%elem_of_remove_pairs. by apply (Hnone d). }
  split.
  - intros Hw.
    destruct (lookup_bulkSetPending ds uuids db (ds_key d) Hne) as [_ Hout].
    fold db' in Hout. rewrite Hout; [by rewrite decide_False|].
    intros (d' & _ & Hk & Hti)%elem_of_install_pairs.
    unfold to_install in Hti. rewrite Hk, Hr in Hti. unfold waiting in Hw. congruence.
  - intros Hw HF.
    assert (Hin : ds_key d ∈ pp_key <$> listMDMWindowsProfilesToInstallDB db uuids).
    { apply elem_of_install_pairs. exists d. split_and!; [|done|].
      - apply desired_state_filtered. by split.
      - unfold to_install. by rewrite Hr. }
    destruct (lookup_bulkSetPending ds uuids db (ds_key d) Hne) as [Hreset _].
    fold db' in Hreset. destruct (Hreset Hin) as (r' & Hr' & _ & _ & Hold).
    destruct (Hold r Hr) as [Hres Hname]. by exists r'.
Qed.

End Reconciliation.

(** ** Configuration profiles: round trips *)

Lemma filter_none {A} (P : A → Prop) `{!∀ x, Decision (P x)} (l : list A) :
  (∀ x, x ∈ l → ¬ P x) → filter P l = [].
Proof.
  induction l as [|x l IH]; [done|]. intros Hall.
  rewrite filter_cons_False by (apply Hall; by left).
  apply IH. intros y Hy. apply Hall. by right.
Qed.

Section ConfigProfiles.

Implicit Types (db : DB) (cp : MDMWindowsConfigProfile).
Implicit Types (r : mdm_windows_configuration_profiles_row).

Lemma NewMDMWindowsConfigProfile_Ok profileUUID cp db p db' :
  NewMDMWindowsConfigProfile profileUUID cp db = (Ok p, db') →
  let new := {| mwcp_profile_uuid := profileUUID;
                mwcp_team_id := default 0%N (TeamID cp);
                mwcp_name := Name cp; mwcp_syncml := cp_SyncML cp |} in
  p = {| ProfileUUID := profileUUID; Name := Name cp;
         cp_SyncML := cp_SyncML cp; TeamID := TeamID cp |}
  ∧ db' = set_mdm_windows_configuration_profiles
            (mdm_windows_configuration_profiles db ++ [new]) db
  ∧ isDuplicate_profile db new = false.
Proof.
  intros H new. unfold NewMDMWindowsConfigProfile in H.
  replace (match TeamID cp with Some t => t | None => 0%N end)
    with (default 0%N (TeamID cp)) in H by (by destruct (TeamID cp)).
  fold new in H.
  destruct (EXISTS_apple_profile db (Name cp) (default 0%N (TeamID cp))); [done|].
  cbn in H. destruct (isDuplicate_profile db new) eqn:Hdup; [done|].
  by simplify_eq.
Qed.

Lemma isDuplicate_profile_uuid db new :
  isDuplicate_profile db new = false →
  filter (λ r, mwcp_profile_uuid r = mwcp_profile_uuid new)
         (mdm_windows_configuration_profiles db) = []
  ∧ filter (λ r, mwcp_profile_uuid r ≠ mwcp_profile_uuid new)
           (mdm_windows_configuration_profiles db)
    = mdm_windows_configuration_profiles db.
Proof.
  unfold isDuplicate_profile.
  induction (mdm_windows_configuration_profiles db) as [|r l IH]; [done|].
  cbn [existsb]. intros [[Hu _]%orb_false_iff Hl]%orb_false_iff.
  apply String.eqb_neq in Hu. destruct (IH Hl) as [IH1 IH2].
  rewrite filter_cons_False, filter_cons_True by done. by rewrite IH1, IH2.
Qed.

Lemma GetMDMWindowsConfigProfile_other db l u :
  filter (λ r, mwcp_profile_uuid r = u)
         (mdm_windows_configuration_profiles db)
  = filter (λ r, mwcp_profile_uuid r = u) l →
  GetMDMWindowsConfigProfile (set_mdm_windows_configuration_profiles l db) u
  = GetMDMWindowsConfigProfile db u.
Proof.
  intros H. unfold GetMDMWindowsConfigProfile.
  cbn [mdm_windows_configuration_profiles set_mdm_windows_configuration_profiles].
  by rewrite H.
Qed.

(** X23. A profile that NewMDMWindowsConfigProfile stored is returned by
    GetMDMWindowsConfigProfile under the new uuid, with the name and the
    content given and with the team id 0 when it was given without a
    team (the profile returned by the creation keeps the absent team).
    The uuid was not in use before, the content is the one
    GetMDMWindowsProfilesContents gives for the uuid, and what the two
    functions return for every other uuid is unchanged. *)
Theorem new_profile_is_stored profileUUID cp db p db' :
  NewMDMWindowsConfigProfile profileUUID cp db = (Ok p, db') →
  ProfileUUID p = profileUUID ∧ TeamID p = TeamID cp
  ∧ GetMDMWindowsConfigProfile db profileUUID = Err (notFound "MDMWindowsProfile")
  ∧ GetMDMWindowsConfigProfile db' profileUUID
    = Ok {| ProfileUUID := profileUUID; TeamID := Some (default 0%N (TeamID cp));
            Name := Name cp; cp_SyncML := cp_SyncML cp |}
  ∧ GetMDMWindowsProfilesContents db' [profileUUID]
    = Some {[ profileUUID := cp_SyncML cp ]}
  ∧ ∀ u, u ≠ profileUUID →
         GetMDMWindowsConfigProfile db' u = GetMDMWindowsConfigProfile db u
         ∧ GetMDMWindowsProfilesContents db' [u] = GetMDMWindowsProfilesContents db [u].
Proof.
  intros (-> & -> & Hdup)%NewMDMWindowsConfigProfile_Ok.
  apply isDuplicate_profile_uuid in Hdup as [Hnone _]. cbn in Hnone.
  split_and!; [done..| | | |].
  - unfold GetMDMWindowsConfigProfile. by rewrite Hnone.
  - unfold GetMDMWindowsConfigProfile.
    cbn [mdm_windows_configuration_profiles set_mdm_windows_configuration_profiles].
    rewrite filter_app, Hnone, filter_cons_True by done. done.
  - unfold GetMDMWindowsProfilesContents.
    cbn [mdm_windows_configuration_profiles set_mdm_windows_configuration_profiles].
    rewrite filter_app.
    rewrite (list_filter_iff _ (λ r, mwcp_profile_uuid r = profileUUID))
      by (intros r; apply list_elem_of_singleton).
    rewrite Hnone.
    rewrite filter_cons_True by (by apply list_elem_of_singleton). done.
  - intros u Hu. split.
    + apply GetMDMWindowsConfigProfile_other.
      rewrite filter_app, filter_cons_False by (cbn; congruence).
      by rewrite filter_nil, app_nil_r.
    + unfold GetMDMWindowsProfilesContents.
      cbn [mdm_windows_configuration_profiles set_mdm_windows_configuration_profiles].
      rewrite filter_app, filter_cons_False; [by rewrite filter_nil, app_nil_r|].
      cbn. intros ?%list_elem_of_singleton. congruence.
Qed.

(** X24. DeleteMDMWindowsConfigProfile of the uuid of a profile that
    NewMDMWindowsConfigProfile just stored returns no error and leaves
    the database as it was before the creation. *)
Theorem delete_undoes_new_profile profileUUID cp db p db' :
  NewMDMWindowsConfigProfile profileUUID cp db = (Ok p, db') →
  DeleteMDMWindowsConfigProfile profileUUID db' = (Ok (), db).
Proof.
  intros (_ & -> & Hdup)%NewMDMWindowsConfigProfile_Ok.
  apply isDuplicate_profile_uuid in Hdup as [Hnone Hall]. cbn in Hnone, Hall.
  unfold DeleteMDMWindowsConfigProfile.
  cbn [mdm_windows_configuration_profiles set_mdm_windows_configuration_profiles].
  rewrite !filter_app, Hnone, Hall.
  rewrite filter_cons_True, filter_cons_False by (cbn; congruence).
  rewrite !filter_nil, app_nil_r. cbn.
  by destruct db.
Qed.

(** X25. After DeleteMDMWindowsConfigProfile, whatever it returns, no
    profile is stored under the uuid and the profiles of all other uuids
    are the ones before. It returns no error exactly when one profile was
    stored under the uuid; for a uuid that
    GetMDMWindowsConfigProfile does not find it returns the not-found
    error and changes nothing. *)
Theorem DeleteMDMWindowsConfigProfile_then_get profileUUID db :
  let res := (DeleteMDMWindowsConfigProfile profileUUID db).1 in
  let db' := (DeleteMDMWindowsConfigProfile profileUUID db).2 in
  GetMDMWindowsConfigProfile db' profileUUID = Err (notFound "MDMWindowsProfile")
  ∧ (∀ u, u ≠ profileUUID →
          GetMDMWindowsConfigProfile db' u = GetMDMWindowsConfigProfile db u)
  ∧ (res = Ok () ∨ res = Err (notFound "MDMWindowsProfile"))
  ∧ (res = Ok () ↔
     length (filter (λ r, mwcp_profile_uuid r = profileUUID)
                    (mdm_windows_configuration_profiles db)) = 1)
  ∧ (GetMDMWindowsConfigProfile db profileUUID = Err (notFound "MDMWindowsProfile") →
     res = Err (notFound "MDMWindowsProfile") ∧ db' = db).
Proof.
  intros res db'.
  assert (Hdb' : db' = set_mdm_windows_configuration_profiles
                         (filter (λ r, mwcp_profile_uuid r ≠ profileUUID)
                                 (mdm_windows_configuration_profiles db)) db).
  { unfold db', DeleteMDMWindowsConfigProfile. by case_decide. }
  assert (Hres : res = if decide (length (filter (λ r, mwcp_profile_uuid r = profileUUID)
                                            (mdm_windows_configuration_profiles db)) ≠ 1)
                       then Err (notFound "MDMWindowsProfile") else Ok ()).
  { unfold res, DeleteMDMWindowsConfigProfile. by case_decide. }
  rewrite Hdb', Hres. split_and!.
  - unfold GetMDMWindowsConfigProfile.
    cbn [mdm_windows_configuration_profiles set_mdm_windows_configuration_profiles].
    rewrite list_filter_filter.
    rewrite filter_none; [done|].
    intros r _ [? ?]. done.
  - intros u Hu. apply GetMDMWindowsConfigProfile_other.
    rewrite list_filter_filter. apply list_filter_iff. intros r. split; [|naive_solver].
    intros ->. done.
  - case_decide; auto.
  - case_decide as Hd; split; done.
  - unfold GetMDMWindowsConfigProfile.
    destruct (filter (λ r, mwcp_profile_uuid r = profileUUID)
                     (mdm_windows_configuration_profiles db)) as [|r l] eqn:Hf; [|done].
    intros _. rewrite decide_True by (cbn; lia). split; [done|].
    assert (Hall : filter (λ r, mwcp_profile_uuid r ≠ profileUUID)
                     (mdm_windows_configuration_profiles db)
                   = mdm_windows_configuration_profiles db).
    { clear -Hf. induction (mdm_windows_configuration_profiles db) as [|r l IH]; [done|].
      destruct (decide (mwcp_profile_uuid r = profileUUID)) as [He|Hne].
      - by rewrite filter_cons_True in Hf.
      - rewrite filter_cons_False in Hf by done.
        rewrite filter_cons_True by done. by rewrite IH. }
    rewrite Hall. by destruct db.
Qed.

Lemma lookup_fold_contents (profs : list mdm_windows_configuration_profiles_row)
    (m : gmap string (list byte)) u :
  fold_left (λ results p, <[mwcp_profile_uuid p := mwcp_syncml p]> results) profs m !! u
  = match last (filter (λ r, mwcp_profile_uuid r = u) profs) with
    | Some r => Some (mwcp_syncml r)
    | None => m !! u
    end.
Proof.
  induction profs as [|r l IH] using rev_ind; [done|].
  rewrite fold_left_app, filter_app. cbn [fold_left].
  destruct (decide (mwcp_profile_uuid r = u)) as [<-|Hne].
  - rewrite lookup_insert_eq.
    rewrite (filter_cons_True _ r) by done. by rewrite filter_nil, last_snoc.
  - rewrite lookup_insert_ne by done.
    rewrite (filter_cons_False _ r) by done. by rewrite filter_nil, app_nil_r.
Qed.

(** X26. Without uuids GetMDMWindowsProfilesContents returns the nil map.
    With uuids it returns a map that holds, for each listed uuid under
    which a profile is stored, the content that
    GetMDMWindowsConfigProfile returns for it while uuids are unique in
    the table, and holds nothing for any other uuid. *)
Theorem GetMDMWindowsProfilesContents_of_listed (uuids : list string) db :
  uuids ≠ [] →
  NoDup (mwcp_profile_uuid <$> mdm_windows_configuration_profiles db) →
  GetMDMWindowsProfilesContents db [] = None
  ∧ ∃ m, GetMDMWindowsProfilesContents db uuids = Some m
         ∧ ∀ u, m !! u = if decide (u ∈ uuids)
                         then match GetMDMWindowsConfigProfile db u with
                              | Ok p => Some (cp_SyncML p)
                              | _ => None
                              end
                         else None.
Proof.
  intros Hne Hnd. split; [done|].
  unfold GetMDMWindowsProfilesContents. destruct uuids as [|u0 uuids]; [done|].
  eexists. split; [done|]. intros u. rewrite lookup_fold_contents, lookup_empty.
  rewrite list_filter_filter. unfold GetMDMWindowsConfigProfile.
  case_decide as Hin.
  - rewrite (list_filter_iff _ (λ r, mwcp_profile_uuid r = u)) by naive_solver.
    assert (Hone : ∀ l : list mdm_windows_configuration_profiles_row,
               NoDup (mwcp_profile_uuid <$> l) →
               (length (filter (λ r, mwcp_profile_uuid r = u) l) ≤ 1)%nat).
    { clear. induction l as [|r l IH]; [intros _; cbn; lia|].
      rewrite fmap_cons. intros [Hni Hnd]%NoDup_cons.
      destruct (decide (mwcp_profile_uuid r = u)) as [He|Hne'].
      - rewrite filter_cons_True by done.
        rewrite filter_none; [cbn; lia|].
        intros r' Hr' He'. apply Hni.
        rewrite He, <- He'. by apply list_elem_of_fmap_2.
      - rewrite filter_cons_False by done. by apply IH. }
    specialize (Hone _ Hnd).
    destruct (filter _ _) as [|r [|r' l]]; [done|done|cbn in Hone; lia].
  - rewrite filter_none; [done|].
    intros r _ [-> ?]. done.
Qed.

End ConfigProfiles.

(** ** The profiles shown for a host *)

Section HostProfiles.

Implicit Types (db : DB) (r : host_mdm_windows_profiles_row).

Lemma visible_profile_true r :
  sql_true (visible_profile r) = true ↔
  hmwp_operation_type r = Some MDMOperationTypeInstall
  ∨ (status_or_pending r ≠ MDMDeliveryVerifying
     ∧ status_or_pending r ≠ MDMDeliveryVerified).
Proof.
  unfold visible_profile, operation_is, status_or_pending.
  destruct (hmwp_operation_type r) as [[]|], (hmwp_status r) as [[]|]; cbn;
    naive_solver.
Qed.

Lemma elem_of_GetHostMDMWindowsProfiles db hostUUID (p : HostMDMWindowsProfile) :
  p ∈ GetHostMDMWindowsProfiles db hostUUID ↔
  ∃ r, host_mdm_windows_profiles db !! (hostUUID, hp_ProfileUUID p) = Some r
       ∧ sql_true (visible_profile r) = true
       ∧ p = {| hp_ProfileUUID := hp_ProfileUUID p;
                hp_Name := hmwp_profile_name r;
                hp_Status := status_or_pending r;
                hp_OperationType := hmwp_operation_type r;
                hp_Detail := default "" (hmwp_detail r) |}.
Proof.
  unfold GetHostMDMWindowsProfiles. rewrite list_elem_of_fmap. split.
  - intros ([[hu pu] r] & -> & [[Hh Hv] Hm%elem_of_map_to_list]%list_elem_of_filter).
    cbn in *. subst hu. by exists r.
  - intros (r & Hr & Hv & Hp). exists (hostUUID, hp_ProfileUUID p, r).
    split; [done|]. apply list_elem_of_filter. split; [done|].
    by apply elem_of_map_to_list.
Qed.

(** X27. GetHostMDMWindowsProfiles lists the rows of the host, each
    profile at most once. A row is listed when its operation is install,
    or when its status, with NULL read as pending, is neither verifying
    nor verified; so a remove that is verifying or verified is hidden,
    and so is such a row without operation type. A listed profile has the
    name and operation type of its row, the detail of the row, empty when
    it is NULL, and the status of the row, pending when it is NULL. *)
Theorem GetHostMDMWindowsProfiles_lists_visible_rows db hostUUID :
  let profiles := GetHostMDMWindowsProfiles db hostUUID in
  NoDup (hp_ProfileUUID <$> profiles)
  ∧ (∀ profileUUID,
       profileUUID ∈ hp_ProfileUUID <$> profiles ↔
       ∃ r, host_mdm_windows_profiles db !! (hostUUID, profileUUID) = Some r
            ∧ (hmwp_operation_type r = Some MDMOperationTypeInstall
               ∨ (hmwp_status r ≠ Some MDMDeliveryVerifying
                  ∧ hmwp_status r ≠ Some MDMDeliveryVerified)))
  ∧ (∀ p, p ∈ profiles →
       ∃ r, host_mdm_windows_profiles db !! (hostUUID, hp_ProfileUUID p) = Some r
            ∧ hp_Name p = hmwp_profile_name r
            ∧ hp_OperationType p = hmwp_operation_type r
            ∧ hp_Detail p = default "" (hmwp_detail r)
            ∧ hp_Status p = default MDMDeliveryPending (hmwp_status r)).
Proof.
  intros profiles. split_and!.
  - unfold profiles, GetHostMDMWindowsProfiles. rewrite <- list_fmap_compose.
    apply (NoDup_fmap_1 (λ pu : string, (hostUUID, pu))).
    rewrite <- list_fmap_compose.
    rewrite (list_fmap_ext _ fst (filter _ _) ).
    + apply NoDup_fmap_fst.
      * intros k r1 r2 [_ H1%elem_of_map_to_list]%list_elem_of_filter
                       [_ H2%elem_of_map_to_list]%list_elem_of_filter. congruence.
      * apply NoDup_filter, NoDup_map_to_list.
    + intros i [[hu pu] r] [[Hh _] _]%list_elem_of_lookup_2%list_elem_of_filter.
      cbn in *. by subst.
  - intros profileUUID. rewrite list_elem_of_fmap. split.
    + intros (p & -> & (r & Hr & Hv & _)%elem_of_GetHostMDMWindowsProfiles).
      exists r. split; [done|]. apply visible_profile_true in Hv as [?|[H1 H2]]; [by left|].
      right. unfold status_or_pending in *. split; intros Hs; rewrite Hs in *; done.
    + intros (r & Hr & Hv).
      exists {| hp_ProfileUUID := profileUUID; hp_Name := hmwp_profile_name r;
                hp_Status := status_or_pending r;
                hp_OperationType := hmwp_operation_type r;
                hp_Detail := default "" (hmwp_detail r) |}.
      split; [done|]. apply elem_of_GetHostMDMWindowsProfiles. exists r.
      split_and!; [done| |done]. apply visible_profile_true.
      destruct Hv as [?|[H1 H2]]; [by left|right].
      unfold status_or_pending. destruct (hmwp_status r) as [[]|]; done.
  - intros p (r & Hr & _ & Hp)%elem_of_GetHostMDMWindowsProfiles.
    exists r. rewrite Hp. done.
Qed.

End HostProfiles.

(** ** The host filter of the install and remove lists *)

Section HostFilter.

Implicit Types (db : DB) (hostUUIDs : list string).

Lemma filter_bind {A B} (P : B → Prop) `{!∀ y, Decision (P y)}
    (f : A → list B) (l : list A) :
  filter P (l ≫= f) = l ≫= (λ x, filter P (f x)).
Proof.
  induction l as [|x l IH]; [done|].
  by rewrite !bind_cons, filter_app, IH.
Qed.

Lemma filter_fmap {A B} (P : B → Prop) `{!∀ y, Decision (P y)}
    (f : A → B) (l : list A) :
  filter P (f <$> l) = f <$> filter (λ x, P (f x)) l.
Proof.
  induction l as [|x l IH]; [done|].
  rewrite fmap_cons, !filter_cons, IH. by case_decide.
Qed.

Lemma desired_state_filter db (F : string → bool) :
  desired_state db F
  = filter (λ d, F (h_uuid d.2) = true) (desired_state db (λ _, true)).
Proof.
  unfold desired_state. rewrite filter_bind.
  apply list_bind_ext; [|done]. intros mwcp. rewrite filter_bind.
  apply list_bind_ext; [|done]. intros h. rewrite filter_bind.
  apply list_bind_ext; [|done]. intros mwe.
  destruct (sql_true (team_join mwcp h)), (bool_decide (HostUUID mwe = h_uuid h)),
    (String.eqb (h_platform h) "windows"); cbn [andb]; try done.
  rewrite filter_cons. cbn. by destruct (F (h_uuid h)).
Qed.

(** In the model a query returns its rows in table order, so the
    filtered lists are sublists of the unfiltered ones. *)
Lemma host_filter_lists_in_table_order db hostUUIDs :
  listMDMWindowsProfilesToInstallDB db hostUUIDs
  = filter (λ p, hostFilter hostUUIDs (pp_HostUUID p) = true)
           (ListMDMWindowsProfilesToInstall db)
  ∧ listMDMWindowsProfilesToRemoveDB db hostUUIDs
    = filter (λ p, hostFilter hostUUIDs (pp_HostUUID p) = true)
             (ListMDMWindowsProfilesToRemove db).
Proof.
  unfold ListMDMWindowsProfilesToInstall, ListMDMWindowsProfilesToRemove.
  unfold listMDMWindowsProfilesToInstallDB, listMDMWindowsProfilesToRemoveDB.
  rewrite !filter_fmap. cbn [pp_HostUUID]. split; f_equal.
  - rewrite (desired_state_filter db (hostFilter hostUUIDs)).
    rewrite (desired_state_filter db (hostFilter [])).
    rewrite !list_filter_filter. apply list_filter_iff. intros d. cbn. naive_solver.
  - rewrite list_filter_filter. apply list_filter_iff. intros [[hu pu] r].
    unfold to_remove. cbn. rewrite !andb_true_iff. naive_solver.
Qed.

(** X28. The host filter of the two list queries only restricts them: for
    any host uuids, the install list and the remove list hold, up to the
    order of the rows, which the queries do not fix, the entries that
    ListMDMWindowsProfilesToInstall and ListMDMWindowsProfilesToRemove
    return for all hosts, each as often, without the entries of the hosts
    that are not named. *)
Theorem host_filter_restricts_the_lists db hostUUIDs :
  listMDMWindowsProfilesToInstallDB db hostUUIDs
  ≡ₚ filter (λ p, hostFilter hostUUIDs (pp_HostUUID p) = true)
            (ListMDMWindowsProfilesToInstall db)
  ∧ listMDMWindowsProfilesToRemoveDB db hostUUIDs
    ≡ₚ filter (λ p, hostFilter hostUUIDs (pp_HostUUID p) = true)
              (ListMDMWindowsProfilesToRemove db).
Proof.
  destruct (host_filter_lists_in_table_order db hostUUIDs) as [Hi Hr].
  split.
  - by rewrite Hi.
  - by rewrite Hr.
Qed.

End HostFilter.

Lemma bulk_delete_undoes_bulk_upsert_witness :
  BulkDeleteMDMWindowsHostsConfigProfiles (ds_batch_of 0)
    [payload_key_P1; payload_key_P9]
    (BulkUpsertMDMWindowsHostProfiles (ds_batch_of 1)
       [payload_install_P1; payload_remove_P9] empty_db)
  = empty_db.
Proof.
  apply (bulk_delete_undoes_bulk_upsert (ds_batch_of 1) (ds_batch_of 0)
           [payload_install_P1; payload_remove_P9]
           [payload_key_P1; payload_key_P9] empty_db).
  - reflexivity.
  - intros p _. reflexivity.
Defined.

Lemma bulkSetPending_reaches_desired_state_witness :
  let db' := bulkSetPendingMDMWindowsHostProfilesDB (ds_batch_of 1) ["H1"] db_reconcile in
  listMDMWindowsProfilesToRemoveDB db' ["H1"] = []
  ∧ (∀ d, d ∈ desired_state db_reconcile (hostFilter ["H1"]) →
          is_Some (host_mdm_windows_profiles db' !! ds_key d))
  ∧ (∀ k, k ∈ pp_key <$> listMDMWindowsProfilesToInstallDB db_reconcile ["H1"] →
          k ∈ pp_key <$> listMDMWindowsProfilesToInstallDB db' ["H1"])
  ∧ (∀ k, k.1 ∉ ["H1"] →
          host_mdm_windows_profiles db' !! k
          = host_mdm_windows_profiles db_reconcile !! k).
Proof.
  apply (bulkSetPending_reaches_desired_state (ds_batch_of 1) ["H1"] db_reconcile).
  discriminate.
Defined.

Lemma bulkSetPending_keeps_rows_in_flight_witness :
  let db' := bulkSetPendingMDMWindowsHostProfilesDB (ds_batch_of 1) ["H1"] db_reconcile in
  let waiting :=
    sql_true (operation_is MDMOperationTypeInstall row_P1_verified
              &&& is_null (hmwp_status row_P1_verified)) in
  (waiting = false → host_mdm_windows_profiles db' !! ("H1", "P1") = Some row_P1_verified)
  ∧ (waiting = true → hostFilter ["H1"] ("H1", "P1").1 = true →
     ∃ r', host_mdm_windows_profiles db' !! ("H1", "P1") = Some r' ∧ is_reset r'
           ∧ hmwp_profile_name r' = hmwp_profile_name row_P1_verified).
Proof.
  apply (bulkSetPending_keeps_rows_in_flight (ds_batch_of 1) ["H1"] db_reconcile
           ("H1", "P1") row_P1_verified).
  - discriminate.
  - reflexivity.
  - vm_compute. apply elem_of_cons. by left.
Defined.

Lemma new_profile_is_stored_witness :
  ProfileUUID profile_U4 = "U4" ∧ TeamID profile_U4 = TeamID profile_N4
  ∧ GetMDMWindowsConfigProfile db_reconcile "U4" = Err (notFound "MDMWindowsProfile")
  ∧ GetMDMWindowsConfigProfile db_with_N4 "U4"
    = Ok {| ProfileUUID := "U4"; TeamID := Some (default 0%N (TeamID profile_N4));
            Name := Name profile_N4; cp_SyncML := cp_SyncML profile_N4 |}
  ∧ GetMDMWindowsProfilesContents db_with_N4 ["U4"]
    = Some {[ "U4" := cp_SyncML profile_N4 ]}
  ∧ ∀ u, u ≠ "U4" →
         GetMDMWindowsConfigProfile db_with_N4 u = GetMDMWindowsConfigProfile db_reconcile u
         ∧ GetMDMWindowsProfilesContents db_with_N4 [u]
           = GetMDMWindowsProfilesContents db_reconcile [u].
Proof.
  apply (new_profile_is_stored "U4" profile_N4 db_reconcile profile_U4 db_with_N4).
  reflexivity.
Defined.

Lemma delete_undoes_new_profile_witness :
  DeleteMDMWindowsConfigProfile "U4" db_with_N4 = (Ok (), db_reconcile).
Proof.
  apply (delete_undoes_new_profile "U4" profile_N4 db_reconcile profile_U4 db_with_N4).
  reflexivity.
Defined.

Lemma GetMDMWindowsProfilesContents_of_listed_witness :
  GetMDMWindowsProfilesContents db_with_N4 [] = None
  ∧ ∃ m, GetMDMWindowsProfilesContents db_with_N4 ["U4"; "P7"] = Some m
         ∧ ∀ u, m !! u = if decide (u ∈ ["U4"; "P7"])
                         then match GetMDMWindowsConfigProfile db_with_N4 u with
                              | Ok p => Some (cp_SyncML p)
                              | _ => None
                              end
                         else None.
Proof.
  apply (GetMDMWindowsProfilesContents_of_listed ["U4"; "P7"] db_with_N4).
  - discriminate.
  - apply (bool_decide_unpack _). vm_compute. exact I.
Defined.

(** ** Batch-setting the profiles of a team *)

Section BatchSet.

Implicit Types (db tx : DB) (r : mdm_windows_configuration_profiles_row).
Implicit Types (range : list (string * MDMWindowsConfigProfile)).

Local Abbreviation rows_of := mdm_windows_configuration_profiles.

Lemma lookup_incomingProfs_of (profiles : list MDMWindowsConfigProfile) (n : string) :
  incomingProfs_of profiles !! n = last (filter (λ p, Name p = n) profiles).
Proof.
  unfold incomingProfs_of.
  induction profiles as [|p l IH] using rev_ind; [done|].
  rewrite fold_left_app, filter_app. cbn [fold_left].
  destruct (decide (Name p = n)) as [<-|Hne].
  - rewrite lookup_insert_eq.
    rewrite (filter_cons_True _ p) by done. by rewrite filter_nil, last_snoc.
  - rewrite lookup_insert_ne by done.
    rewrite (filter_cons_False _ p) by done. by rewrite filter_nil, app_nil_r.
Qed.

Lemma last_filter_Some {A} (P : A → Prop) `{!∀ x, Decision (P x)} (l : list A) x :
  last (filter P l) = Some x → P x ∧ x ∈ l.
Proof.
  intros [l' Hl]%last_Some.
  assert (Hx : x ∈ filter P l) by (rewrite Hl; apply elem_of_app; right; by left).
  by apply list_elem_of_filter in Hx.
Qed.

Lemma is_Some_incomingProfs_of (profiles : list MDMWindowsConfigProfile) (n : string) :
  is_Some (incomingProfs_of profiles !! n) ↔ n ∈ Name <$> profiles.
Proof.
  rewrite lookup_incomingProfs_of. split.
  - intros [p [<- Hp]%last_filter_Some]. by apply list_elem_of_fmap_2.
  - intros (p & -> & Hp)%list_elem_of_fmap.
    destruct (last _) as [q|] eqn:Hl; [by eexists|].
    apply last_None in Hl.
    assert (Hin : p ∈ filter (λ q, Name q = Name p) profiles)
      by (by apply list_elem_of_filter).
    rewrite Hl in Hin. by apply elem_of_nil in Hin.
Qed.

Lemma filter_ext_in {A} (P Q : A → Prop) `{!∀ x, Decision (P x)}
    `{!∀ x, Decision (Q x)} (l : list A) :
  (∀ x, x ∈ l → P x ↔ Q x) → filter P l = filter Q l.
Proof.
  induction l as [|x l IH]; [done|]. intros Hext.
  rewrite !filter_cons, IH by (intros y Hy; apply Hext; by right).
  destruct (decide (P x)) as [HP|HP]; [rewrite decide_True|rewrite decide_False]; try done.
  - apply Hext; [by left|done].
  - intros HQ. apply HP, Hext; [by left|done].
Qed.

(** *** One upsert *)

Lemma collides_iff (T : N) (p : MDMWindowsConfigProfile) r :
  N.eqb (mwcp_team_id r) T && String.eqb (mwcp_name r) (Name p) = true
  ↔ mwcp_team_id r = T ∧ mwcp_name r = Name p.
Proof. by rewrite andb_true_iff, N.eqb_eq, String.eqb_eq. Qed.

Lemma insertNewOrEditedProfile_inv T uuid (p : MDMWindowsConfigProfile) tx r' :
  r' ∈ rows_of (insertNewOrEditedProfile T uuid p tx) →
  (r' ∈ rows_of tx ∧ ¬ (mwcp_team_id r' = T ∧ mwcp_name r' = Name p))
  ∨ (mwcp_team_id r' = T ∧ mwcp_name r' = Name p ∧ mwcp_syncml r' = cp_SyncML p).
Proof.
  unfold insertNewOrEditedProfile. cbn zeta.
  destruct (existsb _ (rows_of tx)) eqn:Hex;
    cbn [mdm_windows_configuration_profiles set_mdm_windows_configuration_profiles].
  - intros (r & -> & Hr)%list_elem_of_fmap.
    destruct (N.eqb (mwcp_team_id r) T && String.eqb (mwcp_name r) (Name p)) eqn:Hc.
    + apply collides_iff in Hc as [Ht Hn]. right. by cbn.
    + left. split; [done|]. intros Hc'%collides_iff. congruence.
  - intros [Hr| ->%list_elem_of_singleton]%elem_of_app; [|by right].
    left. split; [done|]. intros Hc%collides_iff.
    assert (existsb (λ r, N.eqb (mwcp_team_id r) T
                          && String.eqb (mwcp_name r) (Name p)) (rows_of tx) = true)
      as Hex'; [|congruence].
    apply existsb_exists. exists r'. split; [by apply list_elem_of_In|done].
Qed.

Lemma insertNewOrEditedProfile_keeps T uuid (p : MDMWindowsConfigProfile) tx r :
  r ∈ rows_of tx →
  ∃ r', r' ∈ rows_of (insertNewOrEditedProfile T uuid p tx)
        ∧ mwcp_profile_uuid r' = mwcp_profile_uuid r
        ∧ mwcp_team_id r' = mwcp_team_id r
        ∧ mwcp_name r' = mwcp_name r
        ∧ (¬ (mwcp_team_id r = T ∧ mwcp_name r = Name p) → r' = r).
Proof.
  intros Hr. unfold insertNewOrEditedProfile. cbn zeta.
  destruct (existsb _ (rows_of tx)) eqn:Hex;
    cbn [mdm_windows_configuration_profiles set_mdm_windows_configuration_profiles].
  - destruct (N.eqb (mwcp_team_id r) T && String.eqb (mwcp_name r) (Name p)) eqn:Hc.
    + eexists. split.
      * apply list_elem_of_fmap. exists r. split; [|done]. by rewrite Hc.
      * apply collides_iff in Hc as [Ht Hn]. cbn. split_and!; [done..|].
        intros Hno. by destruct Hno.
    + exists r. split_and!; try done.
      apply list_elem_of_fmap. exists r. split; [|done]. by rewrite Hc.
  - exists r. split_and!; try done. apply elem_of_app. by left.
Qed.

Lemma insertNewOrEditedProfile_stores T uuid (p : MDMWindowsConfigProfile) tx :
  ∃ r', r' ∈ rows_of (insertNewOrEditedProfile T uuid p tx)
        ∧ mwcp_team_id r' = T ∧ mwcp_name r' = Name p.
Proof.
  unfold insertNewOrEditedProfile. cbn zeta.
  destruct (existsb _ (rows_of tx)) eqn:Hex;
    cbn [mdm_windows_configuration_profiles set_mdm_windows_configuration_profiles].
  - apply existsb_exists in Hex as (r & Hr%list_elem_of_In & Hc).
    eexists. split.
    + apply list_elem_of_fmap. exists r. split; [|done]. by rewrite Hc.
    + apply collides_iff in Hc as [Ht Hn]. by cbn.
  - eexists. split; [apply elem_of_app; right; by left|done].
Qed.

(** *** The loop *)

Lemma insertProfiles_inv T UUID range i tx r' :
  r' ∈ rows_of (insertProfiles T UUID i range tx) →
  mwcp_team_id r' ≠ T ∨ mwcp_name r' ∉ (λ kp, Name kp.2) <$> range →
  r' ∈ rows_of tx.
Proof.
  revert i tx. induction range as [|[k p] range IH]; intros i tx Hr' Hno; [done|].
  cbn [insertProfiles] in Hr'.
  assert (Hno' : mwcp_team_id r' ≠ T ∨ mwcp_name r' ∉ (λ kp, Name kp.2) <$> range).
  { destruct Hno as [?|Hn]; [by left|]. right. intros ?. apply Hn. by right. }
  apply IH in Hr'; [|done].
  apply insertNewOrEditedProfile_inv in Hr' as [[? _]|(Ht & Hn & _)]; [done|].
  exfalso. destruct Hno as [?|Hno]; [done|]. apply Hno. rewrite Hn. by left.
Qed.

Lemma insertProfiles_keeps T UUID range i tx r :
  r ∈ rows_of tx →
  ∃ r', r' ∈ rows_of (insertProfiles T UUID i range tx)
        ∧ mwcp_profile_uuid r' = mwcp_profile_uuid r
        ∧ mwcp_team_id r' = mwcp_team_id r
        ∧ mwcp_name r' = mwcp_name r
        ∧ (mwcp_team_id r ≠ T → r' = r).
Proof.
  revert i tx r. induction range as [|[k p] range IH]; intros i tx r Hr.
  - by exists r.
  - cbn [insertProfiles].
    destruct (insertNewOrEditedProfile_keeps T (UUID i) p tx r Hr)
      as (r1 & Hr1 & Hu1 & Ht1 & Hn1 & Hsame1).
    destruct (IH (S i) _ r1 Hr1) as (r' & Hr' & Hu & Ht & Hn & Hsame).
    exists r'. split_and!; [done|by rewrite Hu|by rewrite Ht|by rewrite Hn|].
    intros Hne. rewrite Hsame by (by rewrite Ht1). apply Hsame1. by intros [? _].
Qed.

Lemma insertProfiles_stores T UUID range i tx (n : string) :
  n ∈ (λ kp, Name kp.2) <$> range →
  ∃ r', r' ∈ rows_of (insertProfiles T UUID i range tx)
        ∧ mwcp_team_id r' = T ∧ mwcp_name r' = n.
Proof.
  revert i tx. induction range as [|[k p] range IH]; intros i tx; [by intros ?%elem_of_nil|].
  rewrite fmap_cons. cbn [insertProfiles]. intros [->|Hin]%elem_of_cons; [|by apply IH].
  destruct (insertNewOrEditedProfile_stores T (UUID i) p tx) as (r1 & Hr1 & Ht1 & Hn1).
  destruct (insertProfiles_keeps T UUID range (S i) _ r1 Hr1)
    as (r' & Hr' & _ & Ht & Hn & _).
  exists r'. cbn [snd]. split_and!; [done|by rewrite Ht|by rewrite Hn].
Qed.

Lemma insertProfiles_content T UUID range i tx r' k (p : MDMWindowsConfigProfile) :
  NoDup ((λ kp, Name kp.2) <$> range) →
  r' ∈ rows_of (insertProfiles T UUID i range tx) →
  mwcp_team_id r' = T →
  (k, p) ∈ range → Name p = mwcp_name r' →
  mwcp_syncml r' = cp_SyncML p.
Proof.
  revert i tx. induction range as [|[k0 p0] range IH]; intros i tx Hnd Hr' Ht Hin Hn;
    [by apply elem_of_nil in Hin|].
  rewrite fmap_cons in Hnd. apply NoDup_cons in Hnd as [Hfresh Hnd].
  cbn [insertProfiles] in Hr'.
  apply elem_of_cons in Hin as [[= <- <-]|Hin]; [|by apply (IH (S i) _ Hnd Hr')].
  apply insertProfiles_inv in Hr'; [|right; cbn in Hfresh; by rewrite <- Hn].
  apply insertNewOrEditedProfile_inv in Hr' as [[_ Hno]|(_ & _ & Hs)]; [|done].
  exfalso. by apply Hno.
Qed.

(** *** The transaction *)

Lemma batchSetTx_delete T (profiles : list MDMWindowsConfigProfile) UUID range tx tx' :
  batchSetTx T profiles UUID range tx = Ok tx' →
  tx' = insertProfiles T UUID 0 range
          (set_mdm_windows_configuration_profiles
             (filter (λ r, mwcp_team_id r ≠ T ∨ mwcp_name r ∈ Name <$> profiles)
                     (rows_of tx)) tx).
Proof.
  unfold batchSetTx. cbn zeta. intros [= <-]. f_equal.
  set (existing := match Name <$> profiles with [] => [] | _ => _ end).
  assert (Hex : ∀ r, r ∈ existing ↔
            r ∈ rows_of tx ∧ mwcp_team_id r = T ∧ mwcp_name r ∈ Name <$> profiles).
  { intros r. unfold existing. destruct (Name <$> profiles) as [|n ns] eqn:Hn.
    - split; [by intros ?%elem_of_nil|]. by intros (_ & _ & ?%elem_of_nil).
    - rewrite list_elem_of_filter. naive_solver. }
  set (keepNames := filter _ (mwcp_name <$> existing)).
  assert (Hkeep : ∀ n, n ∈ keepNames ↔
            ∃ r, r ∈ rows_of tx ∧ mwcp_team_id r = T ∧ mwcp_name r = n
                 ∧ n ∈ Name <$> profiles).
  { intros n. unfold keepNames. rewrite list_elem_of_filter, list_elem_of_fmap.
    rewrite is_Some_incomingProfs_of. setoid_rewrite Hex. naive_solver. }
  clearbody keepNames existing.
  destruct keepNames as [|n0 keep] eqn:Hk; f_equal.
  - apply filter_ext_in. intros r Hr. split; [by left|].
    intros [?|Hin]; [done|]. intros Ht.
    assert (Hn : mwcp_name r ∈ @nil string) by (apply Hkeep; by exists r).
    by apply elem_of_nil in Hn.
  - apply filter_ext_in. intros r Hr. rewrite <- Hk in *. split.
    + intros Hno. destruct (decide (mwcp_team_id r = T)) as [Ht|?]; [|by left].
      right. destruct (decide (mwcp_name r ∈ keepNames)) as [Hin|Hni].
      * apply Hkeep in Hin as (_ & _ & _ & _ & ?). done.
      * exfalso. by apply Hno.
    + intros [Hne|Hin] [Ht Hni]; [done|]. apply Hni, Hkeep. by exists r.
Qed.


End BatchSet.

